(** * AlphaChain: the data aggregator and its merge engine

    A shallow embedding of [src/data_sources/data_aggregator.py],
    [src/models/crypto_data.py], [src/data_sources/base.py] and the symbol
    tables, price and history functions of the provider adapters, with the
    properties of the reconciliation layer stated and proved over it.

    Conventions of the embedding.
    - Only the order of [datetime] values is used, so a [datetime] is an
      integer (its instant). The timestamps of snapshots and indicators are
      naive: every adapter builds them with [utcnow] or [fromtimestamp]. A
      [PriceData] of a price history may also carry an aware timestamp
      (Bloomberg parses its timestamps with [fromisoformat]); it has a flag
      for that, since Python refuses to order a naive against an aware
      [datetime].
    - Python [float] fields (prices, volumes, indicator values) are carried
      around by the aggregator and never computed on; they are rationals.
      The one float computation, the average sentiment score, divides an
      integer in [-n, n] by the positive integer [n] and compares with the
      literals 0.3 and -0.3; it is done here in exact rational arithmetic,
      which agrees with the correctly rounded division of CPython for every
      list shorter than 10^15 labels (a quotient t/n other than 3/10 is at
      least 1/(10n) away from it, far more than half an ulp).
    - [asyncio.gather(..., return_exceptions=True)] yields, per task, either
      the value the coroutine returned or the exception it raised: the
      type [outcome].
    - A Python [dict] is an association list in insertion order. *)

From Stdlib Require Import ZArith QArith Lqa String Ascii List Lia.
From stdpp Require Import base option list strings sorting.

Open Scope string_scope.
Open Scope Z_scope.
Open Scope list_scope.

(* ===================================================================== *)
(** ** Python values *)
(* ===================================================================== *)

(** The instant of a [datetime]. Two naive values, or two aware values, are
    ordered as their instants are. *)
Definition datetime := Z.

(** What a coroutine run under [gather(return_exceptions=True)] leaves in
    its slot. [Raised] stands for an instance of [Exception], the class the
    fan-in loops test for; exceptions are carried as their message. *)
Inductive outcome (A : Type) : Type :=
| Returned (a : A)
| Raised (e : string).
Arguments Returned {A} a.
Arguments Raised {A} e.

(** [bool(s)] for [Optional[str]]: [None] and the empty string are falsy. *)
Definition truthy_str (s : option string) : bool :=
  match s with
  | Some (String _ _) => true
  | _ => false
  end.

(** [bool(x)] for [Optional[float]]: [None] and zero are falsy. *)
Definition truthy_float (x : option Q) : bool :=
  match x with
  | Some q => negb (Qeq_bool q 0)
  | None => false
  end.

(** [str.isascii()]: every character is below 128. *)
Fixpoint isascii (s : string) : bool :=
  match s with
  | EmptyString => true
  | String c s' => (nat_of_ascii c <? 128)%nat && isascii s'
  end.

(** [str.upper()] on ASCII text, character by character. Outside ASCII
    Python's [upper] follows the Unicode case mappings, which may also
    change the number of characters; [upper] below leaves such characters
    as they are, and is [str.upper()] on text for which [isascii] holds. *)
Definition upper_ascii (c : ascii) : ascii :=
  let n := nat_of_ascii c in
  if (97 <=? n)%nat && (n <=? 122)%nat then ascii_of_nat (n - 32) else c.

Fixpoint upper (s : string) : string :=
  match s with
  | EmptyString => EmptyString
  | String c s' => String (upper_ascii c) (upper s')
  end.

(** [s.replace(c, "")] for a one-character pattern [c]. *)
Fixpoint remove_char (c : ascii) (s : string) : string :=
  match s with
  | EmptyString => EmptyString
  | String d s' =>
      if Ascii.eqb c d then remove_char c s' else String d (remove_char c s')
  end.

(** [str.lower()] on ASCII text. *)
Definition lower_ascii (c : ascii) : ascii :=
  let n := nat_of_ascii c in
  if (65 <=? n)%nat && (n <=? 90)%nat then ascii_of_nat (n + 32) else c.

Fixpoint lower (s : string) : string :=
  match s with
  | EmptyString => EmptyString
  | String c s' => String (lower_ascii c) (lower s')
  end.

(** [needle in hay] for strings: [needle] occurs as a substring. *)
Fixpoint contains (needle hay : string) : bool :=
  String.prefix needle hay
  || match hay with
     | EmptyString => false
     | String _ hay' => contains needle hay'
     end.

(** [a > b] and [a < b] on numbers. *)
Definition Qgt_bool (a b : Q) : bool := negb (Qle_bool a b).
Definition Qlt_bool (a b : Q) : bool := negb (Qle_bool b a).

(** Insertion-ordered dictionaries. *)
Section Dict.
Context {K V : Type} `{EqDecision K}.

Definition dict := list (K * V).

Fixpoint dict_get (d : dict) (k : K) : option V :=
  match d with
  | [] => None
  | (k', v) :: d' => if decide (k = k') then Some v else dict_get d' k
  end.

(** [d[k] = v]: an existing key keeps its position, a new one goes last. *)
Fixpoint dict_set (d : dict) (k : K) (v : V) : dict :=
  match d with
  | [] => [(k, v)]
  | (k', v') :: d' =>
      if decide (k = k') then (k, v) :: d' else (k', v') :: dict_set d' k v
  end.

Definition dict_keys (d : dict) : list K := map fst d.
Definition dict_values (d : dict) : list V := map snd d.
End Dict.
Arguments dict K V : clear implicits.

(* ===================================================================== *)
(** ** The canonical data model ([models/crypto_data.py]) *)
(* ===================================================================== *)

Inductive DataSource := BLOOMBERG | TRADINGVIEW | GLASSNODE | DEFILLAMA.

#[global] Instance DataSource_eq_dec : EqDecision DataSource.
Proof. solve_decision. Defined.

(** [tz_aware] is [timestamp.tzinfo is not None]: whether the [datetime]
    held by [timestamp] is aware. *)
Module PriceData.
Record t := mk {
  symbol : string;
  price : Q;
  volume : Q;
  market_cap : option Q;
  timestamp : datetime;
  tz_aware : bool;
  source : DataSource
}.
End PriceData.

Module TechnicalIndicator.
Record t := mk {
  name : string;
  value : Q;
  signal : string;
  timestamp : datetime;
  source : DataSource
}.
End TechnicalIndicator.

Module MarketData.
Record t := mk {
  symbol : string;
  price_data : PriceData.t;
  technical_indicators : list TechnicalIndicator.t;
  market_sentiment : option string;
  volatility : option Q;
  timestamp : datetime;
  source : DataSource
}.

(** [md.technical_indicators = inds] *)
Definition set_technical_indicators (md : t) (inds : list TechnicalIndicator.t) : t :=
  mk (symbol md) (price_data md) inds (market_sentiment md) (volatility md)
     (timestamp md) (source md).
End MarketData.

(** Values of the [fundamental_data] dictionary. *)
Inductive fundamental_value :=
| FFloat (x : Q)
| FBool (b : bool).

Module CryptoData.
Record t := mk {
  symbol : string;
  name : string;
  market_data : list MarketData.t;
  fundamental_data : dict string fundamental_value;
  news_sentiment : option string;
  last_updated : datetime
}.

(** [self.market_data[-1].price_data.price], [None] on an empty list. *)
Definition get_latest_price (self : t) : option Q :=
  match last (market_data self) with
  | None => None
  | Some md => Some (PriceData.price (MarketData.price_data md))
  end.
(** [get_price_change_24h]: the last two entries of the list, as
    [market_data[-1]] and [market_data[-2]]; a zero previous price makes the
    float division raise. *)
Definition get_price_change_24h (self : t) : outcome (option Q) :=
  match rev (market_data self) with
  | current :: previous :: _ =>
      let current_price := PriceData.price (MarketData.price_data current) in
      let previous_price := PriceData.price (MarketData.price_data previous) in
      if Qeq_bool previous_price 0
      then Raised "ZeroDivisionError"
      else Returned
             (Some (((current_price - previous_price) / previous_price) * 100)%Q)
  | _ => Returned None
  end.

(** The inner loop of [get_technical_signal]. *)
Fixpoint find_signal (indicator_name : string)
    (indicators : list TechnicalIndicator.t) : option string :=
  match indicators with
  | [] => None
  | indicator :: rest =>
      if decide (TechnicalIndicator.name indicator = indicator_name)
      then Some (TechnicalIndicator.signal indicator)
      else find_signal indicator_name rest
  end.

Fixpoint signal_in (indicator_name : string) (l : list MarketData.t)
    : option string :=
  match l with
  | [] => None
  | market_data :: rest =>
      match find_signal indicator_name (MarketData.technical_indicators market_data) with
      | Some signal => Some signal
      | None => signal_in indicator_name rest
      end
  end.

Definition get_technical_signal (self : t) (indicator_name : string)
    : option string :=
  signal_in indicator_name (market_data self).
End CryptoData.

(* ===================================================================== *)
(** ** The adapter interface ([data_sources/base.py]) *)
(* ===================================================================== *)

(** What one call of each coroutine of an adapter does: the value it returns
    or the exception it raises. The network behind an adapter is part of the
    adapter. *)
Class BaseDataSource (S : Type) := {
  get_crypto_price : S -> string -> outcome (option PriceData.t);
  get_historical_prices :
    S -> string -> datetime -> datetime -> outcome (list PriceData.t);
  get_market_data : S -> string -> outcome (option MarketData.t);
  close : S -> outcome unit
}.

(** [BaseDataSource._validate_symbol] *)
Definition _validate_symbol (symbol : string) : string :=
  remove_char "_" (remove_char "-" (upper symbol)).

(* ===================================================================== *)
(** ** [asyncio.gather] *)
(* ===================================================================== *)

(** [gather] keeps one slot per awaitable, in the order the awaitables were
    given. Tasks settle in some [order] (task indices, in completion order);
    a task that settles writes its outcome into its own slot. The await
    returns once every slot is filled, with the slots in slot order; it does
    not return ([None]) while a slot is empty. *)
Section Gather.
Context {A : Type}.

Definition settle (tasks : list (outcome A))
    (slots : list (option (outcome A))) (i : nat) : list (option (outcome A)) :=
  match tasks !! i with
  | Some r => <[i := Some r]> slots
  | None => slots
  end.

Definition gather (order : list nat) (tasks : list (outcome A))
    : option (list (outcome A)) :=
  mapM id (fold_left (settle tasks) order (replicate (length tasks) None)).
End Gather.

(* ===================================================================== *)
(** ** The aggregator ([data_sources/data_aggregator.py]) *)
(* ===================================================================== *)

Module DataAggregator.

(** *** The merge engine *)

(** [max(market_data_list, key=lambda x: x.timestamp)], as the position of
    the element it returns: the first one whose key is maximal (a later
    element replaces the current one only when its key is strictly
    greater). *)
Fixpoint max_from (best : nat) (best_ts : datetime) (i : nat)
    (l : list MarketData.t) : nat :=
  match l with
  | [] => best
  | md :: l' =>
      if (best_ts <? MarketData.timestamp md)%Z
      then max_from i (MarketData.timestamp md) (S i) l'
      else max_from best best_ts (S i) l'
  end.

Definition max_by_timestamp (l : list MarketData.t) : option nat :=
  match l with
  | [] => None
  | md :: l' => Some (max_from 0%nat (MarketData.timestamp md) 1%nat l')
  end.

(** [all_indicators]: the pool, provider after provider. *)
Definition all_indicators (market_data_list : list MarketData.t)
    : list TechnicalIndicator.t :=
  flat_map MarketData.technical_indicators market_data_list.

(** One turn of the loop over [all_indicators]. *)
Definition dedup_step (unique_indicators : dict string TechnicalIndicator.t)
    (indicator : TechnicalIndicator.t) : dict string TechnicalIndicator.t :=
  let key := TechnicalIndicator.name indicator in
  match dict_get unique_indicators key with
  | None => dict_set unique_indicators key indicator
  | Some cur =>
      if (TechnicalIndicator.timestamp cur <? TechnicalIndicator.timestamp indicator)%Z
      then dict_set unique_indicators key indicator
      else unique_indicators
  end.

Definition unique_indicators (pool : list TechnicalIndicator.t)
    : dict string TechnicalIndicator.t :=
  fold_left dedup_step pool [].

Definition sentiment_scores : dict string Z :=
  [("bullish", 1); ("bearish", -1); ("neutral", 0)].

Definition total_score (sentiments : list string) : Z :=
  foldr (fun s acc => default 0 (dict_get sentiment_scores s) + acc) 0 sentiments.

Definition avg_score (sentiments : list string) : Q :=
  (inject_Z (total_score sentiments) / inject_Z (Z.of_nat (length sentiments)))%Q.

Definition _calculate_aggregated_sentiment (sentiments : list string)
    : option string :=
  match sentiments with
  | [] => None
  | _ =>
      let avg := avg_score sentiments in
      if negb (Qle_bool avg (3 # 10)) then Some "bullish"
      else if negb (Qle_bool (- (3 # 10)) avg) then Some "bearish"
      else Some "neutral"
  end.

Definition extract_step (fundamental_data : dict string fundamental_value)
    (market_data : MarketData.t) : dict string fundamental_value :=
  let fd1 :=
    match PriceData.market_cap (MarketData.price_data market_data) with
    | Some c =>
        if truthy_float (Some c)
        then dict_set fundamental_data "market_cap" (FFloat c)
        else fundamental_data
    | None => fundamental_data
    end in
  let fd2 :=
    match MarketData.volatility market_data with
    | Some v =>
        if truthy_float (Some v) then dict_set fd1 "volatility" (FFloat v) else fd1
    | None => fd1
    end in
  match MarketData.source market_data with
  | GLASSNODE => dict_set fd2 "on_chain_metrics" (FBool true)
  | DEFILLAMA => dict_set fd2 "defi_metrics" (FBool true)
  | _ => fd2
  end.

Definition _extract_fundamental_data (market_data_list : list MarketData.t)
    : dict string fundamental_value :=
  fold_left extract_step market_data_list [].

(** [[md.market_sentiment for md in market_data_list if md.market_sentiment]] *)
Definition sentiments_of (market_data_list : list MarketData.t) : list string :=
  omap (fun md =>
          if truthy_str (MarketData.market_sentiment md)
          then MarketData.market_sentiment md else None)
       market_data_list.

(** [_aggregate_market_data]. The elements of [market_data_list] are
    objects shared with the caller; [latest_market_data] is one of them,
    and the assignment to its [technical_indicators] is seen through the
    list: the list after the assignment is [merged_list], and it is what
    the rest of the function reads and what the record holds.
    [now] is the reading of [datetime.utcnow()]. *)
Definition merged_list (market_data_list : list MarketData.t) (latest : nat)
    : list MarketData.t :=
  alter (fun md =>
           MarketData.set_technical_indicators md
             (dict_values (unique_indicators (all_indicators market_data_list))))
        latest market_data_list.

Definition _aggregate_market_data (now : datetime) (symbol : string)
    (market_data_list : list MarketData.t) : option CryptoData.t :=
  match max_by_timestamp market_data_list with
  | None => None
  | Some latest =>
      let mdl := merged_list market_data_list latest in
      Some (CryptoData.mk symbol symbol mdl
              (_extract_fundamental_data mdl)
              (_calculate_aggregated_sentiment (sentiments_of mdl))
              now)
  end.

(** *** Fan-out and fan-in *)

(** The loop over [results] that keeps what a task returned when it is
    neither an exception nor falsy. A [MarketData] or [PriceData] object is
    always truthy, so only [None] is dropped. *)
Fixpoint usable {A : Type} (results : list (outcome (option A))) : list A :=
  match results with
  | [] => []
  | Raised _ :: rs => usable rs
  | Returned None :: rs => usable rs
  | Returned (Some a) :: rs => a :: usable rs
  end.

(** The same loop over list-valued results, [extend]ing the accumulator; an
    empty list is falsy and skipped, which extends by nothing all the
    same. *)
Fixpoint extended {A : Type} (results : list (outcome (list A))) : list A :=
  match results with
  | [] => []
  | Raised _ :: rs => extended rs
  | Returned [] :: rs => extended rs
  | Returned l :: rs => l ++ extended rs
  end.

(** [list.sort(key=lambda x: x.timestamp)]: a stable sort. *)
Fixpoint insert_by_timestamp (x : PriceData.t) (l : list PriceData.t)
    : list PriceData.t :=
  match l with
  | [] => [x]
  | y :: l' =>
      if (PriceData.timestamp x <=? PriceData.timestamp y)%Z
      then x :: y :: l'
      else y :: insert_by_timestamp x l'
  end.

Definition sort_by_timestamp (l : list PriceData.t) : list PriceData.t :=
  foldr insert_by_timestamp [] l.

(** The keys of the sort are [datetime] objects, and [<] between a naive and
    an aware one raises [TypeError]. A sort that orders its input cannot
    finish without comparing some naive key with some aware key when the
    list holds both, so the call raises exactly then; a list whose keys are
    all of one kind (the empty list and singletons among them) is sorted. *)
Definition same_kind (l : list PriceData.t) : bool :=
  match l with
  | [] => true
  | x :: l' =>
      forallb (fun y => Bool.eqb (PriceData.tz_aware y) (PriceData.tz_aware x)) l'
  end.

Definition list_sort (l : list PriceData.t) : outcome (list PriceData.t) :=
  if same_kind l then Returned (sort_by_timestamp l)
  else Raised "TypeError: can't compare offset-naive and offset-aware datetimes".

Section Aggregator.
Context {S : Type} `{BaseDataSource S}.

(** [self.sources]: the registered adapters, keyed by provider, in
    registration order. *)
Variable sources : dict DataSource S.

(** The order in which the tasks of the call under study settle. *)
Variable order : list nat.

Definition get_crypto_data (now : datetime) (symbol : string)
    : option (option CryptoData.t) :=
  let symbol := upper symbol in
  let tasks := map (fun source => get_market_data source symbol)
                   (dict_values sources) in
  results ← gather order tasks;
  Some (match usable results with
        | [] => None
        | market_data_list => _aggregate_market_data now symbol market_data_list
        end).

Definition get_price_data (symbol : string) : option (list PriceData.t) :=
  let symbol := upper symbol in
  let tasks := map (fun source => get_crypto_price source symbol)
                   (dict_values sources) in
  results ← gather order tasks;
  Some (usable results).

(** The sort is not guarded: what it raises leaves [get_historical_data]. *)
Definition get_historical_data (symbol : string) (start_date end_date : datetime)
    : option (outcome (list PriceData.t)) :=
  let symbol := upper symbol in
  let tasks := map (fun source =>
                      get_historical_prices source symbol start_date end_date)
                   (dict_values sources) in
  results ← gather order tasks;
  Some (list_sort (extended results)).

(** [close]: the adapters are closed one after the other, with nothing
    around the [await]. The second component lists the adapters whose
    [close] was called, in call order. *)
Fixpoint close_loop (todo called : list S) : outcome unit * list S :=
  match todo with
  | [] => (Returned tt, called)
  | source :: rest =>
      match close source with
      | Returned _ => close_loop rest (called ++ [source])
      | Raised e => (Raised e, called ++ [source])
      end
  end.

Definition close_all : outcome unit * list S :=
  close_loop (dict_values sources) [].

Definition get_available_sources : list DataSource := dict_keys sources.
End Aggregator.

Section Search.
Context {S R : Type}.

(** What an adapter's [search_crypto] coroutine does for a query. *)
Variable source_search : S -> string -> outcome (list R).
Variable sources : dict DataSource S.
Variable order : list nat.

(** The loop over [enumerate(results)]; [gather] hands back one result per
    task, so [source_names[i]] always exists and the two lists are walked
    together. *)
Fixpoint search_fill (source_names : list DataSource)
    (results : list (outcome (list R)))
    (search_results : dict DataSource (list R)) : dict DataSource (list R) :=
  match source_names, results with
  | source_name :: names, Raised _ :: rs =>
      search_fill names rs (dict_set search_results source_name [])
  | source_name :: names, Returned result :: rs =>
      search_fill names rs (dict_set search_results source_name result)
  | _, _ => search_results
  end.

Definition search_crypto (query : string)
    : option (dict DataSource (list R)) :=
  let tasks := map (fun source => source_search source query) (dict_values sources) in
  let source_names := dict_keys sources in
  results ← gather order tasks;
  Some (search_fill source_names results []).

(** [get_source_status]: a registered adapter object is never [None]. *)
Definition get_source_status : dict DataSource bool :=
  fold_left (fun status entry => dict_set status entry.1 true) sources [].
End Search.

End DataAggregator.

(* ===================================================================== *)
(** ** The provider adapters: symbol translation *)
(* ===================================================================== *)

Module DefiLlama.
Definition symbol_mapping : dict string string :=
  [ ("BTC", "bitcoin"); ("BITCOIN", "bitcoin");
    ("ETH", "ethereum"); ("ETHEREUM", "ethereum");
    ("USDC", "usd-coin"); ("USDT", "tether"); ("DAI", "dai");
    ("UNI", "uniswap"); ("UNISWAP", "uniswap");
    ("AAVE", "aave");
    ("COMP", "compound"); ("COMPOUND", "compound");
    ("MKR", "maker"); ("MAKER", "maker");
    ("YFI", "yearn-finance"); ("CRV", "curve-dao-token");
    ("SUSHI", "sushi"); ("SUSHISWAP", "sushi");
    ("1INCH", "1inch");
    ("BAL", "balancer"); ("BALANCER", "balancer") ].

Definition _convert_to_defillama_symbol (symbol : string) : option string :=
  dict_get symbol_mapping (upper symbol).

Section Requests.
(** [_make_request] on the price endpoint: the decoded JSON object, coin
    identifier to an object of numbers; empty on any transport error. *)
Variable _make_request : string -> dict string (dict string Q).
Variable now : datetime.

Definition get_crypto_price (symbol : string) : option PriceData.t :=
  let symbol := _validate_symbol symbol in
  match _convert_to_defillama_symbol symbol with
  | None => None
  | Some defillama_symbol =>
      if negb (truthy_str (Some defillama_symbol)) then None else
      let data := _make_request ("/prices/current/" ++ defillama_symbol)%string in
      match dict_get data defillama_symbol with
      | None => None
      | Some price_info =>
          Some (PriceData.mk symbol
                  (default 0%Q (dict_get price_info "price"))
                  0%Q
                  (if truthy_float (dict_get price_info "market_cap")
                   then dict_get price_info "market_cap" else None)
                  now false DEFILLAMA)
      end
  end.
End Requests.
(** [_extract_indicator_value]: [data.get(key, 0)] for the four metrics. *)
Definition _extract_indicator_value (data : dict string Q) (indicator : string)
    : option Q :=
  if decide (indicator = "TVL") then Some (default 0%Q (dict_get data "tvl"))
  else if decide (indicator = "Volume_24h")
       then Some (default 0%Q (dict_get data "volume24h"))
  else if decide (indicator = "Fees_24h")
       then Some (default 0%Q (dict_get data "fees24h"))
  else if decide (indicator = "Revenue_24h")
       then Some (default 0%Q (dict_get data "revenue24h"))
  else None.

Definition signal_rules : dict string (Q -> string) :=
  [ ("TVL", fun v => if Qgt_bool v 1000000000 then "bullish"
                     else if Qlt_bool v 100000000 then "bearish" else "neutral");
    ("Volume_24h", fun v => if Qgt_bool v 100000000 then "bullish"
                            else if Qlt_bool v 10000000 then "bearish" else "neutral");
    ("Fees_24h", fun v => if Qgt_bool v 1000000 then "bullish"
                          else if Qlt_bool v 100000 then "bearish" else "neutral");
    ("Revenue_24h", fun v => if Qgt_bool v 500000 then "bullish"
                             else if Qlt_bool v 50000 then "bearish" else "neutral") ].

Definition _determine_defi_signal (indicator_name : string) (value : Q) : string :=
  match dict_get signal_rules indicator_name with
  | Some rule => rule value
  | None => "neutral"
  end.

(** The dictionary [{"sentiment": ..., "volatility": ...}]. *)
Record sentiment_data := mk_sentiment {
  sentiment : option string;
  volatility : option Q
}.

(** A protocol of the [/protocols] listing and a search result. *)
Record protocol := mk_protocol {
  protocol_name : option string;
  protocol_symbol : option string;
  protocol_tvl : option Q
}.

Record search_hit := mk_hit {
  hit_symbol : string;
  hit_name : string;
  hit_tvl : Q;
  hit_source : string
}.

(** [results.sort(key=lambda x: x.get("tvl", 0), reverse=True)]: a stable
    sort in descending order of the key. *)
Fixpoint insert_by_tvl (x : search_hit) (l : list search_hit) : list search_hit :=
  match l with
  | [] => [x]
  | y :: l' =>
      if Qle_bool (hit_tvl y) (hit_tvl x)
      then x :: y :: l'
      else y :: insert_by_tvl x l'
  end.

Definition sort_by_tvl (l : list search_hit) : list search_hit :=
  foldr insert_by_tvl [] l.

Section Protocols.
(** [_make_request] on a [/protocols/{id}] endpoint: the decoded JSON object
    of numbers, empty on any transport error; on [/protocols]: the decoded
    list, empty on any error; on the price endpoint as above. *)
Variable _make_request : string -> dict string Q.
Variable _make_request_list : string -> list protocol.
Variable _make_request_prices : string -> dict string (dict string Q).

(** The readings of [_get_timestamp()]: for the price, for the indicator
    requested at a given position, and for the snapshot. *)
Variable price_time : datetime.
Variable indicator_time : nat -> datetime.
Variable snapshot_time : datetime.

Definition _get_defi_sentiment (symbol : string) : sentiment_data :=
  match _convert_to_defillama_symbol symbol with
  | None => mk_sentiment None None
  | Some defillama_symbol =>
      if negb (truthy_str (Some defillama_symbol)) then mk_sentiment None None else
      let data := _make_request ("/protocols/" ++ defillama_symbol)%string in
      match data with
      | [] => mk_sentiment None None
      | _ =>
          let tvl := default 0%Q (dict_get data "tvl") in
          let volume_24h := default 0%Q (dict_get data "volume24h") in
          let fees_24h := default 0%Q (dict_get data "fees24h") in
          let sentiment :=
            if Qgt_bool tvl 1000000000 && Qgt_bool volume_24h 100000000
               && Qgt_bool fees_24h 1000000
            then "bullish"
            else if Qlt_bool tvl 100000000 || Qlt_bool volume_24h 10000000
                    || Qlt_bool fees_24h 100000
            then "bearish"
            else "neutral" in
          mk_sentiment (Some sentiment) None
      end
  end.

(** One turn of the loop of [get_technical_indicators], for the indicator
    requested at position [i]. *)
Definition indicator_step (defillama_symbol : string) (i : nat)
    (indicator : string) : list TechnicalIndicator.t :=
  if bool_decide (indicator ∈ ["TVL"; "Volume_24h"; "Fees_24h"; "Revenue_24h"])
  then
    let data := _make_request ("/protocols/" ++ defillama_symbol)%string in
    match dict_get data "tvl" with
    | None => []
    | Some _ =>
        match _extract_indicator_value data indicator with
        | None => []
        | Some value =>
            [ TechnicalIndicator.mk indicator value
                (_determine_defi_signal indicator value)
                (indicator_time i) DEFILLAMA ]
        end
    end
  else [].

Definition get_technical_indicators (symbol : string) (indicators : list string)
    : list TechnicalIndicator.t :=
  let symbol := _validate_symbol symbol in
  match _convert_to_defillama_symbol symbol with
  | None => []
  | Some defillama_symbol =>
      if negb (truthy_str (Some defillama_symbol)) then [] else
      concat (imap (indicator_step defillama_symbol) indicators)
  end.

Definition get_market_data (symbol : string) : option MarketData.t :=
  let symbol := _validate_symbol symbol in
  match get_crypto_price _make_request_prices price_time symbol with
  | None => None
  | Some price_data =>
      let indicators := ["TVL"; "Volume_24h"; "Fees_24h"; "Revenue_24h"] in
      let technical_indicators := get_technical_indicators symbol indicators in
      let sentiment_data := _get_defi_sentiment symbol in
      Some (MarketData.mk symbol price_data technical_indicators
              (sentiment sentiment_data) (volatility sentiment_data)
              snapshot_time DEFILLAMA)
  end.

Definition matches (query_lower : string) (p : protocol) : bool :=
  contains query_lower (lower (default EmptyString (protocol_name p)))
  || contains query_lower (lower (default EmptyString (protocol_symbol p))).

Definition to_hit (p : protocol) : search_hit :=
  mk_hit (default EmptyString (protocol_symbol p))
         (default EmptyString (protocol_name p))
         (default 0%Q (protocol_tvl p))
         "defillama".

Definition search_crypto (query : string) : list search_hit :=
  let data := _make_request_list "/protocols" in
  let query_lower := lower query in
  let results := map to_hit (List.filter (matches query_lower) data) in
  take 10 (sort_by_tvl results).
End Protocols.
End DefiLlama.

Module Glassnode.
Definition symbol_mapping : dict string string :=
  [ ("BTC", "BTC"); ("BITCOIN", "BTC");
    ("ETH", "ETH"); ("ETHEREUM", "ETH");
    ("LTC", "LTC"); ("LITECOIN", "LTC");
    ("BCH", "BCH"); ("BITCOINCASH", "BCH");
    ("XRP", "XRP"); ("RIPPLE", "XRP");
    ("ADA", "ADA"); ("CARDANO", "ADA");
    ("DOT", "DOT"); ("POLKADOT", "DOT");
    ("LINK", "LINK"); ("CHAINLINK", "LINK");
    ("UNI", "UNI"); ("UNISWAP", "UNI");
    ("AAVE", "AAVE") ].

Definition _convert_to_glassnode_symbol (symbol : string) : option string :=
  dict_get symbol_mapping (upper symbol).

(** A point of a Glassnode series: [{"t": ..., "v": ...}]. *)
Record point := mk_point {
  point_t : Z;
  point_v : Q
}.

Section Requests.
(** [_make_request] on a metric endpoint for an asset: the decoded JSON
    list; empty on any transport error and when the answer is no list. *)
Variable _make_request : string -> string -> list point.
(** [datetime.fromtimestamp]: a naive [datetime]. *)
Variable fromtimestamp : Z -> datetime.

Definition get_crypto_price (symbol : string) : option PriceData.t :=
  let symbol := _validate_symbol symbol in
  match _convert_to_glassnode_symbol symbol with
  | None => None
  | Some glassnode_symbol =>
      if negb (truthy_str (Some glassnode_symbol)) then None else
      let data := _make_request "/v1/metrics/market/price_usd_close"
                                glassnode_symbol in
      match last data with
      | None => None
      | Some latest_data =>
          Some (PriceData.mk symbol (point_v latest_data) 0%Q None
                  (fromtimestamp (point_t latest_data)) false GLASSNODE)
      end
  end.
End Requests.
(** The thresholds 1.05 and 0.95 are the doubles these literals denote,
    written as the rationals they are. *)
Definition signal_rules : dict string (Q -> string) :=
  [ ("NVT", fun v => if Qgt_bool v 50 then "bearish"
                     else if Qlt_bool v 20 then "bullish" else "neutral");
    ("MVRV", fun v => if Qgt_bool v 3 then "bearish"
                      else if Qlt_bool v 1 then "bullish" else "neutral");
    ("SOPR", fun v => if Qgt_bool v (4728779608739021 # 4503599627370496)
                      then "bearish"
                      else if Qlt_bool v (4278419646001971 # 4503599627370496)
                      then "bullish" else "neutral");
    ("Active_Addresses", fun v => if Qgt_bool v 0 then "bullish" else "bearish");
    ("Exchange_Flow", fun v => if Qgt_bool v 0 then "bearish" else "bullish") ].

Definition _determine_onchain_signal (indicator_name : string) (value : Q) : string :=
  match dict_get signal_rules indicator_name with
  | Some rule => rule value
  | None => "neutral"
  end.

Definition supported_assets : list string :=
  ["BTC"; "ETH"; "LTC"; "BCH"; "XRP"; "ADA"; "DOT"; "LINK"; "UNI"; "AAVE"].

Record search_hit := mk_hit {
  hit_symbol : string;
  hit_name : string;
  hit_source : string
}.

Definition search_crypto (query : string) : list search_hit :=
  let query_upper := upper query in
  map (fun asset => mk_hit asset asset "glassnode")
      (List.filter (fun asset => contains query_upper asset || contains query_upper asset)
                   supported_assets).
End Glassnode.

Module TradingView.
(** [tv_symbol = f"BINANCE:{symbol}USDT"] *)
Definition tv_symbol (symbol : string) : string :=
  ("BINANCE:" ++ symbol ++ "USDT")%string.

(** The answer of [/crypto/history]: the columns [c], [v] and [t]. *)
Record history := mk_history {
  history_c : list Q;
  history_v : list Q;
  history_t : list Z
}.

Section Requests.
(** [_make_request] on [/crypto/scan] for a symbol and its ticker: the list
    under ["data"] of the decoded answer, each row an object of numbers;
    empty on any transport error and when the answer has no such list. *)
Variable _make_request_scan : string -> string -> string -> list (dict string Q).
(** [_make_request] on [/crypto/history] for a ticker and a range: absent
    on any transport error and when the answer has no column ["c"]. *)
Variable _make_request_history
  : string -> string -> datetime -> datetime -> option history.
Variable now : datetime.
(** [datetime.fromtimestamp]: a naive [datetime]. *)
Variable fromtimestamp : Z -> datetime.

Definition get_crypto_price (symbol : string) : option PriceData.t :=
  let symbol := _validate_symbol symbol in
  let tv_symbol := tv_symbol symbol in
  match _make_request_scan "/crypto/scan" symbol tv_symbol with
  | [] => None
  | crypto_data :: _ =>
      Some (PriceData.mk symbol
              (default 0%Q (dict_get crypto_data "close"))
              (default 0%Q (dict_get crypto_data "volume"))
              (if truthy_float (dict_get crypto_data "market_cap_basic")
               then dict_get crypto_data "market_cap_basic" else None)
              now false TRADINGVIEW)
  end.

(** [zip(closes, volumes, timestamps)] stops at the shortest column. *)
Fixpoint zip3 (closes volumes : list Q) (timestamps : list Z) : list (Q * Q * Z) :=
  match closes, volumes, timestamps with
  | close :: closes', volume :: volumes', timestamp :: timestamps' =>
      (close, volume, timestamp) :: zip3 closes' volumes' timestamps'
  | _, _, _ => []
  end.

Definition get_historical_prices (symbol : string) (start_date end_date : datetime)
    : list PriceData.t :=
  let symbol := _validate_symbol symbol in
  let tv_symbol := tv_symbol symbol in
  match _make_request_history "/crypto/history" tv_symbol start_date end_date with
  | None => []
  | Some response_data =>
      map (fun '(close, volume, timestamp) =>
             PriceData.mk symbol close volume None
               (fromtimestamp timestamp) false TRADINGVIEW)
          (zip3 (history_c response_data) (history_v response_data)
                (history_t response_data))
  end.
End Requests.
Definition signal_rules : dict string (Q -> string) :=
  [ ("RSI", fun v => if Qgt_bool v 70 then "bearish"
                     else if Qlt_bool v 30 then "bullish" else "neutral");
    ("MACD", fun v => if Qgt_bool v 0 then "bullish" else "bearish");
    ("SMA", fun v => if Qgt_bool v 0 then "bullish" else "bearish");
    ("BB.upper", fun _ => "bearish");
    ("BB.lower", fun _ => "bullish") ].

Definition _determine_signal (indicator_name : string) (value : Q) : string :=
  match dict_get signal_rules indicator_name with
  | Some rule => rule value
  | None => "neutral"
  end.
End TradingView.

Module Bloomberg.
(** [endpoint = f"/v1/marketdata/crypto/{symbol}/price"] *)
Definition price_endpoint (symbol : string) : string :=
  ("/v1/marketdata/crypto/" ++ symbol ++ "/price")%string.

(** [endpoint = f"/v1/marketdata/crypto/{symbol}/historical"] *)
Definition historical_endpoint (symbol : string) : string :=
  ("/v1/marketdata/crypto/" ++ symbol ++ "/historical")%string.

(** An entry of [data["prices"]]. Its ["timestamp"] is ISO 8601 text, held
    here as what [datetime.fromisoformat] makes of it: the instant it
    denotes, and whether the text names a UTC offset, in which case the
    [datetime] is aware. *)
Record price_row := mk_row {
  row_price : Q;
  row_volume : option Q;
  row_market_cap : option Q;
  row_timestamp : datetime;
  row_offset : bool
}.

Section Requests.
(** [_make_request] on the price endpoint: the decoded JSON object, an
    object of numbers; empty on any transport error. *)
Variable _make_request : string -> dict string Q.
(** [_make_request] on the history endpoint for a range: the list under
    ["prices"]; absent on any transport error and when the answer has no
    such key. *)
Variable _make_request_history
  : string -> datetime -> datetime -> option (list price_row).
Variable now : datetime.

Definition get_crypto_price (symbol : string) : option PriceData.t :=
  let symbol := _validate_symbol symbol in
  let endpoint := price_endpoint symbol in
  let data := _make_request endpoint in
  match dict_get data "price" with
  | None => None
  | Some price =>
      Some (PriceData.mk symbol price
              (default 0%Q (dict_get data "volume"))
              (if truthy_float (dict_get data "market_cap")
               then dict_get data "market_cap" else None)
              now false BLOOMBERG)
  end.

Definition get_historical_prices (symbol : string) (start_date end_date : datetime)
    : list PriceData.t :=
  let symbol := _validate_symbol symbol in
  let endpoint := historical_endpoint symbol in
  match _make_request_history endpoint start_date end_date with
  | None => []
  | Some prices =>
      map (fun price_data =>
             PriceData.mk symbol (row_price price_data)
               (default 0%Q (row_volume price_data))
               (if truthy_float (row_market_cap price_data)
                then row_market_cap price_data else None)
               (row_timestamp price_data) (row_offset price_data) BLOOMBERG)
          prices
  end.
End Requests.
Definition signal_rules : dict string (Q -> string) :=
  [ ("RSI", fun v => if Qgt_bool v 70 then "bearish"
                     else if Qlt_bool v 30 then "bullish" else "neutral");
    ("MACD", fun v => if Qgt_bool v 0 then "bullish" else "bearish");
    ("SMA_20", fun v => if Qgt_bool v 0 then "bullish" else "bearish");
    ("SMA_50", fun v => if Qgt_bool v 0 then "bullish" else "bearish") ].

Definition _determine_signal (indicator_name : string) (value : Q) : string :=
  match dict_get signal_rules indicator_name with
  | Some rule => rule value
  | None => "neutral"
  end.
End Bloomberg.

(** The provider-specific identifier each adapter's [get_crypto_price] puts
    in its request for an input symbol: every adapter first applies
    [_validate_symbol]; Glassnode and DefiLlama then look the result up in
    their table, Bloomberg and TradingView format it into the request. *)
Definition provider_identifier (provider : DataSource) (symbol : string)
    : option string :=
  let symbol := _validate_symbol symbol in
  match provider with
  | BLOOMBERG => Some (Bloomberg.price_endpoint symbol)
  | TRADINGVIEW => Some (TradingView.tv_symbol symbol)
  | GLASSNODE => Glassnode._convert_to_glassnode_symbol symbol
  | DEFILLAMA => DefiLlama._convert_to_defillama_symbol symbol
  end.

(* ===================================================================== *)
(** ** Registration ([config.py], [DataAggregator.__init__]) *)
(* ===================================================================== *)

Module Settings.
Record t := mk {
  bloomberg_api_key : option string;
  bloomberg_base_url : string;
  tradingview_username : option string;
  tradingview_password : option string;
  glassnode_api_key : option string;
  glassnode_base_url : string;
  defillama_base_url : string
}.
End Settings.

(** The adapter objects, as their constructors are called. *)
Inductive Adapter :=
| BloombergDataSource (api_key : option string) (base_url : string)
| TradingViewDataSource (username password : option string)
| GlassnodeDataSource (api_key : option string) (base_url : string)
| DefiLlamaDataSource (base_url : string).

Definition _initialize_sources (config : Settings.t) : dict DataSource Adapter :=
  let sources : dict DataSource Adapter := [] in
  let sources :=
    if truthy_str (Settings.bloomberg_api_key config)
    then dict_set sources BLOOMBERG
           (BloombergDataSource (Settings.bloomberg_api_key config)
                                (Settings.bloomberg_base_url config))
    else sources in
  let sources :=
    if truthy_str (Settings.tradingview_username config)
       && truthy_str (Settings.tradingview_password config)
    then dict_set sources TRADINGVIEW
           (TradingViewDataSource (Settings.tradingview_username config)
                                  (Settings.tradingview_password config))
    else sources in
  let sources :=
    if truthy_str (Settings.glassnode_api_key config)
    then dict_set sources GLASSNODE
           (GlassnodeDataSource (Settings.glassnode_api_key config)
                                (Settings.glassnode_base_url config))
    else sources in
  dict_set sources DEFILLAMA (DefiLlamaDataSource (Settings.defillama_base_url config)).

(** [DataAggregator(config).get_available_sources()] *)
Definition available_sources (config : Settings.t) : list DataSource :=
  DataAggregator.get_available_sources (_initialize_sources config).

(* ===================================================================== *)
(** ** Trading signals ([models/trading_signal.py]) *)
(* ===================================================================== *)

Inductive SignalType := BUY | SELL | HOLD | STRONG_BUY | STRONG_SELL.

Inductive SignalStrength := WEAK | MODERATE | STRONG | VERY_STRONG.

#[global] Instance SignalType_eq_dec : EqDecision SignalType.
Proof. solve_decision. Defined.

#[global] Instance SignalStrength_eq_dec : EqDecision SignalStrength.
Proof. solve_decision. Defined.

Module TradingSignal.
Record t := mk {
  symbol : string;
  signal_type : SignalType;
  strength : SignalStrength;
  confidence : Q;
  price_target : option Q;
  stop_loss : option Q;
  reasoning : string;
  technical_indicators : dict string string;
  fundamental_factors : dict string fundamental_value;
  timestamp : datetime;
  source : string
}.

(** The constructor: [confidence] is declared [Field(..., ge=0.0, le=1.0)],
    and a value outside the bounds fails the validation. *)
Definition create (symbol : string) (signal_type : SignalType)
    (strength : SignalStrength) (confidence : Q) (reasoning : string)
    (technical_indicators : dict string string)
    (fundamental_factors : dict string fundamental_value)
    (timestamp : datetime) (source : string) : outcome t :=
  if Qle_bool 0 confidence && Qle_bool confidence 1
  then Returned (mk symbol signal_type strength confidence None None reasoning
                    technical_indicators fundamental_factors timestamp source)
  else Raised "ValidationError".

Definition is_buy_signal (self : t) : bool :=
  bool_decide (signal_type self ∈ [BUY; STRONG_BUY]).

Definition is_sell_signal (self : t) : bool :=
  bool_decide (signal_type self ∈ [SELL; STRONG_SELL]).

Definition is_hold_signal (self : t) : bool :=
  bool_decide (signal_type self = HOLD).
End TradingSignal.

(* ===================================================================== *)
(** ** The agent's signal parser ([agents/crypto_agent.py]) *)
(* ===================================================================== *)

Module CryptoAgent.
(** [{ind.name: ind.signal for ind in indicators}] *)
Definition signals_by_name (indicators : list TechnicalIndicator.t)
    : dict string string :=
  fold_left (fun d ind => dict_set d (TechnicalIndicator.name ind)
                                   (TechnicalIndicator.signal ind))
            indicators [].

(** [_parse_trading_signal]; [now] is the reading of [datetime.utcnow()].
    [crypto_data.market_data[-1]] raises on an empty list. *)
Definition _parse_trading_signal (now : datetime) (symbol response : string)
    (crypto_data : CryptoData.t) : outcome TradingSignal.t :=
  let response_lower := lower response in
  let '(signal_type, strength) :=
    if contains "buy" response_lower && contains "strong" response_lower
    then (STRONG_BUY, VERY_STRONG)
    else if contains "buy" response_lower then (BUY, STRONG)
    else if contains "sell" response_lower && contains "strong" response_lower
    then (STRONG_SELL, VERY_STRONG)
    else if contains "sell" response_lower then (SELL, STRONG)
    else (HOLD, MODERATE) in
  let confidence :=
    if contains "high" response_lower then (8 # 10)
    else if contains "medium" response_lower then (6 # 10)
    else (4 # 10) in
  match last (CryptoData.market_data crypto_data) with
  | None => Raised "IndexError"
  | Some latest =>
      TradingSignal.create symbol signal_type strength confidence response
        (signals_by_name (MarketData.technical_indicators latest))
        (CryptoData.fundamental_data crypto_data)
        now "AI_Agent"
  end.
End CryptoAgent.

(* ===================================================================== *)
(** ** Helper functions ([utils/helpers.py]) *)
(* ===================================================================== *)

Module Helpers.
(** [text[:stop]]: a negative [stop] counts from the end, and both ends are
    clamped to the string. *)
Definition slice_to (stop : Z) (text : string) : string :=
  let n := Z.of_nat (String.length text) in
  let stop := if stop <? 0 then Z.max (n + stop) 0 else Z.min stop n in
  substring 0 (Z.to_nat stop) text.

Definition truncate_string (text : string) (max_length : Z) : string :=
  if Z.of_nat (String.length text) <=? max_length then text
  else (slice_to (max_length - 3) text ++ "...")%string.

(** [str.isspace] and [str.isalnum] on ASCII characters. *)
Definition is_space (c : ascii) : bool :=
  let n := nat_of_ascii c in
  ((9 <=? n)%nat && (n <=? 13)%nat) || ((28 <=? n)%nat && (n <=? 32)%nat).

Definition is_alnum (c : ascii) : bool :=
  let n := nat_of_ascii c in
  ((48 <=? n)%nat && (n <=? 57)%nat) || ((65 <=? n)%nat && (n <=? 90)%nat)
  || ((97 <=? n)%nat && (n <=? 122)%nat).

Fixpoint lstrip (s : string) : string :=
  match s with
  | EmptyString => EmptyString
  | String c s' => if is_space c then lstrip s' else s
  end.

Fixpoint rstrip (s : string) : string :=
  match s with
  | EmptyString => EmptyString
  | String c s' =>
      match rstrip s' with
      | EmptyString => if is_space c then EmptyString else String c EmptyString
      | r => String c r
      end
  end.

Definition strip (s : string) : string := rstrip (lstrip s).

(** [s.isalnum()]: every character is alphanumeric and there is one. *)
Fixpoint all_alnum (s : string) : bool :=
  match s with
  | EmptyString => true
  | String c s' => is_alnum c && all_alnum s'
  end.

Definition isalnum (s : string) : bool :=
  match s with
  | EmptyString => false
  | _ => all_alnum s
  end.

Definition validate_symbol (symbol : string) : bool :=
  match symbol with
  | EmptyString => false
  | _ =>
      let symbol := upper (strip symbol) in
      (2 <=? String.length symbol)%nat && (String.length symbol <=? 10)%nat
      && isalnum symbol
  end.
End Helpers.

(* ===================================================================== *)
(** ** Specification predicates *)
(* ===================================================================== *)

Abbreviation ind_name := TechnicalIndicator.name.
Abbreviation ind_ts := TechnicalIndicator.timestamp.

(** [x] is the entry the pool retains for the name [k]: it sits somewhere in
    the pool, every entry of that name before it is strictly older and no
    entry of that name after it is newer. *)
Definition retained (pool : list TechnicalIndicator.t) (k : string)
    (x : TechnicalIndicator.t) : Prop :=
  ind_name x = k /\
  exists pre post,
    pool = pre ++ x :: post /\
    (forall y, y ∈ pre -> ind_name y = k -> ind_ts y < ind_ts x) /\
    (forall y, y ∈ post -> ind_name y = k -> ind_ts y <= ind_ts x).

(** The loop invariant of the deduplication, after the entries [seen]. *)
Definition dedup_inv (seen : list TechnicalIndicator.t)
    (d : dict string TechnicalIndicator.t) : Prop :=
  NoDup (dict_keys d) /\
  (forall y, y ∈ seen -> ind_name y ∈ dict_keys d) /\
  (forall k v, (k, v) ∈ d -> retained seen k v).

Abbreviation md_ts := MarketData.timestamp.

(** [i] is the position of the first snapshot of [l] whose timestamp is the
    latest of the list. *)
Definition first_latest (l : list MarketData.t) (i : nat) : Prop :=
  exists m,
    l !! i = Some m /\
    (forall m', m' ∈ l -> MarketData.timestamp m' <= MarketData.timestamp m) /\
    (forall j m', (j < i)%nat -> l !! j = Some m' ->
                  MarketData.timestamp m' < MarketData.timestamp m).

(** The snapshot an adapter handed over, if it did. *)
Definition snapshot_of {A : Type} (r : outcome (option A)) : option A :=
  match r with
  | Returned (Some a) => Some a
  | _ => None
  end.

(** [out] is the snapshot [inp] up to its list of technical indicators. *)
Definition same_but_indicators (out inp : MarketData.t) : Prop :=
  exists inds, out = MarketData.set_technical_indicators inp inds.

(** The entries a provider contributes to a merged history. *)
Definition entries_of {A : Type} (r : outcome (list A)) : list A :=
  match r with
  | Returned l => l
  | Raised _ => []
  end.

Abbreviation pd_ts := PriceData.timestamp.

(** Ascending timestamps. *)
Definition ascending (l : list PriceData.t) : Prop :=
  Sorted (fun a b => pd_ts a <= pd_ts b) l.

(** An outcome with its exception, if any, replaced by an absent result. *)
Definition silenced {A : Type} (r : outcome (option A)) : outcome (option A) :=
  match r with
  | Raised _ => Returned None
  | _ => r
  end.

(* ===================================================================== *)
(** ** The end-to-end scenario: three adapters, the third one failing *)
(* ===================================================================== *)

Module Scenario.
Definition quote (p : Q) (t : datetime) (src : DataSource) : PriceData.t :=
  PriceData.mk "BTC" p 0 None t false src.

Definition rsi (v : Q) (sig : string) (t : datetime) (src : DataSource)
    : TechnicalIndicator.t :=
  TechnicalIndicator.mk "RSI" v sig t src.

Definition snapshot (p : Q) (t : datetime) (src : DataSource)
    (inds : list TechnicalIndicator.t) (sentiment : option string) : MarketData.t :=
  MarketData.mk "BTC" (quote p t src) inds sentiment None t src.

Definition macd (v : Q) (sig : string) (t : datetime) (src : DataSource)
    : TechnicalIndicator.t :=
  TechnicalIndicator.mk "MACD" v sig t src.

Definition snapshot1 : MarketData.t :=
  snapshot 50000 100 BLOOMBERG [rsi 75 "bearish" 100 BLOOMBERG] None.

Definition snapshot2 : MarketData.t :=
  snapshot 50010 105 TRADINGVIEW [rsi 20 "bullish" 105 TRADINGVIEW] None.

(** A provider that answers later than the one registered after it. *)
Definition late_first : list MarketData.t :=
  [ snapshot 50010 105 BLOOMBERG [macd (3 # 2) "bullish" 105 BLOOMBERG] None;
    snapshot 50000 100 TRADINGVIEW [rsi 75 "bearish" 100 TRADINGVIEW] None ].

(** One provider calling the market bullish, alone and next to three
    providers calling it neutral. *)
Definition bullish_alone : list MarketData.t :=
  [ snapshot 50000 100 BLOOMBERG [] (Some "bullish") ].

Definition bullish_among_neutrals : list MarketData.t :=
  [ snapshot 50000 100 BLOOMBERG [] (Some "bullish");
    snapshot 50001 101 TRADINGVIEW [] (Some "neutral");
    snapshot 50002 102 GLASSNODE [] (Some "neutral");
    snapshot 50003 103 DEFILLAMA [] (Some "neutral") ].

(** A test double: an adapter that answers every call with fixed outcomes. *)
Record stub := mk_stub {
  stub_market_data : outcome (option MarketData.t);
  stub_history : outcome (list PriceData.t);
  stub_close : outcome unit
}.

#[global] Instance stub_source : BaseDataSource stub := {
  get_crypto_price s _ :=
    match stub_market_data s with
    | Returned (Some md) => Returned (Some (MarketData.price_data md))
    | Returned None => Returned None
    | Raised e => Raised e
    end;
  get_historical_prices s _ _ _ := stub_history s;
  get_market_data s _ := stub_market_data s;
  close s := stub_close s
}.

Definition answering (md : MarketData.t) : stub :=
  mk_stub (Returned (Some md)) (Returned []) (Returned tt).

Definition failing (e : string) : stub :=
  mk_stub (Raised e) (Raised e) (Raised e).

Definition historian (h : outcome (list PriceData.t)) : stub :=
  mk_stub (Returned None) h (Returned tt).

(** Provider A holds t=1 and t=3, provider B holds t=2, provider C fails. *)
Definition history_sources : dict DataSource stub :=
  [ (BLOOMBERG, historian (Returned [quote 10 1 BLOOMBERG; quote 30 3 BLOOMBERG]));
    (TRADINGVIEW, historian (Returned [quote 20 2 TRADINGVIEW]));
    (GLASSNODE, historian (Raised "timeout")) ].

(** An adapter whose [close] raises, registered before one whose [close]
    succeeds. *)
Definition close_sources : dict DataSource stub :=
  [ (BLOOMBERG, failing "session already broken");
    (TRADINGVIEW, answering snapshot2) ].

(** No credentials at all. *)
Definition no_credentials : Settings.t :=
  Settings.mk None "https://api.bloomberg.com" None None
              None "https://api.glassnode.com" "https://api.llama.fi".

Definition sources : dict DataSource stub :=
  [ (BLOOMBERG, answering snapshot1);
    (TRADINGVIEW, answering snapshot2);
    (GLASSNODE, failing "timeout") ].
End Scenario.

(* ===================================================================== *)
(** ** Further test data *)
(* ===================================================================== *)

Module Cases.
(** A search double: an adapter that answers finds the query itself, one
    that fails raises. *)
Definition stub_search (s : Scenario.stub) (query : string) : outcome (list string) :=
  match Scenario.stub_market_data s with
  | Returned _ => Returned [query]
  | Raised e => Raised e
  end.

(** Bloomberg answers a history request with two daily prices whose
    timestamps name the offset [+00:00]; TradingView answers with one close
    and its Unix timestamp. *)
Definition bloomberg_prices : list Bloomberg.price_row :=
  [ Bloomberg.mk_row 10 None None 1 true; Bloomberg.mk_row 30 None None 3 true ].

Definition bloomberg_history : list PriceData.t :=
  Bloomberg.get_historical_prices (fun _ _ _ => Some bloomberg_prices) "BTC" 0 10.

Definition tradingview_history : list PriceData.t :=
  TradingView.get_historical_prices
    (fun _ _ _ _ => Some (TradingView.mk_history [20%Q] [0%Q] [2]))
    (fun t => t) "BTC" 0 10.

Definition mixed_sources : dict DataSource Scenario.stub :=
  [ (BLOOMBERG, Scenario.historian (Returned bloomberg_history));
    (TRADINGVIEW, Scenario.historian (Returned tradingview_history)) ].

(** The same answers with timestamps that name no offset. *)
Definition bloomberg_naive_history : list PriceData.t :=
  Bloomberg.get_historical_prices
    (fun _ _ _ => Some [ Bloomberg.mk_row 10 None None 1 false;
                         Bloomberg.mk_row 30 None None 3 false ]) "BTC" 0 10.

Definition naive_sources : dict DataSource Scenario.stub :=
  [ (BLOOMBERG, Scenario.historian (Returned bloomberg_naive_history));
    (TRADINGVIEW, Scenario.historian (Returned tradingview_history)) ].

(** A provider that answers every request, whatever the symbol. *)
Definition any_quote : dict string Q := [("price", 1%Q)].
Definition any_row : dict string Q := [("close", 1%Q)].
End Cases.

(* ===================================================================== *)
(** ** Further specification predicates *)
(* ===================================================================== *)

(** The market cap and the volatility a snapshot contributes to the
    fundamental data: present and not zero. *)
Definition cap_of (md : MarketData.t) : option Q :=
  if truthy_float (PriceData.market_cap (MarketData.price_data md))
  then PriceData.market_cap (MarketData.price_data md) else None.

Definition vol_of (md : MarketData.t) : option Q :=
  if truthy_float (MarketData.volatility md) then MarketData.volatility md else None.

Definition fundamental_keys : list string :=
  ["market_cap"; "volatility"; "on_chain_metrics"; "defi_metrics"].

(** The three labels a signal or a sentiment can take. *)
Definition labels : list string := ["bullish"; "bearish"; "neutral"].

(** A price response of DefiLlama for the witness below: bitcoin at 50000
    with a market cap reported as zero. *)
Definition price_response (endpoint : string) : dict string (dict string Q) :=
  [ ("bitcoin", [("price", 50000 # 1); ("market_cap", 0 # 1)]) ].

(** The label [_determine_defi_signal] gives to a metric of a protocol
    object. *)
Definition defi_signal_of (data : dict string Q) (indicator : string) : string :=
  match DefiLlama._extract_indicator_value data indicator with
  | Some value => DefiLlama._determine_defi_signal indicator value
  | None => "neutral"
  end.

Definition defi_indicators : list string :=
  ["TVL"; "Volume_24h"; "Fees_24h"; "Revenue_24h"].

(** What an indicator produced by the DefiLlama adapter satisfies. *)
Definition defi_indicator_ok (ind : TechnicalIndicator.t) : Prop :=
  TechnicalIndicator.source ind = DEFILLAMA /\
  TechnicalIndicator.name ind ∈ defi_indicators /\
  TechnicalIndicator.signal ind
  = DefiLlama._determine_defi_signal (TechnicalIndicator.name ind)
                                     (TechnicalIndicator.value ind).

(** A protocol answer for the witnesses below. *)
Definition protocol_response (endpoint : string) : dict string Q :=
  [ ("tvl", 2000000000 # 1); ("volume24h", 5000000 # 1); ("fees24h", 2000000 # 1) ].

(** Descending total value locked. *)
Definition tvl_descending (l : list DefiLlama.search_hit) : Prop :=
  Sorted (fun a b => (DefiLlama.hit_tvl b <= DefiLlama.hit_tvl a)%Q) l.

(** A record whose last snapshot lists the same indicator twice. *)
Definition repeated_rsi : CryptoData.t :=
  CryptoData.mk "BTC" "BTC"
    [ Scenario.snapshot 50000 100 BLOOMBERG
        [ Scenario.rsi 75 "bearish" 100 BLOOMBERG;
          Scenario.rsi 20 "bullish" 105 TRADINGVIEW ] None ]
    [] None 0.

(* ===================================================================== *)
(** ** Sanity checks of the embedding on concrete inputs *)
(* ===================================================================== *)

Example validate_btc_usd : _validate_symbol "btc-usd" = "BTCUSD".
Proof. reflexivity. Qed.

Example validate_BTC_USD : _validate_symbol "BTC_USD" = "BTCUSD".
Proof. reflexivity. Qed.

Example defillama_btc : DefiLlama._convert_to_defillama_symbol "btc" = Some "bitcoin".
Proof. reflexivity. Qed.

Example sentiment_three :
  DataAggregator._calculate_aggregated_sentiment ["bullish"; "bullish"; "bearish"]
  = Some "bullish".
Proof. reflexivity. Qed.

Example gather_out_of_order :
  gather [2; 0; 1]%nat [Returned 10; Raised "boom"; Returned 30]
  = Some [Returned 10; Raised "boom"; Returned 30].
Proof. reflexivity. Qed.

Example gather_pending :
  gather [2; 0]%nat [Returned 10; Raised "boom"; Returned 30] = None.
Proof. reflexivity. Qed.

(* ===================================================================== *)
(** ** Facts about [gather] *)
(* ===================================================================== *)

Section GatherFacts.
Context {A : Type}.
Implicit Types (tasks : list (outcome A)) (slots : list (option (outcome A))).
Implicit Types (order : list nat).

Lemma settle_length tasks slots i :
  length (settle tasks slots i) = length slots.
Proof. unfold settle. destruct (tasks !! i); [apply length_insert | done]. Qed.

Lemma fold_settle_length tasks order : forall slots,
  length (fold_left (settle tasks) order slots) = length slots.
Proof.
  induction order as [|o order IH]; intros slots; simpl; [done|].
  by rewrite IH, settle_length.
Qed.

Lemma fold_settle_notin tasks order i : forall slots,
  i ∉ order -> fold_left (settle tasks) order slots !! i = slots !! i.
Proof.
  induction order as [|o order IH]; intros slots Hni; simpl; [done|].
  apply not_elem_of_cons in Hni as [Hne Hni].
  rewrite IH by done. unfold settle.
  destruct (tasks !! o); [|done]. by apply list_lookup_insert_ne.
Qed.

Lemma fold_settle_in tasks order i : forall slots,
  length slots = length tasks -> i ∈ order ->
  fold_left (settle tasks) order slots !! i = Some <$> (tasks !! i).
Proof.
  induction order as [|o order IH]; intros slots Hlen Hin; simpl.
  - by apply elem_of_nil in Hin.
  - destruct (decide (i ∈ order)) as [Hi|Hi].
    + apply IH; [by rewrite settle_length | done].
    + apply elem_of_cons in Hin as [->|Hin]; [|done].
      rewrite fold_settle_notin by done. unfold settle.
      destruct (tasks !! o) as [r|] eqn:Ho; simpl.
      * apply list_lookup_insert_eq. rewrite Hlen. by eapply lookup_lt_Some.
      * apply lookup_ge_None. rewrite Hlen. by apply lookup_ge_None.
Qed.

Lemma mapM_id_Some (l : list (outcome A)) : mapM id (Some <$> l) = Some l.
Proof. apply mapM_Some. induction l; simpl; by constructor. Qed.

(** Whatever the completion order, once every task has settled the results
    are the tasks' outcomes in task order. *)
Lemma gather_settled order tasks :
  order ≡ₚ seq 0 (length tasks) -> gather order tasks = Some tasks.
Proof.
  intros Hperm. unfold gather.
  assert (fold_left (settle tasks) order (replicate (length tasks) None)
          = Some <$> tasks) as ->; [|apply mapM_id_Some].
  apply list_eq. intros i. rewrite list_lookup_fmap.
  destruct (decide (i < length tasks)%nat) as [Hlt|Hge].
  - apply fold_settle_in; [apply length_replicate|].
    rewrite Hperm. apply elem_of_seq. lia.
  - assert (tasks !! i = None) as -> by (apply lookup_ge_None; lia).
    simpl. apply lookup_ge_None.
    rewrite fold_settle_length, length_replicate. lia.
Qed.
End GatherFacts.

(* ===================================================================== *)
(** ** Facts about dictionaries *)
(* ===================================================================== *)

Section DictFacts.
Context {K V : Type} `{EqDecision K}.
Implicit Types (d : dict K V) (k : K) (v : V).

Lemma dict_get_None d k : dict_get d k = None <-> k ∉ dict_keys d.
Proof.
  induction d as [|[k' v'] d IH]; simpl.
  - split; [intros _; apply not_elem_of_nil | done].
  - destruct (decide (k = k')) as [->|Hne].
    + split; [done|]. intros Hni. exfalso. apply Hni. left.
    + rewrite IH, not_elem_of_cons. tauto.
Qed.

Lemma dict_get_Some_elem d k v : dict_get d k = Some v -> (k, v) ∈ d.
Proof.
  induction d as [|[k' v'] d IH]; simpl; [done|].
  destruct (decide (k = k')) as [->|Hne].
  - intros [= ->]. left.
  - intros Hg. right. by apply IH.
Qed.

Lemma elem_dict_key d k v : (k, v) ∈ d -> k ∈ dict_keys d.
Proof. intros Hin. unfold dict_keys. by apply (list_elem_of_fmap_2 fst) in Hin. Qed.

Lemma dict_get_elem d k v :
  NoDup (dict_keys d) -> (k, v) ∈ d -> dict_get d k = Some v.
Proof.
  induction d as [|[k' v'] d IH]; simpl; intros Hnd Hin.
  - by apply elem_of_nil in Hin.
  - apply NoDup_cons in Hnd as [Hni Hnd].
    apply elem_of_cons in Hin as [[= -> ->]|Hin].
    + by destruct (decide (k' = k')).
    + destruct (decide (k = k')) as [->|Hne]; [|by apply IH].
      exfalso. apply Hni. by eapply elem_dict_key.
Qed.

Lemma dict_set_keys d k v :
  dict_keys (dict_set d k v)
  = dict_keys d ++ (if decide (k ∈ dict_keys d) then [] else [k]).
Proof.
  induction d as [|[k' v'] d IH].
  - cbn [dict_set dict_keys map app].
    destruct (decide (k ∈ [])) as [Hi|Hi]; [|done].
    by apply elem_of_nil in Hi.
  - cbn [dict_set]. destruct (decide (k = k')) as [->|Hne].
    + change (dict_keys ((k', v) :: d)) with (k' :: dict_keys d).
      change (dict_keys ((k', v') :: d)) with (k' :: dict_keys d).
      destruct (decide (k' ∈ k' :: dict_keys d)) as [Hi|Hi];
        [by rewrite app_nil_r|].
      exfalso. apply Hi. left.
    + change (dict_keys ((k', v') :: dict_set d k v))
        with (k' :: dict_keys (dict_set d k v)).
      change (dict_keys ((k', v') :: d)) with (k' :: dict_keys d).
      rewrite IH. cbn [app]. f_equal. f_equal.
      destruct (decide (k ∈ dict_keys d)) as [Hi|Hi];
        destruct (decide (k ∈ k' :: dict_keys d)) as [Hj|Hj]; try done.
      * exfalso. apply Hj. by right.
      * apply elem_of_cons in Hj as [?|?]; done.
Qed.

Lemma dict_set_fresh d k v : k ∉ dict_keys d -> dict_set d k v = d ++ [(k, v)].
Proof.
  induction d as [|[k' v'] d IH]; simpl; intros Hni; [done|].
  apply not_elem_of_cons in Hni as [Hne Hni].
  rewrite decide_False by done. by rewrite IH.
Qed.

Lemma dict_set_elem d k v k' v' :
  NoDup (dict_keys d) -> (k', v') ∈ dict_set d k v ->
  (k' = k /\ v' = v) \/ (k' <> k /\ (k', v') ∈ d).
Proof.
  induction d as [|[k0 v0] d IH]; simpl; intros Hnd Hin.
  - apply list_elem_of_singleton in Hin as [= -> ->]. by left.
  - apply NoDup_cons in Hnd as [Hni Hnd].
    destruct (decide (k = k0)) as [->|Hne].
    + apply elem_of_cons in Hin as [[= -> ->]|Hin]; [by left|].
      right. split; [|by right].
      intros ->. apply Hni. by eapply elem_dict_key.
    + apply elem_of_cons in Hin as [[= -> ->]|Hin].
      * right. split; [done | left].
      * destruct (IH Hnd Hin) as [?|[? ?]]; [by left|].
        right. split; [done | by right].
Qed.

Lemma dict_set_NoDup d k v : NoDup (dict_keys d) -> NoDup (dict_keys (dict_set d k v)).
Proof.
  intros Hnd. rewrite dict_set_keys.
  destruct (decide (k ∈ dict_keys d)) as [Hi|Hi].
  - by rewrite app_nil_r.
  - apply NoDup_app. split; [done|]. split; [|apply NoDup_singleton].
    intros x Hx Hx'. apply list_elem_of_singleton in Hx' as ->. done.
Qed.
End DictFacts.

(* ===================================================================== *)
(** ** The merge engine: indicator deduplication *)
(* ===================================================================== *)

Lemma retained_snoc_other seen k v x :
  retained seen k v -> ind_name x <> k -> retained (seen ++ [x]) k v.
Proof.
  intros (Hk & pre & post & -> & Hpre & Hpost) Hne. split; [done|].
  exists pre, (post ++ [x]). split; [by rewrite <- app_assoc|]. split; [done|].
  intros y Hy Hyk. apply elem_of_app in Hy as [Hy|Hy]; [by apply Hpost|].
  apply list_elem_of_singleton in Hy as ->. done.
Qed.

Lemma retained_snoc_older seen k v x :
  retained seen k v -> ind_ts x <= ind_ts v -> retained (seen ++ [x]) k v.
Proof.
  intros (Hk & pre & post & -> & Hpre & Hpost) Hle. split; [done|].
  exists pre, (post ++ [x]). split; [by rewrite <- app_assoc|]. split; [done|].
  intros y Hy Hyk. apply elem_of_app in Hy as [Hy|Hy]; [by apply Hpost|].
  apply list_elem_of_singleton in Hy as ->. done.
Qed.

Lemma retained_bound seen k v y :
  retained seen k v -> y ∈ seen -> ind_name y = k -> ind_ts y <= ind_ts v.
Proof.
  intros (Hk & pre & post & -> & Hpre & Hpost) Hy Hyk.
  apply elem_of_app in Hy as [Hy|Hy]; [specialize (Hpre y Hy Hyk); lia|].
  apply elem_of_cons in Hy as [->|Hy]; [lia | by apply Hpost].
Qed.

Lemma dedup_step_inv seen d x :
  dedup_inv seen d -> dedup_inv (seen ++ [x]) (DataAggregator.dedup_step d x).
Proof.
  intros (Hnd & Hcov & Hret). unfold DataAggregator.dedup_step.
  destruct (dict_get d (ind_name x)) as [cur|] eqn:Hget.
  - pose proof (dict_get_Some_elem _ _ _ Hget) as Hcur.
    pose proof (Hret _ _ Hcur) as Hrc.
    destruct (Z.ltb_spec (ind_ts cur) (ind_ts x)) as [Hlt|Hge].
    + (* a strictly newer entry replaces the current one *)
      split; [by apply dict_set_NoDup|]. split.
      * intros y Hy. rewrite dict_set_keys.
        apply elem_of_app. left.
        apply elem_of_app in Hy as [Hy|Hy]; [by apply Hcov|].
        apply list_elem_of_singleton in Hy as ->. by eapply elem_dict_key.
      * intros k v Hin.
        apply dict_set_elem in Hin as [[-> ->]|[Hne Hin]]; [|idtac|done].
        -- split; [done|]. exists seen, []. split; [done|]. split.
           ++ intros y Hy Hyk.
              pose proof (retained_bound _ _ _ _ Hrc Hy Hyk). lia.
           ++ intros y Hy. by apply elem_of_nil in Hy.
        -- apply retained_snoc_other; [by apply Hret | done].
    + (* an entry that is not newer leaves the dictionary alone *)
      split; [done|]. split.
      * intros y Hy.
        apply elem_of_app in Hy as [Hy|Hy]; [by apply Hcov|].
        apply list_elem_of_singleton in Hy as ->. by eapply elem_dict_key.
      * intros k v Hin.
        destruct (decide (ind_name x = k)) as [<-|Hne].
        -- assert (v = cur) as ->.
           { pose proof (dict_get_elem _ _ _ Hnd Hin) as Hg. congruence. }
           apply retained_snoc_older; [done | lia].
        -- apply retained_snoc_other; [by apply Hret | done].
  - (* a name seen for the first time *)
    apply dict_get_None in Hget.
    split; [by apply dict_set_NoDup|]. split.
    + intros y Hy. rewrite dict_set_keys.
      apply elem_of_app in Hy as [Hy|Hy].
      * apply elem_of_app. left. by apply Hcov.
      * apply list_elem_of_singleton in Hy as ->.
        rewrite decide_False by done. apply elem_of_app. right. left.
    + intros k v Hin.
      apply dict_set_elem in Hin as [[-> ->]|[Hne Hin]]; [|idtac|done].
      * split; [done|]. exists seen, []. split; [done|]. split.
        -- intros y Hy Hyk. exfalso. apply Hget. rewrite <- Hyk. by apply Hcov.
        -- intros y Hy. by apply elem_of_nil in Hy.
      * apply retained_snoc_other; [by apply Hret | done].
Qed.

Lemma dedup_fold_inv pool : forall seen d,
  dedup_inv seen d ->
  dedup_inv (seen ++ pool) (fold_left DataAggregator.dedup_step pool d).
Proof.
  induction pool as [|x pool IH]; intros seen d Hinv; simpl.
  - by rewrite app_nil_r.
  - replace (seen ++ x :: pool) with ((seen ++ [x]) ++ pool)
      by (by rewrite <- app_assoc).
    apply IH. by apply dedup_step_inv.
Qed.

Lemma unique_indicators_inv pool :
  dedup_inv pool (DataAggregator.unique_indicators pool).
Proof.
  apply (dedup_fold_inv pool [] []). split; [constructor|]. split.
  - intros y Hy. by apply elem_of_nil in Hy.
  - intros k v Hin. by apply elem_of_nil in Hin.
Qed.

(** Where an element of a concatenation of per-provider lists comes from. *)
Lemma flat_map_split {A B : Type} (f : A -> list B) (l : list A) :
  forall pre x post,
    flat_map f l = pre ++ x :: post ->
    exists l1 a l2 p1 p2,
      l = l1 ++ a :: l2 /\ f a = p1 ++ x :: p2 /\
      pre = flat_map f l1 ++ p1 /\ post = p2 ++ flat_map f l2.
Proof.
  induction l as [|a l IH]; intros pre x post Heq; simpl in Heq.
  - by destruct pre.
  - apply app_eq_app in Heq as [k [[Hfa Hrest]|[Hpre Hrest]]].
    + destruct k as [|y k]; simpl in Hrest.
      * rewrite app_nil_r in Hfa.
        destruct (IH [] x post) as (l1 & b & l2 & p1 & p2 & -> & Hb & Hp & ->);
          [done|].
        exists (a :: l1), b, l2, p1, p2. simpl.
        rewrite <- app_assoc, <- Hp, app_nil_r. done.
      * injection Hrest as -> ->.
        exists [], a, l, pre, k. done.
    + destruct (IH _ _ _ Hrest) as (l1 & b & l2 & p1 & p2 & -> & Hb & -> & ->).
      exists (a :: l1), b, l2, p1, p2. simpl. rewrite Hpre.
      by rewrite <- app_assoc.
Qed.

Lemma dict_values_names (d : dict string TechnicalIndicator.t) :
  (forall k v, (k, v) ∈ d -> ind_name v = k) ->
  map ind_name (dict_values d) = dict_keys d.
Proof.
  induction d as [|[k v] d IH]; intros Hd; simpl; [done|].
  rewrite (Hd k v) by left. f_equal. apply IH.
  intros k' v' Hin. apply Hd. by right.
Qed.

Lemma elem_of_flat_map {A B : Type} (f : A -> list B) (l : list A) (y : B) :
  y ∈ flat_map f l <-> exists a, a ∈ l /\ y ∈ f a.
Proof.
  rewrite list_elem_of_In, in_flat_map.
  split; intros (a & Ha & Hy); exists a; by rewrite ?list_elem_of_In in *.
Qed.

(** C2. The deduplicated indicator collection has exactly one entry per
    indicator name of the pool; the entry kept for a name has the latest
    timestamp among the pool's entries of that name; and it comes from a
    provider such that every provider registered before it holds only
    strictly older entries of that name, so that among entries tied on the
    latest timestamp the one of the lowest registration index is kept.
    The collection is a function of the snapshots alone. *)
Theorem C2_indicator_dedup (market_data_list : list MarketData.t) :
  let pool := DataAggregator.all_indicators market_data_list in
  let merged := dict_values (DataAggregator.unique_indicators pool) in
  NoDup (map ind_name merged) /\
  (forall n, n ∈ map ind_name pool <-> n ∈ map ind_name merged) /\
  (forall x, x ∈ merged ->
     retained pool (ind_name x) x /\
     (forall y, y ∈ pool -> ind_name y = ind_name x -> ind_ts y <= ind_ts x) /\
     exists i a,
       market_data_list !! i = Some a /\
       x ∈ MarketData.technical_indicators a /\
       forall j b y,
         (j < i)%nat -> market_data_list !! j = Some b ->
         y ∈ MarketData.technical_indicators b ->
         ind_name y = ind_name x -> ind_ts y < ind_ts x).
Proof.
  intros pool merged.
  destruct (unique_indicators_inv pool) as (Hnd & Hcov & Hret).
  assert (Hnames : map ind_name merged
                   = dict_keys (DataAggregator.unique_indicators pool)).
  { apply dict_values_names. intros k v Hin. by destruct (Hret k v Hin). }
  assert (Hmem : forall x, x ∈ merged -> retained pool (ind_name x) x).
  { intros x Hx. unfold merged, dict_values in Hx.
    apply (list_elem_of_fmap_1 snd) in Hx as ([k v] & -> & Hin). simpl.
    destruct (Hret k v Hin) as [Hk Hdec]. split; [done|]. by rewrite Hk. }
  split; [by rewrite Hnames|]. split.
  - intros n. rewrite Hnames. split.
    + intros Hn. apply (list_elem_of_fmap_1 ind_name) in Hn as (y & -> & Hy).
      by apply Hcov.
    + intros Hn. unfold dict_keys in Hn.
      apply (list_elem_of_fmap_1 fst) in Hn as ([k v] & -> & Hin). simpl.
      destruct (Hret k v Hin) as (Hk & pre & post & Hpool & _).
      rewrite <- Hk. apply (list_elem_of_fmap_2 ind_name). rewrite Hpool.
      apply elem_of_app. right. left.
  - intros x Hx. pose proof (Hmem x Hx) as Hr. split; [done|]. split.
    + intros y Hy Hyn. by eapply retained_bound.
    + destruct Hr as (_ & pre & post & Hpool & Hpre & _).
      apply flat_map_split in Hpool
        as (l1 & a & l2 & p1 & p2 & Hl & Ha & -> & ->).
      exists (length l1), a. split; [|split].
      * rewrite Hl. apply list_lookup_middle. done.
      * rewrite Ha. apply elem_of_app. right. left.
      * intros j b y Hj Hb Hy Hyn. apply Hpre; [|done].
        apply elem_of_app. left. apply elem_of_flat_map. exists b.
        split; [|done]. rewrite Hl in Hb.
        rewrite lookup_app_l in Hb by done. by eapply list_elem_of_lookup_2.
Qed.

(* ===================================================================== *)
(** ** The merge engine: the base snapshot and the output list *)
(* ===================================================================== *)

Lemma max_from_spec (l : list MarketData.t) : forall pre best m,
  pre !! best = Some m -> first_latest pre best ->
  first_latest (pre ++ l) (DataAggregator.max_from best (md_ts m) (length pre) l).
Proof.
  induction l as [|md l IH]; intros pre best m Hbest Hfl; simpl.
  - by rewrite app_nil_r.
  - destruct Hfl as (m0 & Hm0 & Hall & Hbefore).
    assert (m0 = m) as -> by congruence.
    replace (pre ++ md :: l) with ((pre ++ [md]) ++ l) by (by rewrite <- app_assoc).
    replace (Datatypes.S (length pre)) with (length (pre ++ [md]))
      by (rewrite length_app; simpl; lia).
    destruct (Z.ltb_spec (md_ts m) (md_ts md)) as [Hlt|Hge].
    + apply IH.
      * apply list_lookup_middle. done.
      * exists md. split; [by apply list_lookup_middle|]. split.
        -- intros m' Hm'. apply elem_of_app in Hm' as [Hm'|Hm'].
           ++ specialize (Hall m' Hm'). lia.
           ++ apply list_elem_of_singleton in Hm' as ->. lia.
        -- intros j m' Hj Hm'. rewrite lookup_app_l in Hm' by done.
           apply list_elem_of_lookup_2 in Hm'. specialize (Hall m' Hm'). lia.
    + assert (best < length pre)%nat as Hlen by (by eapply lookup_lt_Some).
      apply IH.
      * by rewrite lookup_app_l.
      * exists m. split; [by rewrite lookup_app_l|]. split.
        -- intros m' Hm'. apply elem_of_app in Hm' as [Hm'|Hm'].
           ++ by apply Hall.
           ++ apply list_elem_of_singleton in Hm' as ->. lia.
        -- intros j m' Hj Hm'. rewrite lookup_app_l in Hm' by lia.
           by eapply Hbefore.
Qed.

Lemma max_by_timestamp_spec (l : list MarketData.t) :
  l <> [] -> exists i, DataAggregator.max_by_timestamp l = Some i /\ first_latest l i.
Proof.
  destruct l as [|md l]; [done|]. intros _. eexists. split; [done|].
  apply (max_from_spec l [md] 0%nat md); [done|].
  exists md. split; [done|]. split.
  - intros m' Hm'. apply list_elem_of_singleton in Hm' as ->. lia.
  - intros j m' Hj. lia.
Qed.

Lemma first_latest_unique (l : list MarketData.t) i j :
  first_latest l i -> first_latest l j -> i = j.
Proof.
  intros (mi & Hi & Halli & Hbi) (mj & Hj & Hallj & Hbj).
  destruct (Nat.lt_trichotomy i j) as [Hlt|[->|Hgt]]; [|done|].
  - specialize (Hbj i mi Hlt Hi).
    specialize (Halli mj (list_elem_of_lookup_2 _ _ _ Hj)). lia.
  - specialize (Hbi j mj Hgt Hj).
    specialize (Hallj mi (list_elem_of_lookup_2 _ _ _ Hi)). lia.
Qed.

Lemma aggregate_Some now symbol (market_data_list : list MarketData.t) :
  market_data_list <> [] ->
  exists latest,
    first_latest market_data_list latest /\
    DataAggregator._aggregate_market_data now symbol market_data_list
    = Some (CryptoData.mk symbol symbol
              (DataAggregator.merged_list market_data_list latest)
              (DataAggregator._extract_fundamental_data
                 (DataAggregator.merged_list market_data_list latest))
              (DataAggregator._calculate_aggregated_sentiment
                 (DataAggregator.sentiments_of
                    (DataAggregator.merged_list market_data_list latest)))
              now).
Proof.
  intros Hne. destruct (max_by_timestamp_spec _ Hne) as (i & Hi & Hfl).
  exists i. split; [done|]. unfold DataAggregator._aggregate_market_data.
  by rewrite Hi.
Qed.

Lemma aggregate_None now symbol (market_data_list : list MarketData.t) :
  DataAggregator._aggregate_market_data now symbol market_data_list = None
  <-> market_data_list = [].
Proof.
  split.
  - intros Hn. destruct market_data_list as [|md l]; [done|]. discriminate Hn.
  - by intros ->.
Qed.

Lemma set_technical_indicators_id (md : MarketData.t) :
  MarketData.set_technical_indicators md (MarketData.technical_indicators md) = md.
Proof. by destruct md. Qed.

Lemma same_but_indicators_refl (md : MarketData.t) : same_but_indicators md md.
Proof. exists (MarketData.technical_indicators md). by rewrite set_technical_indicators_id. Qed.

Lemma merged_list_Forall2 (l : list MarketData.t) (i : nat) :
  Forall2 same_but_indicators (DataAggregator.merged_list l i) l.
Proof.
  unfold DataAggregator.merged_list.
  generalize (dict_values (DataAggregator.unique_indicators
                             (DataAggregator.all_indicators l))) as inds.
  intros inds. revert i.
  induction l as [|md l IH]; intros i; [constructor|].
  destruct i as [|i]; simpl.
  - constructor; [by exists inds|].
    apply Forall2_same_length_lookup_2; [done|].
    intros j x y Hx Hy. assert (x = y) as -> by congruence.
    apply same_but_indicators_refl.
  - constructor; [apply same_but_indicators_refl | apply IH].
Qed.

Lemma merged_list_price_data (l : list MarketData.t) (i : nat) :
  MarketData.price_data <$> DataAggregator.merged_list l i
  = MarketData.price_data <$> l.
Proof.
  pose proof (merged_list_Forall2 l i) as HF.
  induction HF as [|out inp outs inps (inds & ->) _ IH]; [done|].
  by rewrite !fmap_cons, IH.
Qed.

Lemma merged_list_last (l : list MarketData.t) (i : nat) :
  (MarketData.price_data <$> last (DataAggregator.merged_list l i))
  = (MarketData.price_data <$> last l).
Proof. by rewrite <- !fmap_last, merged_list_price_data. Qed.

(* ===================================================================== *)
(** ** The fan-in loops *)
(* ===================================================================== *)

Lemma usable_omap {A : Type} (results : list (outcome (option A))) :
  DataAggregator.usable results = omap snapshot_of results.
Proof.
  induction results as [|[[a|]|e] rs IH]; simpl; by rewrite ?IH.
Qed.

Lemma elem_of_usable {A : Type} (results : list (outcome (option A))) (a : A) :
  a ∈ DataAggregator.usable results <-> Returned (Some a) ∈ results.
Proof.
  rewrite usable_omap, list_elem_of_omap. split.
  - intros ([[b|]|e] & Hin & Hs); simplify_eq/=. done.
  - intros Hin. by exists (Returned (Some a)).
Qed.

Lemma usable_silenced {A : Type} (results : list (outcome (option A))) :
  DataAggregator.usable (map silenced results) = DataAggregator.usable results.
Proof.
  induction results as [|[[a|]|e] rs IH]; simpl; by rewrite ?IH.
Qed.

(* ===================================================================== *)
(** ** Claims about [get_crypto_data] and the merge *)
(* ===================================================================== *)

(** C1. Once every task has settled, in whatever order, [get_crypto_data]
    returns (no exception reaches the caller); it returns a record if and only
    if at least one adapter returned a snapshot; the record's raw list has
    one entry per adapter that returned a snapshot, in registration order,
    each being that adapter's snapshot up to its indicator list, and thus no
    entry for an adapter that raised; and the result is the one obtained when
    every raising adapter answers absent instead. *)
Theorem C1_get_crypto_data_isolation {S : Type} `{BaseDataSource S}
    (sources : dict DataSource S) (order : list nat)
    (now : datetime) (symbol : string) :
  order ≡ₚ seq 0 (length sources) ->
  let outcomes := map (fun source => get_market_data source (upper symbol))
                      (dict_values sources) in
  exists r,
    DataAggregator.get_crypto_data sources order now symbol = Some r /\
    (is_Some r <-> exists md, Returned (Some md) ∈ outcomes) /\
    (forall cd, r = Some cd ->
       Forall2 same_but_indicators (CryptoData.market_data cd)
               (omap snapshot_of outcomes)) /\
    (forall sources' : dict DataSource S,
       map (fun source => get_market_data source (upper symbol))
           (dict_values sources') = map silenced outcomes ->
       DataAggregator.get_crypto_data sources' order now symbol = Some r).
Proof.
  intros Hperm outcomes.
  assert (Hlen : length outcomes = length sources).
  { unfold outcomes, dict_values. by rewrite !length_map. }
  assert (Hgather : gather order outcomes = Some outcomes).
  { apply gather_settled. by rewrite Hlen. }
  assert (Hgather' : gather order (map silenced outcomes) = Some (map silenced outcomes)).
  { apply gather_settled. by rewrite length_map, Hlen. }
  eexists. split.
  { unfold DataAggregator.get_crypto_data. fold outcomes. rewrite Hgather. reflexivity. }
  split; [|split].
  - destruct (DataAggregator.usable outcomes) as [|md l] eqn:Hus.
    + split; [by intros [? ?]|]. intros [md Hmd].
      apply elem_of_usable in Hmd. rewrite Hus in Hmd. by apply elem_of_nil in Hmd.
    + split.
      * intros _. exists md. apply elem_of_usable. rewrite Hus. left.
      * intros _.
        destruct (aggregate_Some now (upper symbol) (md :: l)) as (i & _ & ->); done.
  - intros cd Hcd. rewrite <- usable_omap.
    destruct (DataAggregator.usable outcomes) as [|md l] eqn:Hus; [done|].
    destruct (aggregate_Some now (upper symbol) (md :: l)) as (i & _ & Hagg); [done|].
    rewrite Hagg in Hcd. injection Hcd as <-. simpl. apply merged_list_Forall2.
  - intros sources' Hsil. unfold DataAggregator.get_crypto_data.
    rewrite Hsil, Hgather'. simpl. by rewrite usable_silenced.
Qed.

Lemma C1_get_crypto_data_isolation_witness :
  exists r,
    DataAggregator.get_crypto_data Scenario.sources [2; 0; 1]%nat 0 "btc" = Some r /\
    (is_Some r <->
     exists md, Returned (Some md)
                ∈ map (fun source => get_market_data source (upper "btc"))
                      (dict_values Scenario.sources)) /\
    (forall cd, r = Some cd ->
       Forall2 same_but_indicators (CryptoData.market_data cd)
               (omap snapshot_of
                  (map (fun source => get_market_data source (upper "btc"))
                       (dict_values Scenario.sources)))) /\
    (forall sources' : dict DataSource Scenario.stub,
       map (fun source => get_market_data source (upper "btc"))
           (dict_values sources')
       = map silenced (map (fun source => get_market_data source (upper "btc"))
                           (dict_values Scenario.sources)) ->
       DataAggregator.get_crypto_data sources' [2; 0; 1]%nat 0 "btc" = Some r).
Proof.
  apply (C1_get_crypto_data_isolation Scenario.sources [2; 0; 1]%nat 0 "btc").
  simpl. apply (Permutation_cons_app [0; 1]%nat [] 2%nat). reflexivity.
Defined.

(** C3, as the code has it. For a non-empty list of snapshots the merge
    returns a record whose raw list has the length and the order of the
    input; every entry but one equals the adapter's snapshot; the one entry
    that differs is the first snapshot with the latest timestamp, whose
    indicator list is replaced by the deduplicated pool and whose other
    fields (price data, sentiment, volatility, timestamp, source) are the
    adapter's. No snapshot is discarded. *)
Theorem C3_merge_rewrites_latest_only (now : datetime) (symbol : string)
    (market_data_list : list MarketData.t) :
  market_data_list <> [] ->
  exists cd latest m,
    DataAggregator._aggregate_market_data now symbol market_data_list = Some cd /\
    first_latest market_data_list latest /\
    market_data_list !! latest = Some m /\
    length (CryptoData.market_data cd) = length market_data_list /\
    (forall i, i <> latest ->
       CryptoData.market_data cd !! i = market_data_list !! i) /\
    CryptoData.market_data cd !! latest
    = Some (MarketData.set_technical_indicators m
              (dict_values (DataAggregator.unique_indicators
                              (DataAggregator.all_indicators market_data_list)))) /\
    (forall i out inp,
       CryptoData.market_data cd !! i = Some out ->
       market_data_list !! i = Some inp ->
       MarketData.price_data out = MarketData.price_data inp /\
       MarketData.market_sentiment out = MarketData.market_sentiment inp /\
       MarketData.volatility out = MarketData.volatility inp /\
       MarketData.timestamp out = MarketData.timestamp inp /\
       MarketData.source out = MarketData.source inp).
Proof.
  intros Hne.
  destruct (aggregate_Some now symbol _ Hne) as (latest & Hfl & Hagg).
  pose proof Hfl as (m & Hm & _).
  eexists _, latest, m. split; [exact Hagg|]. simpl.
  split; [done|]. split; [done|]. split; [apply length_alter|].
  split; [|split].
  - intros i Hi. unfold DataAggregator.merged_list.
    by apply list_lookup_alter_ne.
  - unfold DataAggregator.merged_list.
    by rewrite list_lookup_alter_eq, Hm.
  - intros i out inp Hout Hinp.
    pose proof (merged_list_Forall2 market_data_list latest) as HF.
    destruct (Forall2_lookup_lr _ _ _ _ _ _ HF Hout Hinp) as (inds & ->).
    by destruct inp.
Qed.

Lemma C3_merge_rewrites_latest_only_witness :
  exists cd latest m,
    DataAggregator._aggregate_market_data 0 "BTC" Scenario.late_first = Some cd /\
    first_latest Scenario.late_first latest /\
    Scenario.late_first !! latest = Some m /\
    length (CryptoData.market_data cd) = length Scenario.late_first /\
    (forall i, i <> latest ->
       CryptoData.market_data cd !! i = Scenario.late_first !! i) /\
    CryptoData.market_data cd !! latest
    = Some (MarketData.set_technical_indicators m
              (dict_values (DataAggregator.unique_indicators
                              (DataAggregator.all_indicators Scenario.late_first)))) /\
    (forall i out inp,
       CryptoData.market_data cd !! i = Some out ->
       Scenario.late_first !! i = Some inp ->
       MarketData.price_data out = MarketData.price_data inp /\
       MarketData.market_sentiment out = MarketData.market_sentiment inp /\
       MarketData.volatility out = MarketData.volatility inp /\
       MarketData.timestamp out = MarketData.timestamp inp /\
       MarketData.source out = MarketData.source inp).
Proof.
  apply (C3_merge_rewrites_latest_only 0 "BTC" Scenario.late_first).
  unfold Scenario.late_first. discriminate.
Defined.

(** C3, as stated, fails: with two snapshots carrying different indicators,
    the raw list of the output is not the list of the adapters' snapshots;
    the entry of the provider with the latest timestamp holds the indicators
    of both providers instead of its own. *)
Lemma C3_raw_snapshot_rewritten :
  exists cd,
    DataAggregator._aggregate_market_data 0 "BTC" Scenario.late_first = Some cd /\
    CryptoData.market_data cd <> Scenario.late_first /\
    (MarketData.technical_indicators <$> CryptoData.market_data cd !! 0%nat)
    = Some [ Scenario.macd (3 # 2) "bullish" 105 BLOOMBERG;
             Scenario.rsi 75 "bearish" 100 TRADINGVIEW ] /\
    (MarketData.technical_indicators <$> Scenario.late_first !! 0%nat)
    = Some [ Scenario.macd (3 # 2) "bullish" 105 BLOOMBERG ].
Proof.
  eexists. split; [reflexivity|]. split; [|split; reflexivity].
  vm_compute. intros Heq. discriminate Heq.
Qed.

(** C4, the code at an input where the claim fails. The first-registered
    provider holds the freshest quote (50010 at t=105) and the second one an
    older quote (50000 at t=100): the merge picks the first snapshot as the
    latest one, yet [get_latest_price] reports the price of the last entry
    of the raw list, 50000. *)
Lemma C4_latest_price_is_last_entry :
  exists cd,
    DataAggregator._aggregate_market_data 0 "BTC" Scenario.late_first = Some cd /\
    first_latest Scenario.late_first 0 /\
    (PriceData.price <$> (MarketData.price_data <$> Scenario.late_first !! 0%nat))
    = Some (50010 # 1) /\
    CryptoData.get_latest_price cd = Some (50000 # 1).
Proof.
  eexists. split; [reflexivity|]. split; [|split; reflexivity].
  destruct (max_by_timestamp_spec Scenario.late_first) as (i & Hi & Hfl);
    [discriminate|].
  vm_compute in Hi. by injection Hi as <-.
Qed.

(** What [get_latest_price] reports on a merged record in general: the price
    of the last snapshot of the list, whatever the timestamps. *)
Lemma latest_price_of_merge now symbol (market_data_list : list MarketData.t) cd :
  DataAggregator._aggregate_market_data now symbol market_data_list = Some cd ->
  CryptoData.get_latest_price cd
  = (fun md => PriceData.price (MarketData.price_data md)) <$> last market_data_list.
Proof.
  intros Hagg.
  destruct market_data_list as [|md l]; [discriminate Hagg|].
  destruct (aggregate_Some now symbol (md :: l)) as (i & _ & Hagg'); [done|].
  rewrite Hagg' in Hagg. injection Hagg as <-.
  unfold CryptoData.get_latest_price. simpl CryptoData.market_data.
  pose proof (merged_list_last (md :: l) i) as Hlast.
  destruct (last (DataAggregator.merged_list (md :: l) i)) as [out|],
           (last (md :: l)) as [inp|]; simpl in *; congruence.
Qed.

(** The three-adapter scenario of the specification, in any completion
    order: the reported price is 50010 and the raw list has two entries. *)
Lemma scenario_price_and_raw_list (order : list nat) :
  order ≡ₚ [0; 1; 2]%nat ->
  exists cd,
    DataAggregator.get_crypto_data Scenario.sources order 0 "btc" = Some (Some cd) /\
    CryptoData.get_latest_price cd = Some (50010 # 1) /\
    length (CryptoData.market_data cd) = 2%nat /\
    (MarketData.technical_indicators <$> last (CryptoData.market_data cd))
    = Some [Scenario.rsi 20 "bullish" 105 TRADINGVIEW].
Proof.
  intros Hperm. unfold DataAggregator.get_crypto_data.
  rewrite gather_settled by (by rewrite Hperm).
  eexists. split; [reflexivity|]. split; [|split]; reflexivity.
Qed.

(** Two providers report the same indicator with the same timestamp: the
    entry of the provider registered first is the one kept. *)
Example dedup_tie_keeps_first_registered :
  dict_values
    (DataAggregator.unique_indicators
       (DataAggregator.all_indicators
          [ Scenario.snapshot 50000 100 BLOOMBERG
              [Scenario.rsi 75 "bearish" 100 BLOOMBERG] None;
            Scenario.snapshot 50010 100 TRADINGVIEW
              [Scenario.rsi 20 "bullish" 100 TRADINGVIEW] None ]))
  = [Scenario.rsi 75 "bearish" 100 BLOOMBERG].
Proof. reflexivity. Qed.

(* ===================================================================== *)
(** ** Sentiment fusion *)
(* ===================================================================== *)

Lemma sentiments_of_same (l1 l2 : list MarketData.t) :
  Forall2 same_but_indicators l1 l2 ->
  DataAggregator.sentiments_of l1 = DataAggregator.sentiments_of l2.
Proof.
  unfold DataAggregator.sentiments_of.
  induction 1 as [|out inp outs inps (inds & ->) _ IH]; [done|].
  csimpl. by rewrite IH.
Qed.

Lemma total_score_count (sentiments : list string) :
  DataAggregator.total_score sentiments
  = Z.of_nat (length (filter (fun s => s = "bullish") sentiments))
    - Z.of_nat (length (filter (fun s => s = "bearish") sentiments)).
Proof.
  induction sentiments as [|s l IH]; [done|].
  cbn [DataAggregator.total_score foldr].
  fold (DataAggregator.total_score l). rewrite IH, !filter_cons.
  destruct (decide (s = "bullish")) as [->|Hb].
  { rewrite decide_False by done. simpl. lia. }
  destruct (decide (s = "bearish")) as [->|Hr].
  { simpl. lia. }
  unfold DataAggregator.sentiment_scores. cbn [dict_get].
  rewrite (decide_False (P := s = "bullish")) by done.
  rewrite (decide_False (P := s = "bearish")) by done.
  destruct (decide (s = "neutral")); simpl; lia.
Qed.

Lemma elem_of_sentiments_of (l : list MarketData.t) (s : string) :
  s ∈ DataAggregator.sentiments_of l
  <-> s <> EmptyString /\ exists md, md ∈ l /\ MarketData.market_sentiment md = Some s.
Proof.
  unfold DataAggregator.sentiments_of. rewrite list_elem_of_omap. split.
  - intros (md & Hmd & Hs).
    destruct (MarketData.market_sentiment md) as [[|c t]|] eqn:Hm; simplify_eq/=.
    split; [done|]. by exists md.
  - intros (Hne & md & Hmd & Hs). exists md. split; [done|]. rewrite Hs.
    by destruct s.
Qed.

Lemma sentiments_of_length (l : list MarketData.t) :
  length (DataAggregator.sentiments_of l)
  = length (filter (fun md => truthy_str (MarketData.market_sentiment md) = true) l).
Proof.
  unfold DataAggregator.sentiments_of.
  induction l as [|md l IH]; [done|]. rewrite filter_cons. csimpl.
  destruct (MarketData.market_sentiment md) as [[|c t]|]; cbn [truthy_str];
    destruct (decide (_ = true)) as [Ht|Ht]; try done; simpl; by rewrite IH.
Qed.

Lemma Qle_bool_false (x y : Q) : Qle_bool x y = false -> (y < x)%Q.
Proof.
  intros Hf. apply Qnot_le_lt. intros Hle.
  apply Qle_bool_iff in Hle. congruence.
Qed.

Lemma classify_sentiment (sentiments : list string) :
  sentiments <> [] ->
  let avg := DataAggregator.avg_score sentiments in
  let fused := DataAggregator._calculate_aggregated_sentiment sentiments in
  ((3 # 10 < avg)%Q -> fused = Some "bullish") /\
  ((avg < - (3 # 10))%Q -> fused = Some "bearish") /\
  ((- (3 # 10) <= avg)%Q /\ (avg <= 3 # 10)%Q -> fused = Some "neutral").
Proof.
  intros Hne avg fused. unfold fused, DataAggregator._calculate_aggregated_sentiment.
  destruct sentiments as [|s l]; [done|]. fold avg.
  destruct (Qle_bool avg (3 # 10)) eqn:Hhi;
    destruct (Qle_bool (- (3 # 10)) avg) eqn:Hlo; simpl;
    try apply Qle_bool_iff in Hhi; try apply Qle_bool_iff in Hlo;
    try apply Qle_bool_false in Hhi; try apply Qle_bool_false in Hlo;
    repeat split; intros; try done; exfalso; lra.
Qed.

Lemma no_sentiment_absent now symbol (market_data_list : list MarketData.t) :
  market_data_list <> [] ->
  (forall md, md ∈ market_data_list ->
              truthy_str (MarketData.market_sentiment md) = false) ->
  exists cd,
    DataAggregator._aggregate_market_data now symbol market_data_list = Some cd /\
    CryptoData.news_sentiment cd = None.
Proof.
  intros Hne Hnone.
  destruct (aggregate_Some now symbol _ Hne) as (i & _ & Hagg).
  eexists. split; [exact Hagg|]. simpl.
  rewrite (sentiments_of_same _ _ (merged_list_Forall2 market_data_list i)).
  assert (DataAggregator.sentiments_of market_data_list = []) as ->; [|done].
  destruct (DataAggregator.sentiments_of market_data_list) as [|s l] eqn:Hs; [done|].
  assert (s ∈ DataAggregator.sentiments_of market_data_list) as Hin
    by (rewrite Hs; left).
  apply elem_of_sentiments_of in Hin as (Hnes & md & Hmd & Hms).
  specialize (Hnone md Hmd). rewrite Hms in Hnone. by destruct s.
Qed.

Lemma sentiments_of_neutral (l : list MarketData.t) :
  Forall (fun md => MarketData.market_sentiment md = Some "neutral") l ->
  DataAggregator.sentiments_of l = replicate (length l) "neutral".
Proof.
  unfold DataAggregator.sentiments_of.
  induction 1 as [|md l Hmd _ IH]; [done|]. csimpl. rewrite Hmd. simpl.
  by rewrite IH.
Qed.

Lemma total_score_app (l1 l2 : list string) :
  DataAggregator.total_score (l1 ++ l2)
  = DataAggregator.total_score l1 + DataAggregator.total_score l2.
Proof.
  induction l1 as [|s l1 IH]; [done|].
  change (DataAggregator.total_score ((s :: l1) ++ l2))
    with (default 0 (dict_get DataAggregator.sentiment_scores s)
          + DataAggregator.total_score (l1 ++ l2)).
  change (DataAggregator.total_score (s :: l1))
    with (default 0 (dict_get DataAggregator.sentiment_scores s)
          + DataAggregator.total_score l1).
  lia.
Qed.

Lemma total_score_neutral (n : nat) :
  DataAggregator.total_score (replicate n "neutral") = 0.
Proof.
  induction n as [|n IH]; [done|].
  change (DataAggregator.total_score (replicate (Datatypes.S n) "neutral"))
    with (0 + DataAggregator.total_score (replicate n "neutral")). lia.
Qed.

Lemma ratio_eq_iff (t a b : Z) :
  0 < a -> a < b ->
  (inject_Z t / inject_Z b == inject_Z t / inject_Z a)%Q <-> t = 0.
Proof.
  intros Ha Hb. destruct a as [|a|a]; try lia. destruct b as [|b|b]; try lia.
  unfold Qdiv, Qinv, Qmult, Qeq, inject_Z. simpl. split; nia.
Qed.

Lemma neutral_providers_dilute
    (market_data_list neutral_providers larger : list MarketData.t) :
  Forall (fun md => MarketData.market_sentiment md = Some "neutral")
         neutral_providers ->
  larger ≡ₚ market_data_list ++ neutral_providers ->
  let sentiments := DataAggregator.sentiments_of market_data_list in
  let sentiments' := DataAggregator.sentiments_of larger in
  DataAggregator.total_score sentiments' = DataAggregator.total_score sentiments /\
  length sentiments' = (length sentiments + length neutral_providers)%nat /\
  (sentiments <> [] -> neutral_providers <> [] ->
   ((DataAggregator.avg_score sentiments' == DataAggregator.avg_score sentiments)%Q
    <-> DataAggregator.total_score sentiments = 0)).
Proof.
  intros Hneutral Hperm sentiments sentiments'.
  assert (Hs : sentiments'
               ≡ₚ sentiments ++ replicate (length neutral_providers) "neutral").
  { rewrite <- (sentiments_of_neutral _ Hneutral).
    unfold sentiments', sentiments, DataAggregator.sentiments_of.
    by rewrite Hperm, omap_app. }
  assert (Htotal : DataAggregator.total_score sentiments'
                   = DataAggregator.total_score sentiments).
  { rewrite (total_score_count sentiments'), Hs, <- total_score_count.
    rewrite total_score_app, total_score_neutral. lia. }
  assert (Hlen : length sentiments'
                 = (length sentiments + length neutral_providers)%nat).
  { by rewrite Hs, length_app, length_replicate. }
  split; [done|]. split; [done|]. intros Hne Hextra.
  unfold DataAggregator.avg_score. rewrite Htotal, Hlen.
  apply ratio_eq_iff.
  - destruct sentiments; [done|]. simpl. lia.
  - destruct neutral_providers; [done|]. simpl. lia.
Qed.

(** C5, as the code has it. Only absent labels ([None] or the empty string)
    are left out; every other label, "neutral" included, counts in the
    denominator. The score of a label is +1 for bullish, -1 for bearish and 0
    for anything else; the average is the sum of the scores over the number
    of non-absent labels; the fused label is bullish when the average
    exceeds 0.3, bearish when it is below -0.3 and neutral otherwise; it is
    absent exactly when no label is left. Providers whose label is neutral,
    added anywhere among the others, leave the sum of the scores as it was
    and add their number to the denominator: the average changes exactly
    when the sum of the scores is not zero. *)
Theorem C5_sentiment_fusion (market_data_list : list MarketData.t) :
  let sentiments := DataAggregator.sentiments_of market_data_list in
  let avg := DataAggregator.avg_score sentiments in
  let fused := DataAggregator._calculate_aggregated_sentiment sentiments in
  (forall s, s ∈ sentiments <->
             s <> EmptyString /\
             exists md, md ∈ market_data_list /\
                        MarketData.market_sentiment md = Some s) /\
  length sentiments
  = length (filter (fun md => truthy_str (MarketData.market_sentiment md) = true)
                   market_data_list) /\
  (avg == inject_Z (Z.of_nat (length (filter (fun s => s = "bullish") sentiments))
                    - Z.of_nat (length (filter (fun s => s = "bearish") sentiments)))
          / inject_Z (Z.of_nat (length sentiments)))%Q /\
  (sentiments = [] <-> fused = None) /\
  (sentiments <> [] ->
     ((3 # 10 < avg)%Q -> fused = Some "bullish") /\
     ((avg < - (3 # 10))%Q -> fused = Some "bearish") /\
     ((- (3 # 10) <= avg)%Q /\ (avg <= 3 # 10)%Q -> fused = Some "neutral")) /\
  (forall neutral_providers larger : list MarketData.t,
     Forall (fun md => MarketData.market_sentiment md = Some "neutral")
            neutral_providers ->
     larger ≡ₚ market_data_list ++ neutral_providers ->
     let sentiments' := DataAggregator.sentiments_of larger in
     DataAggregator.total_score sentiments' = DataAggregator.total_score sentiments /\
     length sentiments' = (length sentiments + length neutral_providers)%nat /\
     (sentiments <> [] -> neutral_providers <> [] ->
      ((DataAggregator.avg_score sentiments' == avg)%Q
       <-> DataAggregator.total_score sentiments = 0))).
Proof.
  intros sentiments avg fused.
  split; [apply elem_of_sentiments_of|].
  split; [apply sentiments_of_length|].
  split.
  { unfold avg, DataAggregator.avg_score. by rewrite total_score_count. }
  split.
  { unfold fused, DataAggregator._calculate_aggregated_sentiment.
    destruct sentiments as [|s l]; [done|].
    split; [done|]. intros Hf.
    destruct (negb _); [discriminate Hf|]. destruct (negb _); discriminate Hf. }
  split; [apply classify_sentiment|].
  intros neutral_providers larger Hneutral Hperm.
  by apply neutral_providers_dilute.
Qed.

(** C5, as stated, fails: a neutral label is not left out of the
    denominator. One bullish provider alone averages 1 and fuses to bullish;
    with three neutral providers added there are four labels, the average is
    1/4 and the fused label is neutral. *)
Lemma C5_neutral_label_dilutes :
  DataAggregator.sentiments_of Scenario.bullish_among_neutrals
  = ["bullish"; "neutral"; "neutral"; "neutral"] /\
  (DataAggregator.avg_score (DataAggregator.sentiments_of Scenario.bullish_alone)
   == 1)%Q /\
  (DataAggregator.avg_score
     (DataAggregator.sentiments_of Scenario.bullish_among_neutrals) == 1 # 4)%Q /\
  ~ (DataAggregator.avg_score
       (DataAggregator.sentiments_of Scenario.bullish_among_neutrals)
     == DataAggregator.avg_score
          (DataAggregator.sentiments_of Scenario.bullish_alone))%Q /\
  DataAggregator._calculate_aggregated_sentiment
    (DataAggregator.sentiments_of Scenario.bullish_alone) = Some "bullish" /\
  DataAggregator._calculate_aggregated_sentiment
    (DataAggregator.sentiments_of Scenario.bullish_among_neutrals) = Some "neutral".
Proof.
  split; [reflexivity|]. split; [reflexivity|]. split; [reflexivity|].
  split; [|split; reflexivity].
  vm_compute. discriminate.
Qed.

(** C6. The labels bullish, bullish, bearish average (1+1-1)/3 = 1/3, above
    0.3, and fuse to "bullish"; neutral, neutral average 0 and fuse to
    "neutral"; with no label at all the fused sentiment is absent, and so is
    the [news_sentiment] of the record built from snapshots none of which
    carries a label. *)
Theorem C6_sentiment_examples :
  DataAggregator._calculate_aggregated_sentiment ["bullish"; "bullish"; "bearish"]
  = Some "bullish" /\
  (DataAggregator.avg_score ["bullish"; "bullish"; "bearish"] == 1 # 3)%Q /\
  (3 # 10 < 1 # 3)%Q /\
  DataAggregator._calculate_aggregated_sentiment ["neutral"; "neutral"]
  = Some "neutral" /\
  (DataAggregator.avg_score ["neutral"; "neutral"] == 0)%Q /\
  DataAggregator._calculate_aggregated_sentiment [] = None /\
  (CryptoData.news_sentiment
     <$> DataAggregator._aggregate_market_data 0 "BTC"
           [Scenario.snapshot1; Scenario.snapshot2]) = Some None /\
  (forall now symbol market_data_list,
     market_data_list <> [] ->
     (forall md, md ∈ market_data_list ->
                 truthy_str (MarketData.market_sentiment md) = false) ->
     exists cd,
       DataAggregator._aggregate_market_data now symbol market_data_list = Some cd /\
       CryptoData.news_sentiment cd = None).
Proof.
  repeat (split; [reflexivity|]).
  exact no_sentiment_absent.
Qed.

(* ===================================================================== *)
(** ** The merged history *)
(* ===================================================================== *)

Lemma extended_flat_map {A : Type} (results : list (outcome (list A))) :
  DataAggregator.extended results = flat_map entries_of results.
Proof.
  induction results as [|[[|a l]|e] rs IH]; simpl; by rewrite ?IH.
Qed.

Lemma insert_by_timestamp_perm x l :
  DataAggregator.insert_by_timestamp x l ≡ₚ x :: l.
Proof.
  induction l as [|y l IH]; simpl; [done|].
  destruct (pd_ts x <=? pd_ts y); [done|].
  rewrite IH. apply Permutation_swap.
Qed.

Lemma sort_by_timestamp_perm l : DataAggregator.sort_by_timestamp l ≡ₚ l.
Proof.
  induction l as [|x l IH]; simpl; [done|].
  by rewrite insert_by_timestamp_perm, IH.
Qed.

Lemma insert_by_timestamp_ascending x l :
  ascending l -> ascending (DataAggregator.insert_by_timestamp x l).
Proof.
  unfold ascending. induction 1 as [|y l Hs IH Hhd]; simpl.
  - repeat constructor.
  - destruct (Z.leb_spec (pd_ts x) (pd_ts y)) as [Hle|Hgt].
    + repeat constructor; done.
    + constructor; [done|].
      destruct l as [|z l]; simpl in *.
      * constructor. lia.
      * destruct (Z.leb_spec (pd_ts x) (pd_ts z)); constructor; [lia|].
        by inversion Hhd.
Qed.

Lemma sort_by_timestamp_ascending l : ascending (DataAggregator.sort_by_timestamp l).
Proof.
  induction l as [|x l IH]; simpl; [constructor|].
  by apply insert_by_timestamp_ascending.
Qed.

Lemma insert_by_timestamp_stable t x l :
  filter (fun p => pd_ts p = t) (DataAggregator.insert_by_timestamp x l)
  = filter (fun p => pd_ts p = t) (x :: l).
Proof.
  induction l as [|y l IH]; simpl; [done|].
  destruct (Z.leb_spec (pd_ts x) (pd_ts y)) as [Hle|Hgt]; [done|].
  rewrite (filter_cons _ y), IH, !filter_cons.
  destruct (decide (pd_ts y = t)), (decide (pd_ts x = t)); try done. lia.
Qed.

Lemma sort_by_timestamp_stable t l :
  filter (fun p => pd_ts p = t) (DataAggregator.sort_by_timestamp l)
  = filter (fun p => pd_ts p = t) l.
Proof.
  induction l as [|x l IH]; simpl; [done|].
  by rewrite insert_by_timestamp_stable, !filter_cons, IH.
Qed.

Lemma same_kind_true (l : list PriceData.t) :
  DataAggregator.same_kind l = true
  <-> forall p q, p ∈ l -> q ∈ l -> PriceData.tz_aware p = PriceData.tz_aware q.
Proof.
  destruct l as [|x l]; simpl.
  { split; [|done]. intros _ p q Hp. by apply elem_of_nil in Hp. }
  rewrite forallb_forall. split.
  - intros Hall p q Hp Hq.
    assert (forall y, y ∈ x :: l -> PriceData.tz_aware y = PriceData.tz_aware x) as Hx.
    { intros y Hy. apply elem_of_cons in Hy as [->|Hy]; [done|].
      apply Bool.eqb_prop, Hall. by apply list_elem_of_In. }
    by rewrite (Hx p Hp), (Hx q Hq).
  - intros Hall y Hy. apply list_elem_of_In in Hy.
    rewrite (Hall y x); [by destruct (PriceData.tz_aware x)| by right | by left].
Qed.

Lemma same_kind_false (l : list PriceData.t) :
  (exists p q, p ∈ l /\ q ∈ l /\ PriceData.tz_aware p <> PriceData.tz_aware q) ->
  DataAggregator.same_kind l = false.
Proof.
  intros (p & q & Hp & Hq & Hne).
  destruct (DataAggregator.same_kind l) eqn:Hk; [|done].
  destruct Hne. by apply (proj1 (same_kind_true l)).
Qed.

(** C7, at the input on which it fails. Bloomberg's history comes back with
    timestamps that name a UTC offset, so [fromisoformat] makes them aware;
    TradingView's comes from [fromtimestamp] and is naive. Each list is
    ascending on its own, both tasks return, and whichever completes first
    the unguarded sort raises [TypeError] out of [get_historical_data]: no
    merged sequence is returned. With timestamps that name no offset the
    same two answers merge into t=1, t=2, t=3. *)
Theorem C7_naive_and_aware_history_raises :
  Cases.bloomberg_history
  = [ PriceData.mk "BTC" 10 0 None 1 true BLOOMBERG;
      PriceData.mk "BTC" 30 0 None 3 true BLOOMBERG ] /\
  Cases.tradingview_history = [ PriceData.mk "BTC" 20 0 None 2 false TRADINGVIEW ] /\
  ascending Cases.bloomberg_history /\
  ascending Cases.tradingview_history /\
  DataAggregator.get_historical_data Cases.mixed_sources [0; 1]%nat "btc" 0 10
  = Some (Raised "TypeError: can't compare offset-naive and offset-aware datetimes") /\
  DataAggregator.get_historical_data Cases.mixed_sources [1; 0]%nat "btc" 0 10
  = Some (Raised "TypeError: can't compare offset-naive and offset-aware datetimes") /\
  DataAggregator.get_historical_data Cases.naive_sources [0; 1]%nat "btc" 0 10
  = Some (Returned [ PriceData.mk "BTC" 10 0 None 1 false BLOOMBERG;
                     PriceData.mk "BTC" 20 0 None 2 false TRADINGVIEW;
                     PriceData.mk "BTC" 30 0 None 3 false BLOOMBERG ]) /\
  DataAggregator.get_historical_data Cases.naive_sources [1; 0]%nat "btc" 0 10
  = Some (Returned [ PriceData.mk "BTC" 10 0 None 1 false BLOOMBERG;
                     PriceData.mk "BTC" 20 0 None 2 false TRADINGVIEW;
                     PriceData.mk "BTC" 30 0 None 3 false BLOOMBERG ]).
Proof.
  split; [reflexivity|]. split; [reflexivity|].
  split; [repeat constructor; done|]. split; [repeat constructor|].
  repeat split; reflexivity.
Qed.

(** Once every task has settled, in whatever order they completed: when the
    timestamps of the collected entries are all naive or all aware,
    [get_historical_data] returns one sequence that holds exactly the entries
    of the providers that returned a history (a provider that raised
    contributes none), is ascending in timestamp, and keeps entries of equal
    timestamp in provider registration order; when a naive and an aware
    timestamp are among them, it raises. *)
Theorem historical_merge_of_one_kind {S : Type} `{BaseDataSource S}
    (sources : dict DataSource S) (order : list nat)
    (symbol : string) (start_date end_date : datetime) :
  order ≡ₚ seq 0 (length sources) ->
  let outcomes :=
    map (fun source => get_historical_prices source (upper symbol) start_date end_date)
        (dict_values sources) in
  let entries := flat_map entries_of outcomes in
  ((forall p q, p ∈ entries -> q ∈ entries ->
                PriceData.tz_aware p = PriceData.tz_aware q) ->
   exists merged,
     DataAggregator.get_historical_data sources order symbol start_date end_date
     = Some (Returned merged) /\
     merged ≡ₚ entries /\
     ascending merged /\
     (forall t, filter (fun p => pd_ts p = t) merged
                = filter (fun p => pd_ts p = t) entries)) /\
  ((exists p q, p ∈ entries /\ q ∈ entries /\
                PriceData.tz_aware p <> PriceData.tz_aware q) ->
   exists e,
     DataAggregator.get_historical_data sources order symbol start_date end_date
     = Some (Raised e)).
Proof.
  intros Hperm outcomes entries.
  assert (Hgather : gather order outcomes = Some outcomes).
  { apply gather_settled. unfold outcomes, dict_values. by rewrite !length_map. }
  assert (Hrun : DataAggregator.get_historical_data sources order symbol
                   start_date end_date
                 = Some (DataAggregator.list_sort entries)).
  { unfold DataAggregator.get_historical_data. fold outcomes.
    rewrite Hgather. simpl. by rewrite extended_flat_map. }
  rewrite Hrun. unfold DataAggregator.list_sort. split.
  - intros Hkind. apply same_kind_true in Hkind. rewrite Hkind.
    eexists. split; [reflexivity|].
    split; [apply sort_by_timestamp_perm|].
    split; [apply sort_by_timestamp_ascending|].
    intros t. apply sort_by_timestamp_stable.
  - intros Hmix. rewrite (same_kind_false _ Hmix). by eexists.
Qed.

Lemma historical_merge_of_one_kind_witness :
  let entries :=
    flat_map entries_of
      (map (fun source => get_historical_prices source (upper "btc") 0 10)
           (dict_values Scenario.history_sources)) in
  exists merged,
    DataAggregator.get_historical_data Scenario.history_sources [1; 2; 0]%nat
                                       "btc" 0 10 = Some (Returned merged) /\
    merged ≡ₚ entries /\
    ascending merged /\
    (forall t, filter (fun p => pd_ts p = t) merged
               = filter (fun p => pd_ts p = t) entries).
Proof.
  intros entries.
  apply (historical_merge_of_one_kind Scenario.history_sources [1; 2; 0]%nat
           "btc" 0 10).
  - simpl. apply Permutation_sym.
    apply (Permutation_cons_app [1; 2]%nat [] 0%nat). reflexivity.
  - apply same_kind_true. reflexivity.
Defined.

(** The historical example of the specification: whichever of the three
    tasks completes first, the merged history is t=1, t=2, t=3. *)
Lemma historical_example (order : list nat) :
  order ≡ₚ [0; 1; 2]%nat ->
  DataAggregator.get_historical_data Scenario.history_sources order "btc" 0 10
  = Some (Returned [ Scenario.quote 10 1 BLOOMBERG;
                     Scenario.quote 20 2 TRADINGVIEW;
                     Scenario.quote 30 3 BLOOMBERG ]).
Proof.
  intros Hperm. unfold DataAggregator.get_historical_data.
  rewrite gather_settled by (by rewrite Hperm). reflexivity.
Qed.

(* ===================================================================== *)
(** ** Closing the adapters *)
(* ===================================================================== *)

Section CloseFacts.
Context {S : Type} `{BaseDataSource S}.

Lemma close_loop_prefix (sources : dict DataSource S) (pre : list S) :
  forall rest called,
    (forall x, x ∈ pre -> exists u, close x = Returned u) ->
    DataAggregator.close_loop (pre ++ rest) called
    = DataAggregator.close_loop rest (called ++ pre).
Proof.
  induction pre as [|s pre IH]; intros rest called Hok; simpl.
  - by rewrite app_nil_r.
  - destruct (Hok s) as [u ->]; [left|].
    rewrite IH by (intros x Hx; apply Hok; by right).
    by rewrite <- app_assoc.
Qed.
End CloseFacts.

(** C10, as the code has it. [close] closes the adapters one after the other
    in registration order. When no adapter's [close] raises, [close] has been
    called on every adapter and the call returns. When an adapter's [close]
    raises, the exception reaches the caller of [DataAggregator.close], and
    [close] has been called on that adapter and the ones registered before
    it, and on no other. *)
Theorem C10_close_in_registration_order {S : Type} `{BaseDataSource S}
    (sources : dict DataSource S) :
  ((forall x, x ∈ dict_values sources -> exists u, close x = Returned u) ->
   DataAggregator.close_all sources = (Returned tt, dict_values sources)) /\
  (forall pre s post e,
     dict_values sources = pre ++ s :: post ->
     (forall x, x ∈ pre -> exists u, close x = Returned u) ->
     close s = Raised e ->
     DataAggregator.close_all sources = (Raised e, pre ++ [s])).
Proof.
  unfold DataAggregator.close_all. split.
  - intros Hok.
    rewrite <- (app_nil_r (dict_values sources)) at 1.
    rewrite (close_loop_prefix sources) by done. done.
  - intros pre s post e -> Hok Hs.
    rewrite (close_loop_prefix sources) by done. simpl. by rewrite Hs.
Qed.

(** C10, as stated, fails: with an adapter whose [close] raises registered
    before another one, the exception reaches the caller and [close] is never
    called on the second adapter. *)
Lemma C10_close_stops_at_failure :
  DataAggregator.close_all Scenario.close_sources
  = (Raised "session already broken",
     [Scenario.failing "session already broken"]) /\
  Scenario.answering Scenario.snapshot2
    ∈ dict_values Scenario.close_sources /\
  Scenario.answering Scenario.snapshot2
    ∉ (DataAggregator.close_all Scenario.close_sources).2.
Proof.
  split; [reflexivity|]. split.
  - right. left.
  - simpl. intros Hin. apply list_elem_of_singleton in Hin. discriminate Hin.
Qed.

(* ===================================================================== *)
(** ** Registration *)
(* ===================================================================== *)

Lemma available_sources_eq (config : Settings.t) :
  available_sources config
  = (if truthy_str (Settings.bloomberg_api_key config) then [BLOOMBERG] else [])
    ++ (if truthy_str (Settings.tradingview_username config)
           && truthy_str (Settings.tradingview_password config)
        then [TRADINGVIEW] else [])
    ++ (if truthy_str (Settings.glassnode_api_key config) then [GLASSNODE] else [])
    ++ [DEFILLAMA].
Proof.
  unfold available_sources, DataAggregator.get_available_sources, _initialize_sources.
  destruct (truthy_str (Settings.bloomberg_api_key config));
    destruct (truthy_str (Settings.tradingview_username config));
    destruct (truthy_str (Settings.tradingview_password config));
    destruct (truthy_str (Settings.glassnode_api_key config)); reflexivity.
Qed.

(** C9, as the code has it. The active set is a function of the configuration
    alone, computed without error for every configuration. Bloomberg,
    TradingView and Glassnode are active exactly when their credentials are
    configured (a non-empty key; for TradingView both a non-empty user name
    and a non-empty password); DefiLlama needs no credentials and is always
    active. The active adapters are listed in the fixed order Bloomberg,
    TradingView, Glassnode, DefiLlama, each once. With no credentials
    configured the active set is DefiLlama alone. *)
Theorem C9_active_sources (config : Settings.t) :
  let active := available_sources config in
  NoDup active /\
  (BLOOMBERG ∈ active <-> truthy_str (Settings.bloomberg_api_key config) = true) /\
  (TRADINGVIEW ∈ active <->
     truthy_str (Settings.tradingview_username config) = true /\
     truthy_str (Settings.tradingview_password config) = true) /\
  (GLASSNODE ∈ active <-> truthy_str (Settings.glassnode_api_key config) = true) /\
  DEFILLAMA ∈ active /\
  (truthy_str (Settings.bloomberg_api_key config) = false ->
   truthy_str (Settings.tradingview_username config)
     && truthy_str (Settings.tradingview_password config) = false ->
   truthy_str (Settings.glassnode_api_key config) = false ->
   active = [DEFILLAMA]).
Proof.
  intros active. unfold active. rewrite available_sources_eq.
  destruct (truthy_str (Settings.bloomberg_api_key config));
    destruct (truthy_str (Settings.tradingview_username config));
    destruct (truthy_str (Settings.tradingview_password config));
    destruct (truthy_str (Settings.glassnode_api_key config));
    simpl; compute_done.
Qed.

(** C9, as stated, fails: a configuration with no credentials for any
    provider yields an active set that is not empty; it holds DefiLlama. *)
Lemma C9_no_credentials_keeps_defillama :
  truthy_str (Settings.bloomberg_api_key Scenario.no_credentials) = false /\
  truthy_str (Settings.tradingview_username Scenario.no_credentials) = false /\
  truthy_str (Settings.tradingview_password Scenario.no_credentials) = false /\
  truthy_str (Settings.glassnode_api_key Scenario.no_credentials) = false /\
  available_sources Scenario.no_credentials = [DEFILLAMA] /\
  available_sources Scenario.no_credentials <> [].
Proof. repeat (split; [reflexivity|]). discriminate. Qed.

(* ===================================================================== *)
(** ** Symbol normalisation *)
(* ===================================================================== *)

Lemma upper_ascii_idem (c : ascii) : upper_ascii (upper_ascii c) = upper_ascii c.
Proof. destruct c as [[] [] [] [] [] [] [] []]; reflexivity. Qed.

Lemma upper_idem (s : string) : upper (upper s) = upper s.
Proof. induction s as [|c s IH]; simpl; [done|]. by rewrite upper_ascii_idem, IH. Qed.

Lemma eqb_dash_upper (d : ascii) : Ascii.eqb "-" (upper_ascii d) = Ascii.eqb "-" d.
Proof. destruct d as [[] [] [] [] [] [] [] []]; reflexivity. Qed.

Lemma eqb_underscore_upper (d : ascii) : Ascii.eqb "_" (upper_ascii d) = Ascii.eqb "_" d.
Proof. destruct d as [[] [] [] [] [] [] [] []]; reflexivity. Qed.

Lemma upper_remove_char (c : ascii) (s : string) :
  (forall d, Ascii.eqb c (upper_ascii d) = Ascii.eqb c d) ->
  upper (remove_char c s) = remove_char c (upper s).
Proof.
  intros Hc. induction s as [|d s IH]; simpl; [done|].
  rewrite Hc. destruct (Ascii.eqb c d); simpl; by rewrite IH.
Qed.

Lemma remove_char_idem (c : ascii) (s : string) :
  remove_char c (remove_char c s) = remove_char c s.
Proof.
  induction s as [|d s IH]; simpl; [done|].
  destruct (Ascii.eqb c d) eqn:Hcd; simpl; [done|]. by rewrite Hcd, IH.
Qed.

Lemma remove_char_comm (a b : ascii) (s : string) :
  remove_char a (remove_char b s) = remove_char b (remove_char a s).
Proof.
  induction s as [|d s IH]; simpl; [done|].
  destruct (Ascii.eqb b d) eqn:Hb, (Ascii.eqb a d) eqn:Ha; simpl;
    rewrite ?Hb, ?Ha, ?IH; done.
Qed.

Lemma _validate_symbol_idem (symbol : string) :
  _validate_symbol (_validate_symbol symbol) = _validate_symbol symbol.
Proof.
  unfold _validate_symbol.
  rewrite (upper_remove_char "_") by apply eqb_underscore_upper.
  rewrite (upper_remove_char "-") by apply eqb_dash_upper.
  rewrite upper_idem.
  rewrite (remove_char_comm "-" "_"), (remove_char_idem "_").
  by rewrite (remove_char_idem "-").
Qed.

Lemma provider_identifier_canonical (provider : DataSource) (s1 s2 : string) :
  _validate_symbol s1 = _validate_symbol s2 ->
  provider_identifier provider s1 = provider_identifier provider s2.
Proof. intros Heq. unfold provider_identifier. by rewrite Heq. Qed.

Lemma defillama_unmapped_absent (_make_request : string -> dict string (dict string Q))
    (now : datetime) (symbol : string) :
  DefiLlama._convert_to_defillama_symbol (_validate_symbol symbol) = None ->
  DefiLlama.get_crypto_price _make_request now symbol = None.
Proof. intros Hnone. unfold DefiLlama.get_crypto_price. by rewrite Hnone. Qed.

Lemma defillama_unmapped_no_indicators
    (_make_request : string -> dict string Q) (indicator_time : nat -> datetime)
    (symbol : string) (indicators : list string) :
  DefiLlama._convert_to_defillama_symbol (_validate_symbol symbol) = None ->
  DefiLlama.get_technical_indicators _make_request indicator_time symbol indicators
  = [].
Proof. intros Hnone. unfold DefiLlama.get_technical_indicators. by rewrite Hnone. Qed.

Lemma glassnode_unmapped_absent (_make_request : string -> string -> list Glassnode.point)
    (fromtimestamp : Z -> datetime) (symbol : string) :
  Glassnode._convert_to_glassnode_symbol (_validate_symbol symbol) = None ->
  Glassnode.get_crypto_price _make_request fromtimestamp symbol = None.
Proof. intros Hnone. unfold Glassnode.get_crypto_price. by rewrite Hnone. Qed.

Lemma bloomberg_price_absent_iff (_make_request : string -> dict string Q)
    (now : datetime) (symbol : string) :
  Bloomberg.get_crypto_price _make_request now symbol = None
  <-> dict_get (_make_request (Bloomberg.price_endpoint (_validate_symbol symbol)))
               "price" = None.
Proof.
  unfold Bloomberg.get_crypto_price. cbv zeta.
  by destruct (dict_get _ "price").
Qed.

Lemma tradingview_price_absent_iff
    (_make_request : string -> string -> string -> list (dict string Q))
    (now : datetime) (symbol : string) :
  TradingView.get_crypto_price _make_request now symbol = None
  <-> _make_request "/crypto/scan" (_validate_symbol symbol)
                    (TradingView.tv_symbol (_validate_symbol symbol)) = [].
Proof.
  unfold TradingView.get_crypto_price. cbv zeta.
  by destruct (_make_request _ _ _).
Qed.



(* ===================================================================== *)
(** ** Dictionaries: lookup after assignment *)
(* ===================================================================== *)

Lemma dict_get_set {K V : Type} `{EqDecision K} (d : dict K V) (k k' : K) (v : V) :
  dict_get (dict_set d k v) k' = if decide (k' = k) then Some v else dict_get d k'.
Proof.
  induction d as [|[k0 v0] d IH]; simpl.
  - destruct (decide (k' = k)); done.
  - destruct (decide (k = k0)) as [->|Hne]; simpl.
    + destruct (decide (k' = k0)); done.
    + destruct (decide (k' = k0)) as [->|Hne'].
      * rewrite decide_False by done. done.
      * apply IH.
Qed.

Lemma dict_set_key_subset {K V : Type} `{EqDecision K} (d : dict K V) (k k' : K) (v : V) :
  k' ∈ dict_keys (dict_set d k v) -> k' = k \/ k' ∈ dict_keys d.
Proof.
  rewrite dict_set_keys. intros Hin. apply elem_of_app in Hin as [Hin|Hin]; [by right|].
  destruct (decide (k ∈ dict_keys d)); [by apply elem_of_nil in Hin|].
  apply list_elem_of_singleton in Hin. by left.
Qed.

(* ===================================================================== *)
(** ** [get_price_data] and [search_crypto] *)
(* ===================================================================== *)

Lemma omap_length_le {A B : Type} (f : A -> option B) (l : list A) :
  (length (omap f l) <= length l)%nat.
Proof.
  induction l as [|a l IH]; [done|]. csimpl.
  destruct (f a); simpl; lia.
Qed.

(** [get_price_data]: once every task has settled, in whatever order, the
    result lists the prices of the adapters that returned one, in
    registration order; an adapter that raised or answered absent leaves no
    entry. *)
Theorem get_price_data_fan_in {S : Type} `{BaseDataSource S}
    (sources : dict DataSource S) (order : list nat) (symbol : string) :
  order ≡ₚ seq 0 (length sources) ->
  let outcomes := map (fun source => get_crypto_price source (upper symbol))
                      (dict_values sources) in
  DataAggregator.get_price_data sources order symbol
  = Some (omap snapshot_of outcomes) /\
  (forall p, p ∈ omap snapshot_of outcomes <->
             exists entry, entry ∈ sources /\
                           get_crypto_price entry.2 (upper symbol) = Returned (Some p)) /\
  (length (omap snapshot_of outcomes) <= length sources)%nat.
Proof.
  intros Hperm outcomes.
  assert (Hlen : length outcomes = length sources).
  { unfold outcomes, dict_values. by rewrite !length_map. }
  split; [|split].
  - unfold DataAggregator.get_price_data. fold outcomes.
    rewrite gather_settled by (by rewrite Hlen). simpl. by rewrite usable_omap.
  - intros p. rewrite <- usable_omap, elem_of_usable. unfold outcomes, dict_values.
    rewrite <- list_fmap_compose. split.
    + intros Hin. apply (list_elem_of_fmap_1 _) in Hin as (entry & Heq & Hentry).
      exists entry. split; [done|]. simpl in Heq. by rewrite <- Heq.
    + intros (entry & Hentry & Heq). rewrite <- Heq.
      by apply (list_elem_of_fmap_2 (fun e => get_crypto_price e.2 (upper symbol))).
  - rewrite <- Hlen. apply omap_length_le.
Qed.

Lemma get_price_data_fan_in_witness :
  DataAggregator.get_price_data Scenario.sources [2; 0; 1]%nat "btc"
  = Some (omap snapshot_of
            (map (fun source => get_crypto_price source (upper "btc"))
                 (dict_values Scenario.sources))) /\
  (forall p, p ∈ omap snapshot_of
                   (map (fun source => get_crypto_price source (upper "btc"))
                        (dict_values Scenario.sources)) <->
             exists entry, entry ∈ Scenario.sources /\
                           get_crypto_price entry.2 (upper "btc") = Returned (Some p)) /\
  (length (omap snapshot_of
             (map (fun source => get_crypto_price source (upper "btc"))
                  (dict_values Scenario.sources)))
   <= length Scenario.sources)%nat.
Proof.
  apply (get_price_data_fan_in Scenario.sources [2; 0; 1]%nat "btc").
  simpl. apply (Permutation_cons_app [0; 1]%nat [] 2%nat). reflexivity.
Defined.

Section SearchFacts.
Context {S R : Type}.
Implicit Types (names : list DataSource) (results : list (outcome (list R))).

Lemma search_fill_spec names : forall results acc,
  length names = length results ->
  NoDup (dict_keys acc ++ names) ->
  DataAggregator.search_fill names results acc
  = acc ++ zip names (map entries_of results).
Proof.
  induction names as [|k names IH]; intros results acc Hlen Hnd.
  - destruct results; [|done]. simpl. by rewrite app_nil_r.
  - destruct results as [|r results]; [done|].
    apply NoDup_app in Hnd as (Hacc & Hdisj & Hnames).
    apply NoDup_cons in Hnames as [Hk Hnames].
    assert (Hfresh : k ∉ dict_keys acc).
    { intros Hin. apply (Hdisj k Hin). left. }
    assert (Hstep : forall v : list R,
               DataAggregator.search_fill names results (dict_set acc k v)
               = acc ++ (k, v) :: zip names (map entries_of results)).
    { intros v. rewrite IH.
      - rewrite dict_set_fresh by done. by rewrite <- app_assoc.
      - simpl in Hlen. lia.
      - rewrite dict_set_fresh by done. unfold dict_keys.
        rewrite map_app. simpl. rewrite <- app_assoc. simpl.
        apply NoDup_app. split; [done|]. split.
        + intros x Hx Hx'. apply (Hdisj x Hx). done.
        + by apply NoDup_cons. }
    destruct r as [l|e]; simpl; apply Hstep.
Qed.
End SearchFacts.

Lemma zip_keys_values {S B : Type} (g : S -> B) (sources : dict DataSource S) :
  zip (dict_keys sources) (map g (dict_values sources))
  = map (fun entry => (entry.1, g entry.2)) sources.
Proof.
  induction sources as [|[k v] l IH]; [done|]. simpl. by rewrite <- IH.
Qed.

(** [search_crypto]: once every task has settled, in whatever order, the
    result has exactly the registered providers as keys, in registration
    order; the value of a provider is the list its adapter returned, and the
    empty list when its adapter raised. No provider's key is missing. *)
Theorem search_crypto_keeps_every_key {S R : Type}
    (source_search : S -> string -> outcome (list R))
    (sources : dict DataSource S) (order : list nat) (query : string) :
  order ≡ₚ seq 0 (length sources) ->
  NoDup (dict_keys sources) ->
  exists search_results,
    DataAggregator.search_crypto source_search sources order query
    = Some search_results /\
    dict_keys search_results = dict_keys sources /\
    (forall entry, entry ∈ sources ->
       dict_get search_results entry.1
       = Some (entries_of (source_search entry.2 query))).
Proof.
  intros Hperm Hnd.
  set (outcomes := map (fun source => source_search source query) (dict_values sources)).
  assert (Hlen : length outcomes = length sources).
  { unfold outcomes, dict_values. by rewrite !length_map. }
  set (res := map (fun entry : DataSource * S =>
                     (entry.1, entries_of (source_search entry.2 query))) sources).
  assert (Hkeys : dict_keys res = dict_keys sources).
  { unfold res, dict_keys. rewrite map_map. done. }
  exists res. split; [|split; [done|]].
  - unfold DataAggregator.search_crypto. fold outcomes.
    rewrite gather_settled by (by rewrite Hlen). simpl.
    rewrite search_fill_spec.
    + simpl. unfold outcomes. rewrite map_map.
      by rewrite (zip_keys_values (fun s => entries_of (source_search s query))).
    + unfold dict_keys. rewrite length_map. by rewrite Hlen.
    + done.
  - intros entry Hentry. apply dict_get_elem; [by rewrite Hkeys|].
    unfold res.
    by apply (list_elem_of_fmap_2
                (fun e : DataSource * S => (e.1, entries_of (source_search e.2 query)))).
Qed.

Lemma search_crypto_keeps_every_key_witness :
  exists search_results,
    DataAggregator.search_crypto Cases.stub_search Scenario.sources
                                 [1; 2; 0]%nat "uni"
    = Some search_results /\
    dict_keys search_results = dict_keys Scenario.sources /\
    (forall entry, entry ∈ Scenario.sources ->
       dict_get search_results entry.1
       = Some (entries_of (Cases.stub_search entry.2 "uni"))).
Proof.
  apply (search_crypto_keeps_every_key Cases.stub_search Scenario.sources
                                       [1; 2; 0]%nat "uni").
  - simpl. apply Permutation_sym.
    apply (Permutation_cons_app [1; 2]%nat [] 0%nat). reflexivity.
  - simpl. compute_done.
Defined.

(* ===================================================================== *)
(** ** [_extract_fundamental_data] *)
(* ===================================================================== *)

Lemma extract_snoc (l : list MarketData.t) (md : MarketData.t) :
  DataAggregator._extract_fundamental_data (l ++ [md])
  = DataAggregator.extract_step (DataAggregator._extract_fundamental_data l) md.
Proof. unfold DataAggregator._extract_fundamental_data. by rewrite fold_left_app. Qed.

Ltac step_cases md :=
  unfold DataAggregator.extract_step, cap_of, vol_of;
  destruct (PriceData.market_cap (MarketData.price_data md)) as [c|];
  destruct (MarketData.volatility md) as [v|];
  destruct (MarketData.source md);
  try destruct (truthy_float (Some c)); try destruct (truthy_float (Some v));
  try destruct (truthy_float None);
  rewrite ?dict_get_set;
  repeat match goal with
         | |- context [decide (?a = ?b)] =>
             destruct (decide (a = b)) as [?|?]; try discriminate; try done
         end;
  try done.

Lemma extract_step_cap d md :
  dict_get (DataAggregator.extract_step d md) "market_cap"
  = match cap_of md with
    | Some c => Some (FFloat c)
    | None => dict_get d "market_cap"
    end.
Proof. step_cases md. Qed.

Lemma extract_step_vol d md :
  dict_get (DataAggregator.extract_step d md) "volatility"
  = match vol_of md with
    | Some v => Some (FFloat v)
    | None => dict_get d "volatility"
    end.
Proof. step_cases md. Qed.

Lemma extract_step_on_chain d md :
  dict_get (DataAggregator.extract_step d md) "on_chain_metrics"
  = if decide (MarketData.source md = GLASSNODE) then Some (FBool true)
    else dict_get d "on_chain_metrics".
Proof. step_cases md. Qed.

Lemma extract_step_defi d md :
  dict_get (DataAggregator.extract_step d md) "defi_metrics"
  = if decide (MarketData.source md = DEFILLAMA) then Some (FBool true)
    else dict_get d "defi_metrics".
Proof. step_cases md. Qed.

Lemma last_omap_snoc {A B : Type} (f : A -> option B) (l : list A) (a : A) :
  last (omap f (l ++ [a]))
  = match f a with
    | Some b => Some b
    | None => last (omap f l)
    end.
Proof.
  rewrite omap_app, last_app. csimpl. destruct (f a); done.
Qed.

(** [_extract_fundamental_data]: the market cap (and likewise the
    volatility) of the result is the one of the last snapshot, in
    registration order, that carries a non-zero one: a later provider
    overrides an earlier one, and the entry is missing when no snapshot
    carries one. *)
Theorem extract_fundamental_last_wins (market_data_list : list MarketData.t) :
  let fundamental_data := DataAggregator._extract_fundamental_data market_data_list in
  dict_get fundamental_data "market_cap"
  = (FFloat <$> last (omap cap_of market_data_list)) /\
  dict_get fundamental_data "volatility"
  = (FFloat <$> last (omap vol_of market_data_list)).
Proof.
  induction market_data_list as [|md l IH] using rev_ind; [done|].
  destruct IH as [IHc IHv]. cbn zeta.
  rewrite extract_snoc, extract_step_cap, extract_step_vol, !last_omap_snoc.
  split.
  - destruct (cap_of md); [done | exact IHc].
  - destruct (vol_of md); [done | exact IHv].
Qed.

(** [_extract_fundamental_data]: the flag [on_chain_metrics] is set, to
    [True], exactly when a Glassnode snapshot is in the list, and
    [defi_metrics] exactly when a DefiLlama snapshot is; the dictionary has
    no key beyond [market_cap], [volatility] and these two flags, and no key
    twice. *)
Theorem extract_fundamental_flags (market_data_list : list MarketData.t) :
  let fundamental_data := DataAggregator._extract_fundamental_data market_data_list in
  dict_get fundamental_data "on_chain_metrics"
  = (if bool_decide (GLASSNODE ∈ map MarketData.source market_data_list)
     then Some (FBool true) else None) /\
  dict_get fundamental_data "defi_metrics"
  = (if bool_decide (DEFILLAMA ∈ map MarketData.source market_data_list)
     then Some (FBool true) else None) /\
  (forall k, k ∈ dict_keys fundamental_data -> k ∈ fundamental_keys) /\
  NoDup (dict_keys fundamental_data).
Proof.
  induction market_data_list as [|md l IH] using rev_ind.
  { repeat split; try done.
    - intros k Hk. by apply elem_of_nil in Hk.
    - constructor. }
  destruct IH as (IHg & IHd & IHk & IHn). cbn zeta.
  rewrite extract_snoc, extract_step_on_chain, extract_step_defi, map_app.
  split; [|split; [|split]].
  - destruct (decide (MarketData.source md = GLASSNODE)) as [Hs|Hs].
    + rewrite bool_decide_eq_true_2; [done|].
      apply elem_of_app. right. simpl. rewrite Hs. left.
    + rewrite IHg.
      assert (bool_decide (GLASSNODE ∈ map MarketData.source l)
              = bool_decide (GLASSNODE ∈ map MarketData.source l
                                       ++ map MarketData.source [md])) as ->; [|done].
      apply bool_decide_ext. rewrite elem_of_app. simpl.
      rewrite list_elem_of_singleton. intuition congruence.
  - destruct (decide (MarketData.source md = DEFILLAMA)) as [Hs|Hs].
    + rewrite bool_decide_eq_true_2; [done|].
      apply elem_of_app. right. simpl. rewrite Hs. left.
    + rewrite IHd.
      assert (bool_decide (DEFILLAMA ∈ map MarketData.source l)
              = bool_decide (DEFILLAMA ∈ map MarketData.source l
                                       ++ map MarketData.source [md])) as ->; [|done].
      apply bool_decide_ext. rewrite elem_of_app. simpl.
      rewrite list_elem_of_singleton. intuition congruence.
  - intros k. unfold DataAggregator.extract_step.
    destruct (PriceData.market_cap (MarketData.price_data md)) as [c|];
      destruct (MarketData.volatility md) as [v|];
      destruct (MarketData.source md);
      try destruct (truthy_float (Some c)); try destruct (truthy_float (Some v));
      intros Hk;
      repeat (apply dict_set_key_subset in Hk as [->|Hk]; [compute_done|]);
      by apply IHk.
  - unfold DataAggregator.extract_step.
    destruct (PriceData.market_cap (MarketData.price_data md)) as [c|];
      destruct (MarketData.volatility md) as [v|];
      destruct (MarketData.source md);
      try destruct (truthy_float (Some c)); try destruct (truthy_float (Some v));
      repeat apply dict_set_NoDup; done.
Qed.

(* ===================================================================== *)
(** ** More on sentiment fusion *)
(* ===================================================================== *)

Lemma total_score_perm (l1 l2 : list string) :
  l1 ≡ₚ l2 -> DataAggregator.total_score l1 = DataAggregator.total_score l2.
Proof. intros Hperm. rewrite !total_score_count. by rewrite Hperm. Qed.

(** Sentiment fusion does not depend on the order of the providers: two
    lists of labels that are permutations of each other fuse to the same
    label. *)
Theorem sentiment_order_irrelevant (sentiments sentiments' : list string) :
  sentiments ≡ₚ sentiments' ->
  DataAggregator._calculate_aggregated_sentiment sentiments
  = DataAggregator._calculate_aggregated_sentiment sentiments'.
Proof.
  intros Hperm.
  assert (Havg : DataAggregator.avg_score sentiments
                 = DataAggregator.avg_score sentiments').
  { unfold DataAggregator.avg_score.
    by rewrite (total_score_perm _ _ Hperm), (Permutation_length Hperm). }
  unfold DataAggregator._calculate_aggregated_sentiment. rewrite Havg.
  destruct sentiments as [|s l], sentiments' as [|s' l']; try done.
  - by apply Permutation_nil_cons in Hperm.
  - symmetry in Hperm. by apply Permutation_nil_cons in Hperm.
Qed.

Lemma sentiment_order_irrelevant_witness :
  DataAggregator._calculate_aggregated_sentiment ["bearish"; "bullish"; "neutral"]
  = DataAggregator._calculate_aggregated_sentiment ["bullish"; "neutral"; "bearish"].
Proof.
  apply (sentiment_order_irrelevant ["bearish"; "bullish"; "neutral"]
                                    ["bullish"; "neutral"; "bearish"]).
  apply (Permutation_cons_app ["bullish"; "neutral"] [] "bearish").
  reflexivity.
Defined.

Lemma total_score_bounds (sentiments : list string) :
  - Z.of_nat (length sentiments) <= DataAggregator.total_score sentiments
  <= Z.of_nat (length sentiments).
Proof.
  rewrite total_score_count.
  pose proof (length_filter (fun s => s = "bullish") sentiments).
  pose proof (length_filter (fun s => s = "bearish") sentiments).
  lia.
Qed.

Lemma total_score_unanimous (n : nat) :
  DataAggregator.total_score (replicate n "bullish") = Z.of_nat n /\
  DataAggregator.total_score (replicate n "bearish") = - Z.of_nat n.
Proof.
  induction n as [|n [IHb IHr]]; [done|]. split.
  - change (DataAggregator.total_score (replicate (Datatypes.S n) "bullish"))
      with (1 + DataAggregator.total_score (replicate n "bullish")). lia.
  - change (DataAggregator.total_score (replicate (Datatypes.S n) "bearish"))
      with (-1 + DataAggregator.total_score (replicate n "bearish")). lia.
Qed.

Lemma avg_score_ratio (sentiments : list string) (p : positive) :
  Z.of_nat (length sentiments) = Z.pos p ->
  (DataAggregator.avg_score sentiments
   == DataAggregator.total_score sentiments # p)%Q.
Proof.
  intros Hn. unfold DataAggregator.avg_score. rewrite Hn.
  unfold Qdiv, Qinv, Qmult, Qeq, inject_Z. simpl. lia.
Qed.

(** The average score of a non-empty list of labels lies between -1 and 1,
    and the fused label is one of bullish, bearish and neutral whatever the
    labels are (unrecognised labels included); unanimous bullish labels fuse
    to bullish and unanimous bearish labels to bearish. *)
Theorem sentiment_average_bounded :
  (forall s l, let sentiments := s :: l in
     (- (1) <= DataAggregator.avg_score sentiments)%Q /\
     (DataAggregator.avg_score sentiments <= 1)%Q /\
     DataAggregator._calculate_aggregated_sentiment sentiments
     ∈ [Some "bullish"; Some "bearish"; Some "neutral"]) /\
  (forall n, DataAggregator._calculate_aggregated_sentiment
               (replicate (Datatypes.S n) "bullish") = Some "bullish") /\
  (forall n, DataAggregator._calculate_aggregated_sentiment
               (replicate (Datatypes.S n) "bearish") = Some "bearish").
Proof.
  split; [|split].
  - intros s l sentiments. pose proof (total_score_bounds sentiments) as Hb.
    destruct (Z.of_nat (length sentiments)) as [|p|p] eqn:Hn; [done| |lia].
    pose proof (avg_score_ratio sentiments p Hn) as Havg.
    split; [|split].
    + rewrite Havg. unfold Qle. cbn [Qnum Qden Qopp]. lia.
    + rewrite Havg. unfold Qle. cbn [Qnum Qden]. lia.
    + unfold sentiments, DataAggregator._calculate_aggregated_sentiment.
      destruct (negb _); [compute_done|]. destruct (negb _); compute_done.
  - intros n.
    destruct (classify_sentiment (replicate (Datatypes.S n) "bullish")) as (Hb & _);
      [done|]. apply Hb.
    assert (Hn : Z.of_nat (length (replicate (Datatypes.S n) "bullish"))
                 = Z.pos (Pos.of_succ_nat n)) by (rewrite length_replicate; lia).
    rewrite (avg_score_ratio _ _ Hn).
    destruct (total_score_unanimous (Datatypes.S n)) as [-> _].
    unfold Qlt. cbn [Qnum Qden]. lia.
  - intros n.
    destruct (classify_sentiment (replicate (Datatypes.S n) "bearish"))
      as (_ & Hr & _); [done|]. apply Hr.
    assert (Hn : Z.of_nat (length (replicate (Datatypes.S n) "bearish"))
                 = Z.pos (Pos.of_succ_nat n)) by (rewrite length_replicate; lia).
    rewrite (avg_score_ratio _ _ Hn).
    destruct (total_score_unanimous (Datatypes.S n)) as [_ ->].
    unfold Qlt. cbn [Qnum Qden Qopp]. lia.
Qed.

(* ===================================================================== *)
(** ** The merged record and the methods of [CryptoData] *)
(* ===================================================================== *)

(** In the record the merge returns, the snapshot it chose as base (the
    first one with the latest timestamp) lists every indicator name at most
    once, and every indicator reported by any provider is represented there
    by an entry of the same name that is at least as recent. *)
Theorem merged_snapshot_covers_pool (now : datetime) (symbol : string)
    (market_data_list : list MarketData.t) :
  market_data_list <> [] ->
  exists cd latest out,
    DataAggregator._aggregate_market_data now symbol market_data_list = Some cd /\
    first_latest market_data_list latest /\
    CryptoData.market_data cd !! latest = Some out /\
    NoDup (map ind_name (MarketData.technical_indicators out)) /\
    (forall md ind,
       md ∈ market_data_list -> ind ∈ MarketData.technical_indicators md ->
       exists kept,
         kept ∈ MarketData.technical_indicators out /\
         ind_name kept = ind_name ind /\ ind_ts ind <= ind_ts kept).
Proof.
  intros Hne.
  destruct (aggregate_Some now symbol _ Hne) as (latest & Hfl & Hagg).
  pose proof Hfl as (m & Hm & _).
  set (pool := DataAggregator.all_indicators market_data_list).
  destruct (unique_indicators_inv pool) as (Hnd & Hcov & Hret).
  eexists _, latest, _. split; [exact Hagg|]. split; [done|]. simpl.
  split.
  { unfold DataAggregator.merged_list. by rewrite list_lookup_alter_eq, Hm. }
  simpl. fold pool. split.
  - rewrite dict_values_names; [done|].
    intros k v Hin. by destruct (Hret k v Hin).
  - intros md ind Hmd Hind.
    assert (Hpool : ind ∈ pool).
    { apply elem_of_flat_map. by exists md. }
    pose proof (Hcov ind Hpool) as Hkey. unfold dict_keys in Hkey.
    apply (list_elem_of_fmap_1 fst) in Hkey as ([k v] & Hk & Hin). simpl in Hk.
    subst k. pose proof (Hret _ _ Hin) as Hr.
    exists v. split; [|split].
    + unfold dict_values. by apply (list_elem_of_fmap_2 snd) in Hin.
    + by destruct Hr.
    + by eapply retained_bound.
Qed.

Lemma merged_snapshot_covers_pool_witness :
  exists cd latest out,
    DataAggregator._aggregate_market_data 0 "BTC" Scenario.late_first = Some cd /\
    first_latest Scenario.late_first latest /\
    CryptoData.market_data cd !! latest = Some out /\
    NoDup (map ind_name (MarketData.technical_indicators out)) /\
    (forall md ind,
       md ∈ Scenario.late_first -> ind ∈ MarketData.technical_indicators md ->
       exists kept,
         kept ∈ MarketData.technical_indicators out /\
         ind_name kept = ind_name ind /\ ind_ts ind <= ind_ts kept).
Proof.
  apply (merged_snapshot_covers_pool 0 "BTC" Scenario.late_first).
  unfold Scenario.late_first. discriminate.
Defined.

Lemma head_app {A : Type} (l1 l2 : list A) :
  head (l1 ++ l2) = match head l1 with Some x => Some x | None => head l2 end.
Proof. by destruct l1. Qed.

Lemma find_signal_head (n : string) (inds : list TechnicalIndicator.t) :
  CryptoData.find_signal n inds
  = (TechnicalIndicator.signal <$> head (filter (fun i => ind_name i = n) inds)).
Proof.
  induction inds as [|i inds IH]; [done|]. simpl. rewrite filter_cons.
  destruct (decide (ind_name i = n)); [done | exact IH].
Qed.

Lemma head_filter_None {A : Type} (P : A -> Prop) `{forall x, Decision (P x)}
    (l : list A) :
  head (filter P l) = None <-> forall x, x ∈ l -> ~ P x.
Proof.
  induction l as [|a l IH]; simpl.
  - split; [|done]. intros _ x Hx. by apply elem_of_nil in Hx.
  - rewrite filter_cons. destruct (decide (P a)) as [Hp|Hp]; simpl.
    + split; [done|]. intros Hall. exfalso. apply (Hall a); [left | done].
    + rewrite IH. split.
      * intros Hall x Hx. apply elem_of_cons in Hx as [->|Hx]; [done | by apply Hall].
      * intros Hall x Hx. apply Hall. by right.
Qed.

(** [get_technical_signal] returns the signal of the first indicator of that
    name met when the snapshots are walked in list order and each snapshot's
    indicators in their order, whatever the timestamps; it returns [None]
    exactly when no snapshot lists an indicator of that name. *)
Theorem get_technical_signal_first_match (self : CryptoData.t) (n : string) :
  let pool := DataAggregator.all_indicators (CryptoData.market_data self) in
  CryptoData.get_technical_signal self n
  = (TechnicalIndicator.signal <$> head (filter (fun i => ind_name i = n) pool)) /\
  (CryptoData.get_technical_signal self n = None <-> n ∉ map ind_name pool).
Proof.
  intros pool.
  assert (Heq : CryptoData.get_technical_signal self n
                = (TechnicalIndicator.signal
                     <$> head (filter (fun i => ind_name i = n) pool))).
  { unfold CryptoData.get_technical_signal, pool, DataAggregator.all_indicators.
    induction (CryptoData.market_data self) as [|md l IH]; [done|]. simpl.
    rewrite filter_app, head_app, find_signal_head.
    destruct (head (filter _ (MarketData.technical_indicators md))); [done | exact IH]. }
  split; [done|]. rewrite Heq. split.
  - intros Hnone Hin.
    apply (list_elem_of_fmap_1 ind_name) in Hin as (i & -> & Hi).
    destruct (head (filter _ pool)) as [x|] eqn:Hh; [done|].
    eapply head_filter_None in Hh; [|exact Hi]. by apply Hh.
  - intros Hni.
    assert (head (filter (fun i => ind_name i = n) pool) = None) as ->; [|done].
    apply head_filter_None. intros x Hx Hn. apply Hni. rewrite <- Hn.
    by apply (list_elem_of_fmap_2 ind_name).
Qed.

(** [get_price_change_24h] compares the last two entries of the raw list: it
    returns [None] exactly when the list has fewer than two entries; with two
    or more it raises [ZeroDivisionError] when the price of the entry before
    the last is zero and returns a number otherwise. On a record built by the
    merge it is therefore [None] exactly when a single provider answered. *)
Theorem price_change_edge_cases (self : CryptoData.t) :
  (CryptoData.get_price_change_24h self = Returned None
   <-> (length (CryptoData.market_data self) < 2)%nat) /\
  (forall pre previous current,
     CryptoData.market_data self = pre ++ [previous; current] ->
     ((PriceData.price (MarketData.price_data previous) == 0)%Q ->
      CryptoData.get_price_change_24h self = Raised "ZeroDivisionError") /\
     (~ (PriceData.price (MarketData.price_data previous) == 0)%Q ->
      exists change, CryptoData.get_price_change_24h self = Returned (Some change))) /\
  (forall now symbol market_data_list,
     DataAggregator._aggregate_market_data now symbol market_data_list = Some self ->
     (CryptoData.get_price_change_24h self = Returned None
      <-> length market_data_list = 1%nat)).
Proof.
  assert (Hnone : CryptoData.get_price_change_24h self = Returned None
                  <-> (length (CryptoData.market_data self) < 2)%nat).
  { unfold CryptoData.get_price_change_24h.
    rewrite <- (length_rev (CryptoData.market_data self)).
    destruct (rev (CryptoData.market_data self)) as [|a [|b r]]; simpl.
    - split; [lia | done].
    - split; [lia | done].
    - destruct (Qeq_bool _ 0); split; (done || lia). }
  split; [exact Hnone|]. split.
  - intros pre previous current Hmd. unfold CryptoData.get_price_change_24h.
    rewrite Hmd, rev_app_distr. simpl. split.
    + intros Hz. apply Qeq_bool_iff in Hz. by rewrite Hz.
    + intros Hnz. destruct (Qeq_bool _ 0) eqn:Hq.
      * exfalso. apply Hnz. by apply Qeq_bool_iff.
      * eexists. reflexivity.
  - intros now symbol market_data_list Hagg. rewrite Hnone.
    destruct market_data_list as [|md l]; [discriminate Hagg|].
    destruct (aggregate_Some now symbol (md :: l)) as (i & _ & Hagg'); [done|].
    rewrite Hagg' in Hagg. injection Hagg as <-. simpl CryptoData.market_data.
    unfold DataAggregator.merged_list. rewrite length_alter. simpl. lia.
Qed.

Lemma latest_price_of_merge_witness :
  exists cd,
    DataAggregator._aggregate_market_data 0 "BTC" Scenario.late_first = Some cd /\
    CryptoData.get_latest_price cd
    = ((fun md => PriceData.price (MarketData.price_data md))
         <$> last Scenario.late_first).
Proof.
  eexists. split; [reflexivity|].
  apply (latest_price_of_merge 0 "BTC" Scenario.late_first). reflexivity.
Defined.

(* ===================================================================== *)
(** ** The adapters *)
(* ===================================================================== *)

Lemma remove_char_absent (c : ascii) (s : string) :
  Forall (fun d => d <> c) (list_ascii_of_string (remove_char c s)).
Proof.
  induction s as [|d s IH]; simpl; [constructor|].
  destruct (Ascii.eqb c d) eqn:Hcd; [done|]. simpl. constructor; [|done].
  apply Ascii.eqb_neq in Hcd. congruence.
Qed.

Lemma remove_char_Forall (P : ascii -> Prop) (c : ascii) (s : string) :
  Forall P (list_ascii_of_string s) ->
  Forall P (list_ascii_of_string (remove_char c s)).
Proof.
  induction s as [|d s IH]; simpl; [done|]. intros Hall.
  apply Forall_cons in Hall as [Hd Hall].
  destruct (Ascii.eqb c d); [by apply IH|]. simpl. constructor; [done | by apply IH].
Qed.

Lemma upper_no_lowercase (s : string) :
  Forall (fun c => upper_ascii c = c) (list_ascii_of_string (upper s)).
Proof.
  induction s as [|c s IH]; simpl; constructor; [apply upper_ascii_idem | done].
Qed.

Lemma remove_char_length (c : ascii) (s : string) :
  (String.length (remove_char c s) <= String.length s)%nat.
Proof.
  induction s as [|d s IH]; simpl; [done|].
  destruct (Ascii.eqb c d); simpl; lia.
Qed.

Lemma upper_length (s : string) : String.length (upper s) = String.length s.
Proof. induction s as [|c s IH]; simpl; [done | by rewrite IH]. Qed.

Lemma upper_ascii_below (c : ascii) :
  (nat_of_ascii c <? 128)%nat = true ->
  (nat_of_ascii (upper_ascii c) <? 128)%nat = true.
Proof.
  intros Hc. unfold upper_ascii.
  destruct ((97 <=? nat_of_ascii c)%nat && (nat_of_ascii c <=? 122)%nat) eqn:Hlow;
    [|done].
  apply andb_true_iff in Hlow as [Hlo Hhi].
  apply Nat.leb_le in Hlo, Hhi. apply Nat.ltb_lt.
  rewrite nat_ascii_embedding; lia.
Qed.

Lemma upper_isascii (s : string) : isascii s = true -> isascii (upper s) = true.
Proof.
  induction s as [|c s IH]; simpl; [done|]. intros Hs.
  apply andb_true_iff in Hs as [Hc Hs].
  by rewrite (upper_ascii_below c Hc), IH.
Qed.

Lemma remove_char_isascii (c : ascii) (s : string) :
  isascii s = true -> isascii (remove_char c s) = true.
Proof.
  induction s as [|d s IH]; simpl; [done|]. intros Hs.
  apply andb_true_iff in Hs as [Hd Hs].
  destruct (Ascii.eqb c d); [by apply IH|]. simpl. by rewrite Hd, IH.
Qed.

(** [_validate_symbol] on an ASCII symbol: the normalised symbol is ASCII,
    holds no dash, no underscore and no lower-case letter, and is not longer
    than the input. *)
Theorem validate_symbol_alphabet (symbol : string) :
  isascii symbol = true ->
  isascii (_validate_symbol symbol) = true /\
  Forall (fun c => c <> "-"%char /\ c <> "_"%char /\ upper_ascii c = c)
         (list_ascii_of_string (_validate_symbol symbol)) /\
  (String.length (_validate_symbol symbol) <= String.length symbol)%nat.
Proof.
  intros Hascii. unfold _validate_symbol. split; [|split].
  - by apply remove_char_isascii, remove_char_isascii, upper_isascii.
  - apply Forall_and. split; [|apply Forall_and; split].
    + apply remove_char_Forall, remove_char_absent.
    + apply remove_char_absent.
    + apply remove_char_Forall, remove_char_Forall, upper_no_lowercase.
  - pose proof (remove_char_length "_" (remove_char "-" (upper symbol))).
    pose proof (remove_char_length "-" (upper symbol)).
    pose proof (upper_length symbol). lia.
Qed.

Lemma validate_symbol_alphabet_witness :
  isascii "btc-usd" = true /\
  isascii (_validate_symbol "btc-usd") = true /\
  Forall (fun c => c <> "-"%char /\ c <> "_"%char /\ upper_ascii c = c)
         (list_ascii_of_string (_validate_symbol "btc-usd")) /\
  (String.length (_validate_symbol "btc-usd") <= String.length "btc-usd")%nat.
Proof.
  split; [reflexivity|]. apply (validate_symbol_alphabet "btc-usd"). reflexivity.
Defined.

(** [DefiLlamaDataSource.get_crypto_price]: a price that is returned carries
    the normalised symbol, the DefiLlama source tag, a zero volume and the
    clock reading; its market cap is never a zero (a zero or missing cap is
    reported as absent); and it exists only for a symbol of the translation
    table whose identifier is a key of the provider's answer. *)
Theorem defillama_price_shape
    (_make_request : string -> dict string (dict string Q))
    (now : datetime) (symbol : string) (p : PriceData.t) :
  DefiLlama.get_crypto_price _make_request now symbol = Some p ->
  PriceData.symbol p = _validate_symbol symbol /\
  PriceData.source p = DEFILLAMA /\
  PriceData.volume p = 0%Q /\
  PriceData.timestamp p = now /\
  (forall c, PriceData.market_cap p = Some c -> ~ (c == 0)%Q) /\
  exists defillama_symbol,
    DefiLlama._convert_to_defillama_symbol (_validate_symbol symbol)
    = Some defillama_symbol /\
    defillama_symbol
    ∈ dict_keys (_make_request ("/prices/current/" ++ defillama_symbol)%string).
Proof.
  unfold DefiLlama.get_crypto_price.
  destruct (DefiLlama._convert_to_defillama_symbol (_validate_symbol symbol))
    as [id|] eqn:Hid; [|done].
  destruct (negb (truthy_str (Some id))); [done|].
  destruct (dict_get _ id) as [price_info|] eqn:Hget; [|done].
  intros [= <-]. simpl. repeat split; try done.
  - intros c Hc.
    destruct (dict_get price_info "market_cap") as [c'|] eqn:Hcap; simpl in Hc.
    + destruct (negb (Qeq_bool c' 0)) eqn:Hq; [|done].
      injection Hc as <-. intros Hz. apply Qeq_bool_iff in Hz.
      by rewrite Hz in Hq.
    + done.
  - exists id. split; [done|].
    apply dict_get_Some_elem in Hget. by eapply elem_dict_key.
Qed.

Lemma defillama_price_shape_witness :
  exists p,
    DefiLlama.get_crypto_price price_response 7 "btc" = Some p /\
    PriceData.symbol p = _validate_symbol "btc" /\
    PriceData.source p = DEFILLAMA /\
    PriceData.volume p = 0%Q /\
    PriceData.timestamp p = 7 /\
    (forall c, PriceData.market_cap p = Some c -> ~ (c == 0)%Q) /\
    exists defillama_symbol,
      DefiLlama._convert_to_defillama_symbol (_validate_symbol "btc")
      = Some defillama_symbol /\
      defillama_symbol
      ∈ dict_keys (price_response ("/prices/current/" ++ defillama_symbol)%string).
Proof.
  eexists. split; [reflexivity|].
  apply (defillama_price_shape price_response 7 "btc"). reflexivity.
Defined.

Lemma rule_table_label (rules : dict string (Q -> string)) (n : string) (v : Q) :
  Forall (fun entry => entry.2 v ∈ labels) rules ->
  match dict_get rules n with
  | Some rule => rule v
  | None => "neutral"
  end ∈ labels.
Proof.
  intros Hall. destruct (dict_get rules n) as [rule|] eqn:Hget; [|compute_done].
  apply dict_get_Some_elem in Hget.
  rewrite Forall_forall in Hall. by apply (Hall (n, rule)).
Qed.

Ltac rule_cases :=
  repeat (apply Forall_cons; split;
          [ simpl;
            repeat match goal with
                   | |- context [Qgt_bool ?a ?b] => destruct (Qgt_bool a b)
                   | |- context [Qlt_bool ?a ?b] => destruct (Qlt_bool a b)
                   end;
            compute_done
          | ]);
  by apply Forall_nil.

(** The signal rules of the four adapters: for every indicator name and every
    value the label is bullish, bearish or neutral, so that it always has a
    score in the sentiment table; a name that is not in an adapter's rule
    table is labelled neutral. *)
Theorem signal_rules_labels (n : string) (v : Q) :
  (Bloomberg._determine_signal n v ∈ labels /\
   TradingView._determine_signal n v ∈ labels /\
   Glassnode._determine_onchain_signal n v ∈ labels /\
   DefiLlama._determine_defi_signal n v ∈ labels) /\
  (forall label, label ∈ labels ->
     is_Some (dict_get DataAggregator.sentiment_scores label)) /\
  (n ∉ dict_keys Bloomberg.signal_rules -> Bloomberg._determine_signal n v = "neutral") /\
  (n ∉ dict_keys TradingView.signal_rules -> TradingView._determine_signal n v = "neutral") /\
  (n ∉ dict_keys Glassnode.signal_rules ->
   Glassnode._determine_onchain_signal n v = "neutral") /\
  (n ∉ dict_keys DefiLlama.signal_rules ->
   DefiLlama._determine_defi_signal n v = "neutral").
Proof.
  split; [|split].
  - repeat split.
    + apply rule_table_label. unfold Bloomberg.signal_rules. rule_cases.
    + apply rule_table_label. unfold TradingView.signal_rules. rule_cases.
    + apply rule_table_label. unfold Glassnode.signal_rules. rule_cases.
    + apply rule_table_label. unfold DefiLlama.signal_rules. rule_cases.
  - intros label Hl. unfold labels in Hl.
    repeat (apply elem_of_cons in Hl as [->|Hl]; [by eexists|]).
    by apply elem_of_nil in Hl.
  - repeat split; intros Hni; apply dict_get_None in Hni;
      unfold Bloomberg._determine_signal, TradingView._determine_signal,
             Glassnode._determine_onchain_signal, DefiLlama._determine_defi_signal;
      by rewrite Hni.
Qed.

Lemma defillama_identifier_nonempty (symbol id : string) :
  DefiLlama._convert_to_defillama_symbol symbol = Some id ->
  truthy_str (Some id) = true.
Proof.
  unfold DefiLlama._convert_to_defillama_symbol. intros Hget.
  apply dict_get_Some_elem in Hget.
  assert (Hall : Forall (fun entry : string * string => truthy_str (Some entry.2) = true)
                        DefiLlama.symbol_mapping)
    by (unfold DefiLlama.symbol_mapping; repeat constructor).
  rewrite Forall_forall in Hall. by apply (Hall (upper symbol, id)).
Qed.

Lemma Qgt_lt_exclusive (v hi lo : Q) :
  (lo <= hi)%Q -> Qgt_bool v hi = true -> Qlt_bool v lo = true -> False.
Proof.
  unfold Qgt_bool, Qlt_bool. intros Hle Hgt Hlt.
  apply negb_true_iff in Hgt, Hlt.
  apply Qle_bool_false in Hgt. apply Qle_bool_false in Hlt. lra.
Qed.

Lemma defi_signal_tvl (data : dict string Q) :
  defi_signal_of data "TVL"
  = let tvl := default 0%Q (dict_get data "tvl") in
    if Qgt_bool tvl 1000000000 then "bullish"
    else if Qlt_bool tvl 100000000 then "bearish" else "neutral".
Proof. reflexivity. Qed.

Lemma defi_signal_volume (data : dict string Q) :
  defi_signal_of data "Volume_24h"
  = let volume := default 0%Q (dict_get data "volume24h") in
    if Qgt_bool volume 100000000 then "bullish"
    else if Qlt_bool volume 10000000 then "bearish" else "neutral".
Proof. reflexivity. Qed.

Lemma defi_signal_fees (data : dict string Q) :
  defi_signal_of data "Fees_24h"
  = let fees := default 0%Q (dict_get data "fees24h") in
    if Qgt_bool fees 1000000 then "bullish"
    else if Qlt_bool fees 100000 then "bearish" else "neutral".
Proof. reflexivity. Qed.

(** [_get_defi_sentiment] against the signal rules: for a supported symbol
    whose protocol object is not empty, the sentiment is bullish exactly
    when TVL, 24h volume and 24h fees are all labelled bullish by
    [_determine_defi_signal], bearish exactly when they are not all bullish
    and at least one is labelled bearish, and neutral otherwise; the
    volatility is always absent. *)
Theorem defi_sentiment_follows_signals
    (_make_request : string -> dict string Q) (symbol id : string) :
  DefiLlama._convert_to_defillama_symbol symbol = Some id ->
  _make_request ("/protocols/" ++ id)%string <> [] ->
  let data := _make_request ("/protocols/" ++ id)%string in
  let all_bullish :=
    defi_signal_of data "TVL" = "bullish" /\
    defi_signal_of data "Volume_24h" = "bullish" /\
    defi_signal_of data "Fees_24h" = "bullish" in
  let some_bearish :=
    defi_signal_of data "TVL" = "bearish" \/
    defi_signal_of data "Volume_24h" = "bearish" \/
    defi_signal_of data "Fees_24h" = "bearish" in
  let result := DefiLlama._get_defi_sentiment _make_request symbol in
  (DefiLlama.sentiment result = Some "bullish" <-> all_bullish) /\
  (DefiLlama.sentiment result = Some "bearish" <-> ~ all_bullish /\ some_bearish) /\
  (DefiLlama.sentiment result = Some "neutral" <-> ~ all_bullish /\ ~ some_bearish) /\
  DefiLlama.volatility result = None.
Proof.
  intros Hid Hdata data all_bullish some_bearish result.
  unfold result, DefiLlama._get_defi_sentiment. rewrite Hid.
  rewrite (defillama_identifier_nonempty _ _ Hid). cbn [negb].
  unfold all_bullish, some_bearish, data.
  clear result all_bullish some_bearish data.
  rewrite defi_signal_tvl, defi_signal_volume, defi_signal_fees.
  destruct (_make_request ("/protocols/" ++ id)%string) as [|entry rest] eqn:Hd;
    [done|]. cbn iota. rewrite <- Hd. clear Hdata Hd entry rest.
  set (tvl := default 0%Q (dict_get _ "tvl")).
  set (vol := default 0%Q (dict_get _ "volume24h")).
  set (fees := default 0%Q (dict_get _ "fees24h")).
  cbn [DefiLlama.sentiment DefiLlama.volatility].
  assert (Ht : Qgt_bool tvl 1000000000 && Qlt_bool tvl 100000000 = false).
  { apply andb_false_iff. destruct (Qgt_bool tvl 1000000000) eqn:Hg; [|by left].
    destruct (Qlt_bool tvl 100000000) eqn:Hl; [|by right].
    exfalso. apply (Qgt_lt_exclusive tvl 1000000000 100000000); [|done|done].
    unfold Qle. simpl. lia. }
  assert (Hv : Qgt_bool vol 100000000 && Qlt_bool vol 10000000 = false).
  { apply andb_false_iff. destruct (Qgt_bool vol 100000000) eqn:Hg; [|by left].
    destruct (Qlt_bool vol 10000000) eqn:Hl; [|by right].
    exfalso. apply (Qgt_lt_exclusive vol 100000000 10000000); [|done|done].
    unfold Qle. simpl. lia. }
  assert (Hf : Qgt_bool fees 1000000 && Qlt_bool fees 100000 = false).
  { apply andb_false_iff. destruct (Qgt_bool fees 1000000) eqn:Hg; [|by left].
    destruct (Qlt_bool fees 100000) eqn:Hl; [|by right].
    exfalso. apply (Qgt_lt_exclusive fees 1000000 100000); [|done|done].
    unfold Qle. simpl. lia. }
  destruct (Qgt_bool tvl 1000000000), (Qlt_bool tvl 100000000); try discriminate Ht;
    destruct (Qgt_bool vol 100000000), (Qlt_bool vol 10000000); try discriminate Hv;
    destruct (Qgt_bool fees 1000000), (Qlt_bool fees 100000); try discriminate Hf;
    clear; cbn [andb orb]; compute_done.
Qed.

Lemma defi_sentiment_follows_signals_witness :
  let data := protocol_response "/protocols/bitcoin" in
  let all_bullish :=
    defi_signal_of data "TVL" = "bullish" /\
    defi_signal_of data "Volume_24h" = "bullish" /\
    defi_signal_of data "Fees_24h" = "bullish" in
  let some_bearish :=
    defi_signal_of data "TVL" = "bearish" \/
    defi_signal_of data "Volume_24h" = "bearish" \/
    defi_signal_of data "Fees_24h" = "bearish" in
  let result := DefiLlama._get_defi_sentiment protocol_response "BTC" in
  (DefiLlama.sentiment result = Some "bullish" <-> all_bullish) /\
  (DefiLlama.sentiment result = Some "bearish" <-> ~ all_bullish /\ some_bearish) /\
  (DefiLlama.sentiment result = Some "neutral" <-> ~ all_bullish /\ ~ some_bearish) /\
  DefiLlama.volatility result = None.
Proof.
  apply (defi_sentiment_follows_signals protocol_response "BTC" "bitcoin");
    [reflexivity | discriminate].
Defined.

Lemma indicator_step_shape (_make_request : string -> dict string Q)
    (indicator_time : nat -> datetime) (id : string) (i : nat) (indicator : string) :
  DefiLlama.indicator_step _make_request indicator_time id i indicator = [] \/
  exists ind,
    DefiLlama.indicator_step _make_request indicator_time id i indicator = [ind] /\
    TechnicalIndicator.name ind = indicator /\
    TechnicalIndicator.timestamp ind = indicator_time i /\
    defi_indicator_ok ind.
Proof.
  unfold DefiLlama.indicator_step.
  destruct (bool_decide (indicator ∈ _)) eqn:Hsup; [|by left].
  apply bool_decide_eq_true in Hsup.
  destruct (dict_get _ "tvl"); [|by left].
  destruct (DefiLlama._extract_indicator_value _ indicator) as [value|]; [|by left].
  right. eexists. split; [reflexivity|]. simpl. repeat split; done.
Qed.

Lemma concat_imap_shape {A B : Type} (key : B -> A) (P : B -> Prop) (l : list A) :
  forall (g : nat -> A -> list B),
    (forall i x, g i x = [] \/ exists y, g i x = [y] /\ key y = x /\ P y) ->
    Forall P (concat (imap g l)) /\
    map key (concat (imap g l)) `sublist_of` l.
Proof.
  induction l as [|x l IH]; intros g Hg.
  - split; [constructor | done].
  - rewrite imap_cons. simpl.
    destruct (IH (g ∘ Datatypes.S)) as [HF Hs].
    { intros i y. apply Hg. }
    destruct (Hg 0%nat x) as [->|(y & -> & Hk & Hp)]; simpl.
    + split; [done | by apply sublist_cons].
    + split; [by constructor|]. rewrite Hk. by apply sublist_skip.
Qed.

Lemma defillama_indicators_facts (_make_request : string -> dict string Q)
    (indicator_time : nat -> datetime) (symbol : string) (indicators : list string) :
  Forall defi_indicator_ok
         (DefiLlama.get_technical_indicators _make_request indicator_time
                                             symbol indicators) /\
  map TechnicalIndicator.name
      (DefiLlama.get_technical_indicators _make_request indicator_time
                                          symbol indicators)
  `sublist_of` indicators.
Proof.
  unfold DefiLlama.get_technical_indicators.
  destruct (DefiLlama._convert_to_defillama_symbol (_validate_symbol symbol))
    as [id|] eqn:Hid.
  - rewrite (defillama_identifier_nonempty _ _ Hid). cbn [negb].
    apply (concat_imap_shape TechnicalIndicator.name defi_indicator_ok indicators
             (DefiLlama.indicator_step _make_request indicator_time id)).
    intros i x.
    destruct (indicator_step_shape _make_request indicator_time id i x)
      as [->|(ind & -> & Hn & _ & Hok)]; [by left|].
    right. by exists ind.
  - split; [done | apply sublist_nil_l].
Qed.

(** [DefiLlamaDataSource.get_technical_indicators]: every indicator produced
    carries the DefiLlama source tag, one of the four DeFi metric names, and
    the signal that [_determine_defi_signal] gives to its name and value; the
    names produced are a subsequence of the requested names (nothing that was
    not asked for, in the order asked, unsupported names skipped); and a
    symbol without translation yields the empty list. *)
Theorem defillama_indicators_shape (_make_request : string -> dict string Q)
    (indicator_time : nat -> datetime) (symbol : string) (indicators : list string) :
  let result := DefiLlama.get_technical_indicators _make_request indicator_time
                                                   symbol indicators in
  Forall defi_indicator_ok result /\
  map TechnicalIndicator.name result `sublist_of` indicators /\
  (DefiLlama._convert_to_defillama_symbol (_validate_symbol symbol) = None ->
   result = []).
Proof.
  intros result.
  destruct (defillama_indicators_facts _make_request indicator_time symbol indicators)
    as [HF Hs].
  split; [done|]. split; [done|].
  intros Hnone. unfold result, DefiLlama.get_technical_indicators. by rewrite Hnone.
Qed.

Lemma defi_sentiment_range (_make_request : string -> dict string Q) (symbol : string) :
  DefiLlama.volatility (DefiLlama._get_defi_sentiment _make_request symbol) = None /\
  (DefiLlama.sentiment (DefiLlama._get_defi_sentiment _make_request symbol) = None \/
   exists label,
     label ∈ labels /\
     DefiLlama.sentiment (DefiLlama._get_defi_sentiment _make_request symbol)
     = Some label).
Proof.
  unfold DefiLlama._get_defi_sentiment.
  destruct (DefiLlama._convert_to_defillama_symbol symbol); [|by split; [|left]].
  destruct (negb _); [by split; [|left]|].
  destruct (_make_request _); [by split; [|left]|].
  split; [done|]. right. cbn [DefiLlama.sentiment].
  destruct (andb _ _); [exists "bullish"; split; [compute_done | done]|].
  destruct (orb _ _); [exists "bearish" | exists "neutral"];
    (split; [compute_done | done]).
Qed.

Lemma defillama_price_normalised
    (_make_request_prices : string -> dict string (dict string Q))
    (now : datetime) (symbol : string) :
  DefiLlama.get_crypto_price _make_request_prices now (_validate_symbol symbol)
  = DefiLlama.get_crypto_price _make_request_prices now symbol.
Proof. unfold DefiLlama.get_crypto_price. by rewrite _validate_symbol_idem. Qed.

(** [DefiLlamaDataSource.get_market_data]: the snapshot is absent exactly
    when [get_crypto_price] has no price for the symbol; when present it
    carries exactly that price, the normalised symbol, the DefiLlama source
    tag, no volatility, a sentiment that is absent or one of the three
    labels, and indicators that satisfy the adapter's rules. *)
Theorem defillama_market_data_shape
    (_make_request : string -> dict string Q)
    (_make_request_prices : string -> dict string (dict string Q))
    (price_time : datetime) (indicator_time : nat -> datetime)
    (snapshot_time : datetime) (symbol : string) :
  let result := DefiLlama.get_market_data _make_request _make_request_prices
                  price_time indicator_time snapshot_time symbol in
  (result = None <->
   DefiLlama.get_crypto_price _make_request_prices price_time symbol = None) /\
  (forall md, result = Some md ->
     DefiLlama.get_crypto_price _make_request_prices price_time symbol
     = Some (MarketData.price_data md) /\
     MarketData.symbol md = _validate_symbol symbol /\
     MarketData.source md = DEFILLAMA /\
     MarketData.timestamp md = snapshot_time /\
     MarketData.volatility md = None /\
     (MarketData.market_sentiment md = None \/
      exists label, label ∈ labels /\ MarketData.market_sentiment md = Some label) /\
     Forall defi_indicator_ok (MarketData.technical_indicators md)).
Proof.
  intros result. unfold result, DefiLlama.get_market_data.
  rewrite defillama_price_normalised.
  destruct (DefiLlama.get_crypto_price _make_request_prices price_time symbol)
    as [price_data|]; [|done].
  split; [done|]. intros md [= <-]. cbn [MarketData.price_data MarketData.symbol
    MarketData.source MarketData.timestamp MarketData.volatility
    MarketData.market_sentiment MarketData.technical_indicators].
  destruct (defi_sentiment_range _make_request (_validate_symbol symbol))
    as [Hvol Hsent].
  repeat (split; [done|]).
  apply (defillama_indicators_facts _make_request indicator_time
           (_validate_symbol symbol)).
Qed.

(* ===================================================================== *)
(** ** Searching *)
(* ===================================================================== *)

Lemma insert_by_tvl_perm x l : DefiLlama.insert_by_tvl x l ≡ₚ x :: l.
Proof.
  induction l as [|y l IH]; simpl; [done|].
  destruct (Qle_bool _ _); [done|]. rewrite IH. apply Permutation_swap.
Qed.

Lemma sort_by_tvl_perm l : DefiLlama.sort_by_tvl l ≡ₚ l.
Proof.
  induction l as [|x l IH]; simpl; [done|].
  by rewrite insert_by_tvl_perm, IH.
Qed.

Lemma insert_by_tvl_descending x l :
  tvl_descending l -> tvl_descending (DefiLlama.insert_by_tvl x l).
Proof.
  unfold tvl_descending. induction 1 as [|y l Hs IH Hhd]; simpl.
  - repeat constructor.
  - destruct (Qle_bool (DefiLlama.hit_tvl y) (DefiLlama.hit_tvl x)) eqn:Hle.
    + apply Qle_bool_iff in Hle. repeat constructor; done.
    + apply Qle_bool_false in Hle. constructor; [done|].
      destruct l as [|z l]; simpl in *.
      * constructor. lra.
      * destruct (Qle_bool (DefiLlama.hit_tvl z) (DefiLlama.hit_tvl x));
          constructor; [lra|]. by inversion Hhd.
Qed.

Lemma sort_by_tvl_descending l : tvl_descending (DefiLlama.sort_by_tvl l).
Proof.
  induction l as [|x l IH]; simpl; [constructor|].
  by apply insert_by_tvl_descending.
Qed.

Lemma tvl_descending_split (l1 l2 : list DefiLlama.search_hit) :
  tvl_descending (l1 ++ l2) ->
  tvl_descending l1 /\
  forall a b, a ∈ l1 -> b ∈ l2 -> (DefiLlama.hit_tvl b <= DefiLlama.hit_tvl a)%Q.
Proof.
  unfold tvl_descending. intros Hs.
  apply Sorted_StronglySorted in Hs; [|intros a b c Hab Hbc; lra].
  induction l1 as [|x l1 IH]; simpl in Hs.
  - split; [constructor|]. intros a b Ha. by apply elem_of_nil in Ha.
  - apply StronglySorted_inv in Hs as [Hs Hx].
    destruct (IH Hs) as [Hsorted Hcross]. split.
    + apply Sorted_cons; [done|]. destruct l1; constructor.
      apply Forall_inv in Hx. done.
    + intros a b Ha Hb. apply elem_of_cons in Ha as [->|Ha]; [|by apply Hcross].
      rewrite Forall_forall in Hx. apply Hx. apply elem_of_app. by right.
Qed.

(** [DefiLlamaDataSource.search_crypto]: at most ten results, in descending
    order of total value locked; every result is built from a protocol of
    the listing whose name or symbol contains the lower-cased query; and a
    matching protocol that is left out has a value no greater than every
    result kept. *)
Theorem defillama_search_top_ten
    (_make_request_list : string -> list DefiLlama.protocol) (query : string) :
  let data := _make_request_list "/protocols" in
  let result := DefiLlama.search_crypto _make_request_list query in
  (length result <= 10)%nat /\
  tvl_descending result /\
  (forall hit, hit ∈ result ->
     DefiLlama.hit_source hit = "defillama" /\
     exists p, p ∈ data /\ DefiLlama.matches (lower query) p = true /\
               hit = DefiLlama.to_hit p) /\
  (forall p, p ∈ data -> DefiLlama.matches (lower query) p = true ->
     DefiLlama.to_hit p ∈ result \/
     forall hit, hit ∈ result ->
       (DefiLlama.hit_tvl (DefiLlama.to_hit p) <= DefiLlama.hit_tvl hit)%Q).
Proof.
  intros data result. unfold result, DefiLlama.search_crypto. fold data.
  set (found := map DefiLlama.to_hit (List.filter (DefiLlama.matches (lower query)) data)).
  set (sorted := DefiLlama.sort_by_tvl found).
  assert (Hsorted : tvl_descending (take 10 sorted ++ drop 10 sorted)).
  { rewrite take_drop. apply sort_by_tvl_descending. }
  destruct (tvl_descending_split _ _ Hsorted) as [Htake Hcross].
  assert (Hfound : forall hit, hit ∈ found <->
            exists p, p ∈ data /\ DefiLlama.matches (lower query) p = true /\
                      hit = DefiLlama.to_hit p).
  { intros hit. unfold found. rewrite list_elem_of_In, in_map_iff. split.
    - intros (p & <- & Hp). apply filter_In in Hp as [Hp Hm].
      exists p. by rewrite list_elem_of_In.
    - intros (p & Hp & Hm & ->). exists p. split; [done|].
      apply filter_In. by rewrite <- list_elem_of_In. }
  split; [|split; [done|split]].
  - rewrite length_take. lia.
  - intros hit Hhit.
    assert (Hin : hit ∈ found).
    { rewrite <- (sort_by_tvl_perm found). fold sorted.
      rewrite <- (take_drop 10 sorted). apply elem_of_app. by left. }
    apply Hfound in Hin as (p & Hp & Hm & ->). split; [done|]. by exists p.
  - intros p Hp Hm.
    assert (Hin : DefiLlama.to_hit p ∈ take 10 sorted ++ drop 10 sorted).
    { rewrite take_drop. unfold sorted. rewrite (sort_by_tvl_perm found).
      apply Hfound. by exists p. }
    apply elem_of_app in Hin as [Hin|Hin]; [by left|].
    right. intros hit Hhit. by apply Hcross.
Qed.

Lemma upper_lower_ascii (c : ascii) : upper_ascii (lower_ascii c) = upper_ascii c.
Proof. destruct c as [[] [] [] [] [] [] [] []]; reflexivity. Qed.

Lemma upper_lower (s : string) : upper (lower s) = upper s.
Proof. induction s as [|c s IH]; simpl; [done|]. by rewrite upper_lower_ascii, IH. Qed.

Lemma contains_empty (hay : string) : contains EmptyString hay = true.
Proof. by destruct hay. Qed.

Lemma bool_filter_sublist {A : Type} (keep : A -> bool) (l : list A) :
  List.filter keep l `sublist_of` l.
Proof.
  induction l as [|a l IH]; simpl; [constructor|].
  destruct (keep a); [by apply sublist_skip | by apply sublist_cons].
Qed.

(** [GlassnodeDataSource.search_crypto] is case-insensitive (a query, its
    upper-case and its lower-case form give the same results), returns only
    supported assets, each at most once and in table order, so never more
    than ten; and the empty query returns all ten. *)
Theorem glassnode_search_supported (query : string) :
  Glassnode.search_crypto (upper query) = Glassnode.search_crypto query /\
  Glassnode.search_crypto (lower query) = Glassnode.search_crypto query /\
  map Glassnode.hit_symbol (Glassnode.search_crypto query)
    `sublist_of` Glassnode.supported_assets /\
  (forall hit, hit ∈ Glassnode.search_crypto query ->
     contains (upper query) (Glassnode.hit_symbol hit) = true /\
     Glassnode.hit_name hit = Glassnode.hit_symbol hit /\
     Glassnode.hit_source hit = "glassnode") /\
  (length (Glassnode.search_crypto query) <= 10)%nat /\
  map Glassnode.hit_symbol (Glassnode.search_crypto EmptyString)
  = Glassnode.supported_assets.
Proof.
  unfold Glassnode.search_crypto.
  split; [by rewrite upper_idem|]. split; [by rewrite upper_lower|].
  set (keep := fun asset => contains (upper query) asset || contains (upper query) asset).
  assert (Hsub : map Glassnode.hit_symbol
                   (map (fun asset => Glassnode.mk_hit asset asset "glassnode")
                        (List.filter keep Glassnode.supported_assets))
                 `sublist_of` Glassnode.supported_assets).
  { assert (Hmap : forall l : list string,
              map Glassnode.hit_symbol
                  (map (fun asset => Glassnode.mk_hit asset asset "glassnode") l) = l).
    { intros l. induction l as [|a l IH]; simpl; congruence. }
    rewrite Hmap. apply bool_filter_sublist. }
  split; [done|]. split; [|split].
  - intros hit Hhit. rewrite list_elem_of_In, in_map_iff in Hhit.
    destruct Hhit as (asset & <- & Hasset). apply filter_In in Hasset as [_ Hk].
    simpl. split; [|done]. unfold keep in Hk. by destruct (contains _ asset).
  - apply sublist_length in Hsub. rewrite length_map in Hsub.
    etransitivity; [exact Hsub|]. done.
  - reflexivity.
Qed.

(* ===================================================================== *)
(** ** The agent's signal parser *)
(* ===================================================================== *)

Lemma last_nonempty {A : Type} (l : list A) : l <> [] -> exists x, last l = Some x.
Proof.
  intros Hne. destruct (last l) as [x|] eqn:Hl; [by exists x|].
  by apply last_None in Hl.
Qed.

(** [_parse_trading_signal] on a record with at least one snapshot returns a
    signal whose direction is decided by the words of the lower-cased
    response, "buy" taking precedence over "sell": it is a buy signal exactly
    when the response contains "buy", a sell signal exactly when it contains
    "sell" but not "buy", and a hold signal otherwise, exactly one of the
    three. The strength is very strong exactly when a buy or sell response
    also contains "strong". The confidence is 0.8, 0.6 or 0.4. *)
Theorem parse_signal_by_keywords (now : datetime) (symbol response : string)
    (crypto_data : CryptoData.t) :
  CryptoData.market_data crypto_data <> [] ->
  let text := lower response in
  exists signal,
    CryptoAgent._parse_trading_signal now symbol response crypto_data
    = Returned signal /\
    TradingSignal.is_buy_signal signal = contains "buy" text /\
    TradingSignal.is_sell_signal signal
    = negb (contains "buy" text) && contains "sell" text /\
    TradingSignal.is_hold_signal signal
    = negb (contains "buy" text) && negb (contains "sell" text) /\
    (TradingSignal.strength signal = VERY_STRONG <->
     contains "strong" text = true /\
     (contains "buy" text = true \/ contains "sell" text = true)) /\
    TradingSignal.confidence signal ∈ [8 # 10; 6 # 10; 4 # 10] /\
    TradingSignal.reasoning signal = response /\
    TradingSignal.symbol signal = symbol /\
    TradingSignal.source signal = "AI_Agent".
Proof.
  intros Hne text. unfold CryptoAgent._parse_trading_signal. fold text.
  destruct (last_nonempty _ Hne) as [latest ->].
  destruct (contains "buy" text), (contains "strong" text), (contains "sell" text),
           (contains "high" text), (contains "medium" text);
    (eexists; split; [reflexivity|]);
    cbn [TradingSignal.is_buy_signal TradingSignal.is_sell_signal
         TradingSignal.is_hold_signal TradingSignal.signal_type
         TradingSignal.strength TradingSignal.confidence TradingSignal.reasoning
         TradingSignal.symbol TradingSignal.source negb andb];
    repeat split; try done; try compute_done;
    try (intros [? [?|?]]; discriminate); try (intros [? ?]; discriminate);
    try (by left); try (by right; left); try (by right; right; left).
Qed.

Lemma parse_signal_by_keywords_witness :
  let text := lower "Strong BUY, do not sell; confidence HIGH" in
  exists signal,
    CryptoAgent._parse_trading_signal 0 "BTC"
      "Strong BUY, do not sell; confidence HIGH" repeated_rsi
    = Returned signal /\
    TradingSignal.is_buy_signal signal = contains "buy" text /\
    TradingSignal.is_sell_signal signal
    = negb (contains "buy" text) && contains "sell" text /\
    TradingSignal.is_hold_signal signal
    = negb (contains "buy" text) && negb (contains "sell" text) /\
    (TradingSignal.strength signal = VERY_STRONG <->
     contains "strong" text = true /\
     (contains "buy" text = true \/ contains "sell" text = true)) /\
    TradingSignal.confidence signal ∈ [8 # 10; 6 # 10; 4 # 10] /\
    TradingSignal.reasoning signal = "Strong BUY, do not sell; confidence HIGH" /\
    TradingSignal.symbol signal = "BTC" /\
    TradingSignal.source signal = "AI_Agent".
Proof.
  apply (parse_signal_by_keywords 0 "BTC"
           "Strong BUY, do not sell; confidence HIGH" repeated_rsi).
  unfold repeated_rsi. simpl. discriminate.
Defined.

(** [_parse_trading_signal] raises exactly when the record has no snapshot,
    and then an [IndexError]: the confidence it computes always passes the
    bounds check of [TradingSignal]. On every record the merge returns it
    therefore gives a signal. *)
Theorem parse_raises_only_without_snapshot (now : datetime)
    (symbol response : string) (crypto_data : CryptoData.t) :
  (CryptoAgent._parse_trading_signal now symbol response crypto_data
   = Raised "IndexError" <-> CryptoData.market_data crypto_data = []) /\
  (forall e, CryptoAgent._parse_trading_signal now symbol response crypto_data
             = Raised e -> e = "IndexError") /\
  (forall now' symbol' market_data_list,
     DataAggregator._aggregate_market_data now' symbol' market_data_list
     = Some crypto_data ->
     exists signal,
       CryptoAgent._parse_trading_signal now symbol response crypto_data
       = Returned signal).
Proof.
  assert (Hcase : CryptoData.market_data crypto_data = [] /\
                  CryptoAgent._parse_trading_signal now symbol response crypto_data
                  = Raised "IndexError"
                  \/ CryptoData.market_data crypto_data <> [] /\
                     exists signal,
                       CryptoAgent._parse_trading_signal now symbol response crypto_data
                       = Returned signal).
  { destruct (CryptoData.market_data crypto_data) as [|md l] eqn:Hmd.
    - left. split; [done|]. unfold CryptoAgent._parse_trading_signal. rewrite Hmd.
      destruct (contains "buy" (lower response));
        destruct (contains "strong" (lower response));
        destruct (contains "sell" (lower response)); reflexivity.
    - right. split; [done|]. unfold CryptoAgent._parse_trading_signal.
      destruct (last_nonempty (CryptoData.market_data crypto_data)) as [latest Hl];
        [by rewrite Hmd|]. rewrite Hl.
      destruct (contains "buy" (lower response));
        destruct (contains "strong" (lower response));
        destruct (contains "sell" (lower response));
        destruct (contains "high" (lower response));
        destruct (contains "medium" (lower response)); eexists; reflexivity. }
  split; [|split].
  - destruct Hcase as [[Hmd Hr]|[Hmd (signal & Hr)]]; rewrite Hr; split; done.
  - intros e. destruct Hcase as [[Hmd Hr]|[Hmd (signal & Hr)]]; rewrite Hr;
      [by intros [= <-] | done].
  - intros now' symbol' market_data_list Hagg.
    destruct Hcase as [[Hmd Hr]|[Hmd Hr]]; [|done]. exfalso.
    destruct market_data_list as [|md l]; [discriminate Hagg|].
    destruct (aggregate_Some now' symbol' (md :: l)) as (i & _ & Hagg'); [done|].
    rewrite Hagg' in Hagg. injection Hagg as <-. simpl in Hmd.
    apply (f_equal length) in Hmd. unfold DataAggregator.merged_list in Hmd.
    rewrite length_alter in Hmd. done.
Qed.

Lemma signals_by_name_snoc (indicators : list TechnicalIndicator.t)
    (ind : TechnicalIndicator.t) :
  CryptoAgent.signals_by_name (indicators ++ [ind])
  = dict_set (CryptoAgent.signals_by_name indicators)
             (TechnicalIndicator.name ind) (TechnicalIndicator.signal ind).
Proof. unfold CryptoAgent.signals_by_name. by rewrite fold_left_app. Qed.

(** The indicator dictionary of a parsed signal has one entry per indicator
    name of the record's last snapshot, and when a name occurs several times
    in that snapshot the signal of its last occurrence is the one kept. *)
Theorem parsed_signal_keeps_last_occurrence (now : datetime)
    (symbol response : string) (crypto_data : CryptoData.t)
    (latest : MarketData.t) (signal : TradingSignal.t) :
  last (CryptoData.market_data crypto_data) = Some latest ->
  CryptoAgent._parse_trading_signal now symbol response crypto_data
  = Returned signal ->
  NoDup (dict_keys (TradingSignal.technical_indicators signal)) /\
  forall n,
    dict_get (TradingSignal.technical_indicators signal) n
    = (TechnicalIndicator.signal
         <$> last (filter (fun i => ind_name i = n)
                          (MarketData.technical_indicators latest))).
Proof.
  intros Hlast Hparse.
  assert (Hdict : TradingSignal.technical_indicators signal
                  = CryptoAgent.signals_by_name (MarketData.technical_indicators latest)).
  { unfold CryptoAgent._parse_trading_signal in Hparse. rewrite Hlast in Hparse.
    generalize dependent (contains "buy" (lower response)).
    generalize dependent (contains "strong" (lower response)).
    generalize dependent (contains "sell" (lower response)).
    generalize dependent (contains "high" (lower response)).
    generalize dependent (contains "medium" (lower response)).
    intros [] [] [] [] [] Hparse; injection Hparse as <-; reflexivity. }
  rewrite Hdict. clear.
  induction (MarketData.technical_indicators latest) as [|ind l IH] using rev_ind.
  - split; [constructor | done].
  - destruct IH as [IHn IHg]. rewrite signals_by_name_snoc. split.
    + by apply dict_set_NoDup.
    + intros n. rewrite dict_get_set, filter_app, filter_cons, filter_nil.
      destruct (decide (n = ind_name ind)) as [->|Hne].
      * rewrite decide_True by done. by rewrite last_snoc.
      * rewrite decide_False by done. by rewrite app_nil_r.
Qed.

Lemma parsed_signal_keeps_last_occurrence_witness :
  exists signal,
    CryptoAgent._parse_trading_signal 0 "BTC" "hold" repeated_rsi = Returned signal /\
    NoDup (dict_keys (TradingSignal.technical_indicators signal)) /\
    forall n,
      dict_get (TradingSignal.technical_indicators signal) n
      = (TechnicalIndicator.signal
           <$> last (filter (fun i => ind_name i = n)
                            [ Scenario.rsi 75 "bearish" 100 BLOOMBERG;
                              Scenario.rsi 20 "bullish" 105 TRADINGVIEW ])).
Proof.
  eexists. split; [reflexivity|].
  apply (parsed_signal_keeps_last_occurrence 0 "BTC" "hold" repeated_rsi
           (Scenario.snapshot 50000 100 BLOOMBERG
              [ Scenario.rsi 75 "bearish" 100 BLOOMBERG;
                Scenario.rsi 20 "bullish" 105 TRADINGVIEW ] None));
    reflexivity.
Defined.

(* ===================================================================== *)
(** ** The helper functions *)
(* ===================================================================== *)

Lemma string_length_app (s1 s2 : string) :
  String.length (s1 ++ s2)%string = (String.length s1 + String.length s2)%nat.
Proof. induction s1 as [|c s1 IH]; simpl; [done | by rewrite IH]. Qed.

Lemma substring_prefix_length (n : nat) (s : string) :
  String.length (substring 0 n s) = Nat.min n (String.length s).
Proof.
  revert n. induction s as [|c s IH]; intros [|n]; simpl; try done.
  by rewrite IH.
Qed.

(** [truncate_string]: a text no longer than the limit is returned as it is;
    with a limit of at least 3 a longer text is cut to exactly the limit,
    its last three characters being dots; with a limit below 3 a longer text
    is not shortened to the limit: the result is longer than the limit. *)
Theorem truncate_string_length (text : string) (max_length : Z) :
  let n := Z.of_nat (String.length text) in
  let result := Helpers.truncate_string text max_length in
  (n <= max_length -> result = text) /\
  (3 <= max_length < n ->
   Z.of_nat (String.length result) = max_length /\
   result = (substring 0 (Z.to_nat (max_length - 3)) text ++ "...")%string) /\
  (max_length < 3 -> max_length < n ->
   Z.of_nat (String.length result) = Z.max (n + max_length - 3) 0 + 3 /\
   max_length < Z.of_nat (String.length result)).
Proof.
  intros n result. unfold result, Helpers.truncate_string. fold n.
  split; [|split].
  - intros Hle. destruct (Z.leb_spec n max_length); [done | lia].
  - intros [H3 Hlt]. destruct (Z.leb_spec n max_length); [lia|].
    unfold Helpers.slice_to. fold n.
    destruct (Z.ltb_spec (max_length - 3) 0); [lia|].
    rewrite Z.min_l by lia. split; [|done].
    rewrite string_length_app, substring_prefix_length. simpl. unfold n in *. lia.
  - intros H3 Hlt. destruct (Z.leb_spec n max_length); [lia|].
    unfold Helpers.slice_to. fold n.
    destruct (Z.ltb_spec (max_length - 3) 0); [|lia].
    rewrite string_length_app, substring_prefix_length. simpl. unfold n in *. lia.
Qed.

Lemma alnum_not_separator (c : ascii) :
  Helpers.is_alnum c = true ->
  Ascii.eqb "-" c = false /\ Ascii.eqb "_" c = false.
Proof. destruct c as [[] [] [] [] [] [] [] []]; simpl; intros H; done. Qed.

Lemma all_alnum_no_separator (s : string) :
  Helpers.all_alnum s = true -> remove_char "-" s = s /\ remove_char "_" s = s.
Proof.
  induction s as [|c s IH]; [done|]. cbn [Helpers.all_alnum remove_char].
  intros Hall. apply andb_true_iff in Hall as [Hc Hs].
  destruct (alnum_not_separator c Hc) as [-> ->].
  destruct (IH Hs) as [-> ->]. done.
Qed.

Lemma all_alnum_Forall (s : string) :
  Helpers.all_alnum s = true ->
  Forall (fun c => Helpers.is_alnum c = true) (list_ascii_of_string s).
Proof.
  induction s as [|c s IH]; simpl; [constructor|]. intros Hall.
  apply andb_true_iff in Hall as [Hc Hs]. constructor; [done | by apply IH].
Qed.

(** [helpers.validate_symbol] against [BaseDataSource._validate_symbol], on
    ASCII text: a symbol the helper accepts has, once stripped and
    upper-cased, between 2 and 10 characters, all of them letters or digits;
    the adapters' normalisation of the stripped symbol is then just its
    upper-case form, with nothing removed. *)
Theorem accepted_symbol_is_normal (symbol : string) :
  Helpers.validate_symbol symbol = true ->
  let text := upper (Helpers.strip symbol) in
  _validate_symbol (Helpers.strip symbol) = text /\
  (2 <= String.length text <= 10)%nat /\
  Forall (fun c => Helpers.is_alnum c = true) (list_ascii_of_string text).
Proof.
  unfold Helpers.validate_symbol. destruct symbol as [|c0 s0]; [done|].
  set (symbol := String c0 s0). set (text := upper (Helpers.strip symbol)).
  intros Hv.
  apply andb_true_iff in Hv as [Hv Halnum].
  apply andb_true_iff in Hv as [Hlo Hhi].
  apply Nat.leb_le in Hlo, Hhi.
  assert (Hall : Helpers.all_alnum text = true).
  { unfold Helpers.isalnum in Halnum. by destruct text. }
  split; [|split; [lia | by apply all_alnum_Forall]].
  unfold _validate_symbol. fold text.
  destruct (all_alnum_no_separator text Hall) as [-> ->]. done.
Qed.

Lemma accepted_symbol_is_normal_witness :
  let text := upper (Helpers.strip " eth ") in
  _validate_symbol (Helpers.strip " eth ") = text /\
  (2 <= String.length text <= 10)%nat /\
  Forall (fun c => Helpers.is_alnum c = true) (list_ascii_of_string text).
Proof. apply (accepted_symbol_is_normal " eth "). reflexivity. Defined.
